(** * Cross-Market Analysis dashboard: a shallow embedding of [app.py]

    The dashboard reads four tables of a SQLite store ([crypto_prices],
    [oil_prices], [stock_prices], [cryptocurrencies]) and renders three
    pages.  This development embeds

    - the SQL statements the pages issue, each as its literal text together
      with a function on an in-memory store that computes its rows;
    - the pandas post-processing (all-null filter, chronological sort,
      base-100 normalisation);
    - the Streamlit control flow of the pages ([st.cache_data] memoisation,
      [st.error] / [st.warning] and [st.stop]) as a state-and-halt monad that
      records every statement sent to the store;
    - the query catalogue [QUERY_GROUPS] and the merged lookup [PREDEFINED].

    Conventions.
    - A REAL column value is an IEEE-754 binary64 number, [spec_float] of the
      standard library with [prec = 53] and [emax = 1024].  SQL NULL arrives in
      pandas as NaN and pandas treats NaN as null, so both are [S754_nan].
    - [date(col)] yields a calendar date for every row of the store (the
      schema's date columns); a calendar date is its day number in [Z], whose
      order is the order of the ISO strings the statements compare.
    - Text is ASCII: [LOWER], [str.lower], [str.upper] and [str.title] change
      the 26 Latin letters only.
    - Where SQL leaves an order open (ties of ORDER BY, the row behind a bare
      column of a GROUP BY, DISTINCT without ORDER BY) the store's scan order
      is used: first row first, stable sorts. *)

From Stdlib Require Import ZArith QArith Qpower String Ascii List Bool Lia.
From Stdlib Require Import Permutation Sorted.
From Stdlib Require Import Floats.SpecFloat.
Import ListNotations.

Local Open Scope Z_scope.

(** ** binary64 values *)

Module F64.

Definition t := spec_float.

Definition prec : Z := 53.
Definition emax : Z := 1024.

Definition add : t -> t -> t := SFadd prec emax.
Definition mul : t -> t -> t := SFmul prec emax.
Definition div : t -> t -> t := SFdiv prec emax.

(** The float of an integer literal or of a row count. *)
Definition of_Z (z : Z) : t := binary_normalize prec emax z 0 false.

Definition zero : t := S754_zero false.
Definition one : t := of_Z 1.
Definition hundred : t := of_Z 100.

(** NULL / NaN. *)
Definition null : t := S754_nan.

(** [Series.isnull] on one cell. *)
Definition isnull (x : t) : bool :=
  match x with S754_nan => true | _ => false end.

Definition notnull (x : t) : bool := negb (isnull x).

(** Finite and different from zero. *)
Definition is_finite_nonzero (x : t) : bool :=
  match x with S754_finite _ _ _ => true | _ => false end.

(** [Series.dropna]. *)
Definition dropna (col : list t) : list t := filter notnull col.

(** The rational a finite float denotes. *)
Definition to_Q (x : t) : Q :=
  match x with
  | S754_finite s m e =>
      ((if s then inject_Z (Z.neg m) else inject_Z (Z.pos m)) * (2 # 1) ^ e)%Q
  | _ => 0%Q
  end.

(** SQLite's sort order on a REAL column: NULL first, then the numbers by
    value. *)
Definition sort_class (x : t) : Z :=
  match x with
  | S754_nan => 0
  | S754_infinity true => 1
  | S754_zero _ | S754_finite _ _ _ => 2
  | S754_infinity false => 3
  end.

Definition leb (x y : t) : bool :=
  (sort_class x <? sort_class y)
  || ((sort_class x =? sort_class y) && Qle_bool (to_Q x) (to_Q y)).

(** SQL [AVG] and pandas [mean]: nulls are skipped, no value gives NULL.
    The sum is taken left to right; pandas adds pairwise, which can differ
    in the last bits. *)
Definition avg (col : list t) : t :=
  match dropna col with
  | [] => null
  | vs => div (fold_left add vs zero) (of_Z (Z.of_nat (length vs)))
  end.

End F64.

(** ** ASCII text *)

Module Text.

Local Open Scope string_scope.

Definition is_upper (c : ascii) : bool :=
  let n := N_of_ascii c in (65 <=? n)%N && (n <=? 90)%N.

Definition is_lower (c : ascii) : bool :=
  let n := N_of_ascii c in (97 <=? n)%N && (n <=? 122)%N.

Definition to_lower (c : ascii) : ascii :=
  if is_upper c then ascii_of_N (N_of_ascii c + 32) else c.

Definition to_upper (c : ascii) : ascii :=
  if is_lower c then ascii_of_N (N_of_ascii c - 32) else c.

Fixpoint map_chars (f : ascii -> ascii) (s : string) : string :=
  match s with
  | EmptyString => EmptyString
  | String c r => String (f c) (map_chars f r)
  end.

(** SQLite's [LOWER(x)], which folds the letters A to Z only and leaves
    every other byte alone.  Python's [x.lower()] agrees with it on ASCII
    text; on other text it also folds letters outside ASCII. *)
Definition lower : string -> string := map_chars to_lower.

(** [x.upper()] on ASCII text. *)
Definition upper : string -> string := map_chars to_upper.

(** Text of ASCII characters only, on which Python's [lower], [upper] and
    [title] are the functions of this module. *)
Fixpoint is_ascii (s : string) : bool :=
  match s with
  | EmptyString => true
  | String c r => (N_of_ascii c <? 128)%N && is_ascii r
  end.

(** [x.title()] on ASCII text: a letter that follows a letter is lowered,
    any other letter is raised. *)
Fixpoint title_from (previous_is_cased : bool) (s : string) : string :=
  match s with
  | EmptyString => EmptyString
  | String c r =>
      if is_lower c then
        String (if previous_is_cased then c else to_upper c) (title_from true r)
      else if is_upper c then
        String (if previous_is_cased then to_lower c else c) (title_from true r)
      else String c (title_from false r)
  end.

Definition title : string -> string := title_from false.

(** [hay LIKE '%needle%'] for a needle without wildcards. *)
Fixpoint contains (needle hay : string) : bool :=
  String.prefix needle hay
  || match hay with
     | EmptyString => false
     | String _ r => contains needle r
     end.

(** [sep.join(parts)]. *)
Definition join (sep : string) (parts : list string) : string :=
  String.concat sep parts.

End Text.

(** ** Lists as result sets *)

Module Rows.

Section Distinct.
Context {A : Type} (eq_dec : forall x y : A, {x = y} + {x <> y}).

(** [SELECT DISTINCT]: the first occurrence of every value, in scan
    order. *)
Definition distinct (l : list A) : list A := rev (nodup eq_dec (rev l)).

Definition mem (x : A) (l : list A) : bool :=
  if in_dec eq_dec x l then true else false.
End Distinct.

Section Order.
Context {A : Type} (leb : A -> A -> bool).

Fixpoint insert (x : A) (l : list A) : list A :=
  match l with
  | [] => [x]
  | y :: t => if leb x y then x :: l else y :: insert x t
  end.

(** [ORDER BY] and [sort_values]: smallest first for [leb].  Rows that tie
    stay in scan order here; neither SQLite nor pandas promises an order
    among them. *)
Fixpoint order_by (l : list A) : list A :=
  match l with
  | [] => []
  | x :: t => insert x (order_by t)
  end.
End Order.

(** [LIMIT n]. *)
Definition limit {A : Type} (n : nat) (l : list A) : list A := firstn n l.

(** The rows a left row [x] contributes to [l LEFT JOIN r ON on]: one per
    matching right row, and one with a NULL right side when nothing
    matches. *)
Definition join_rows {L R : Type} (on : L -> R -> bool) (r : list R) (x : L)
  : list (L * option R) :=
  match filter (on x) r with
  | [] => [(x, None)]
  | ms => map (fun y => (x, Some y)) ms
  end.

(** [l LEFT JOIN r ON on] *)
Definition left_join {L R : Type} (on : L -> R -> bool)
    (l : list L) (r : list R) : list (L * option R) :=
  flat_map (join_rows on r) l.

(** [MIN(col)] and [MAX(col)] over the rows: NULL on no row. *)
Definition min_of (l : list Z) : option Z :=
  match l with
  | [] => None
  | x :: t => Some (fold_left Z.min t x)
  end.

Definition max_of (l : list Z) : option Z :=
  match l with
  | [] => None
  | x :: t => Some (fold_left Z.max t x)
  end.

End Rows.

(** ** The store *)

Module Store.

(** A calendar date, as its day number. *)
Definition day := Z.

(** [crypto_prices (coin_id, date, price_usd)]. *)
Record crypto_price_row := {
  coin_id : string;
  cp_date : day;
  price_usd : F64.t
}.

(** [oil_prices (date, price)]. *)
Record oil_price_row := {
  op_date : day;
  price : F64.t
}.

(** [stock_prices (ticker, date, ..., close, ...)]: the columns the pages
    read. *)
Record stock_price_row := {
  ticker : string;
  sp_date : day;
  close : F64.t
}.

(** [cryptocurrencies (id, name, symbol, ...)]: the columns the pages
    read. *)
Record cryptocurrency_row := {
  id : string;
  name : string;
  symbol : string
}.

Record database := {
  crypto_prices : list crypto_price_row;
  oil_prices : list oil_price_row;
  stock_prices : list stock_price_row;
  cryptocurrencies : list cryptocurrency_row
}.

End Store.

(** ** What the SQL statements compute *)

Module Sql.

Import Store Rows.
Local Open Scope string_scope.
Local Open Scope Z_scope.

(** A row of the Market Overview statement. *)
Record overview_row := {
  date : day;
  bitcoin_price : F64.t;
  oil_price : F64.t;
  sp500_close : F64.t;
  nifty_close : F64.t
}.

(** [x BETWEEN sd AND ed]. *)
Definition between (sd ed x : day) : bool := (sd <=? x) && (x <=? ed).

(** [ORDER BY v DESC] on (key, value) rows: NULL values come last. *)
Definition desc_by_value {K : Type} (a b : K * F64.t) : bool :=
  F64.leb (snd b) (snd a).

Section OnStore.
Variable db : database.

(** [WHERE coin_id = c]. *)
Definition of_coin (c : string) (rows : list crypto_price_row)
  : list crypto_price_row :=
  filter (fun r => String.eqb (coin_id r) c) rows.

(** [WHERE ticker = t]. *)
Definition of_ticker (t : string) (rows : list stock_price_row)
  : list stock_price_row :=
  filter (fun r => String.eqb (ticker r) t) rows.

(** The groups of [GROUP BY coin_id], and [SELECT DISTINCT coin_id]. *)
Definition coin_ids (rows : list crypto_price_row) : list string :=
  distinct string_dec (map coin_id rows).

(** [SELECT MIN(date(date)) as mn, MAX(date(date)) as mx FROM t], for
    the date column of one table. *)
Definition min_max_date (dates : list day) : option day * option day :=
  (min_of dates, max_of dates).

(** [LOWER(coin_id) LIKE '%bitcoin%' OR LOWER(coin_id) LIKE '%btc%'] *)
Definition like_bitcoin (c : string) : bool :=
  Text.contains "bitcoin" (Text.lower c)
  || Text.contains "btc" (Text.lower c).

(** [SELECT DISTINCT coin_id FROM crypto_prices WHERE ... LIMIT 1] *)
Definition bitcoin_like_coin : list string :=
  limit 1
    (distinct string_dec
       (map coin_id
          (filter (fun r => like_bitcoin (coin_id r)) (crypto_prices db)))).

(** [SELECT coin_id, AVG(price_usd) AS avg_p FROM crypto_prices
     GROUP BY coin_id] *)
Definition avg_price (c : string) : F64.t :=
  F64.avg (map price_usd (of_coin c (crypto_prices db))).

Definition avg_price_by_coin : list (string * F64.t) :=
  map (fun c => (c, avg_price c)) (coin_ids (crypto_prices db)).

(** [... ORDER BY avg_p DESC LIMIT 1] *)
Definition highest_avg_coin : list (string * F64.t) :=
  limit 1 (order_by desc_by_value avg_price_by_coin).

(** [... ORDER BY avg_p DESC LIMIT 3] *)
Definition top3_by_avg : list (string * F64.t) :=
  limit 3 (order_by desc_by_value avg_price_by_coin).

(** [SELECT MAX(date(date)) FROM crypto_prices AS cp2
     WHERE cp2.coin_id = c] *)
Definition max_date_of_coin (c : string) : option day :=
  max_of (map cp_date (of_coin c (crypto_prices db))).

(** [WHERE date(date) = (SELECT MAX(date(date)) ...)]: a comparison with
    NULL selects nothing. *)
Definition is_latest (r : crypto_price_row) : bool :=
  match max_date_of_coin (coin_id r) with
  | Some m => cp_date r =? m
  | None => false
  end.

(** [SELECT coin_id, price_usd FROM crypto_prices WHERE date(date) = (...)
     GROUP BY coin_id]: [price_usd] is a bare column, taken from the
    first row of its group. *)
Definition latest_price (latest : list crypto_price_row) (c : string)
  : F64.t :=
  match of_coin c latest with
  | r :: _ => price_usd r
  | [] => F64.null
  end.

Definition latest_price_by_coin : list (string * F64.t) :=
  let latest := filter is_latest (crypto_prices db) in
  map (fun c => (c, latest_price latest c)) (coin_ids latest).

(** [... ORDER BY price_usd DESC LIMIT 3] *)
Definition top3_by_latest : list (string * F64.t) :=
  limit 3 (order_by desc_by_value latest_price_by_coin).

(** [SELECT DISTINCT coin_id FROM crypto_prices LIMIT 20] *)
Definition some_coin_ids : list string :=
  limit 20 (coin_ids (crypto_prices db)).

(** [SELECT DISTINCT ticker FROM stock_prices] *)
Definition tickers : list string :=
  distinct string_dec (map ticker (stock_prices db)).

(** [SELECT id, name, symbol FROM cryptocurrencies
     WHERE LOWER(id) IN (?, ..., ?)] *)
Definition metadata_of (lowered : list string) : list cryptocurrency_row :=
  filter (fun m => mem string_dec (Text.lower (id m)) lowered)
    (cryptocurrencies db).

(** [SELECT date(date) AS date, price_usd FROM crypto_prices
     WHERE coin_id=? AND date(date) BETWEEN ? AND ?
     ORDER BY date(date)] *)
Definition coin_series (coin : string) (s e : day) : list (day * F64.t) :=
  order_by (fun a b => fst a <=? fst b)
    (map (fun r => (cp_date r, price_usd r))
       (filter (fun r => between s e (cp_date r))
          (of_coin coin (crypto_prices db)))).

(** The [all_dates] common table expression: the UNION of the three
    [SELECT DISTINCT date(date) ... WHERE date(date) BETWEEN :sd AND :ed]. *)
Definition all_dates (sd ed : day) : list day :=
  distinct Z.eq_dec
    (distinct Z.eq_dec
       (filter (between sd ed) (map cp_date (crypto_prices db)))
     ++ distinct Z.eq_dec
          (filter (between sd ed) (map op_date (oil_prices db)))
     ++ distinct Z.eq_dec
          (filter (between sd ed) (map sp_date (stock_prices db)))).

(** The value a column of the right side of a LEFT JOIN has in a joined
    row. *)
Definition joined {R : Type} (v : R -> F64.t) (r : option R) : F64.t :=
  match r with
  | Some x => v x
  | None => F64.null
  end.

(** The Market Overview statement: [all_dates d] LEFT JOIN the selected
    coin [cp], oil [o], ^GSPC [sp] and ^NSEI [ni] on the date,
    [ORDER BY d.date DESC]. *)
Definition overview (sd ed : day) (btc : string) : list overview_row :=
  let cp := of_coin btc (crypto_prices db) in
  let o := oil_prices db in
  let sp := of_ticker "^GSPC" (stock_prices db) in
  let ni := of_ticker "^NSEI" (stock_prices db) in
  let d_cp := left_join (fun d r => d =? cp_date r) (all_dates sd ed) cp in
  let d_cp_o := left_join (fun l r => fst l =? op_date r) d_cp o in
  let d_cp_o_sp :=
    left_join (fun l r => fst (fst l) =? sp_date r) d_cp_o sp in
  let d_cp_o_sp_ni :=
    left_join (fun l r => fst (fst (fst l)) =? sp_date r) d_cp_o_sp ni in
  order_by (fun a b => date b <=? date a)
    (map
       (fun j =>
          match j with
          | (d, r_cp, r_o, r_sp, r_ni) =>
              {| date := d;
                 bitcoin_price := joined price_usd r_cp;
                 oil_price := joined price r_o;
                 sp500_close := joined close r_sp;
                 nifty_close := joined close r_ni |}
          end)
       d_cp_o_sp_ni).

End OnStore.

End Sql.

(** ** The pandas steps of the Market Overview *)

Module Frame.

Import Sql Rows.

(** The four series columns. *)
Inductive column := Bitcoin_price | Oil_price | Sp500_close | Nifty_close.

Definition columns : list column :=
  [Bitcoin_price; Oil_price; Sp500_close; Nifty_close].

(** [row[c]] *)
Definition get (c : column) (r : overview_row) : F64.t :=
  match c with
  | Bitcoin_price => bitcoin_price r
  | Oil_price => oil_price r
  | Sp500_close => sp500_close r
  | Nifty_close => nifty_close r
  end.

(** [row[c] = v] *)
Definition set (c : column) (v : F64.t) (r : overview_row) : overview_row :=
  match c with
  | Bitcoin_price =>
      {| date := date r; bitcoin_price := v; oil_price := oil_price r;
         sp500_close := sp500_close r; nifty_close := nifty_close r |}
  | Oil_price =>
      {| date := date r; bitcoin_price := bitcoin_price r; oil_price := v;
         sp500_close := sp500_close r; nifty_close := nifty_close r |}
  | Sp500_close =>
      {| date := date r; bitcoin_price := bitcoin_price r;
         oil_price := oil_price r; sp500_close := v;
         nifty_close := nifty_close r |}
  | Nifty_close =>
      {| date := date r; bitcoin_price := bitcoin_price r;
         oil_price := oil_price r; sp500_close := sp500_close r;
         nifty_close := v |}
  end.

(** [df[c]] *)
Definition series (c : column) (df : list overview_row) : list F64.t :=
  map (get c) df.

(** [df[columns].isnull().all(axis=1)] on one row. *)
Definition all_null (r : overview_row) : bool :=
  forallb (fun c => F64.isnull (get c r)) columns.

(** [df = df[~(df[columns].isnull().all(axis=1))].copy()] *)
Definition drop_all_null (df : list overview_row) : list overview_row :=
  filter (fun r => negb (all_null r)) df.

(** [df.sort_values("date").set_index("date")[columns].copy()]: the rows in
    ascending date order, the date as index. *)
Definition plot_frame (df : list overview_row) : list overview_row :=
  order_by (fun a b => (date a <=? date b)%Z) df.

(** One turn of the normalisation loop:
    [first = plot_df[c].dropna()],
    [if not first.empty: plot_df[c] = plot_df[c] / first.iloc[0] * 100]. *)
Definition rebase (c : column) (plot_df : list overview_row)
  : list overview_row :=
  match F64.dropna (series c plot_df) with
  | [] => plot_df
  | first :: _ =>
      map (fun r => set c (F64.mul (F64.div (get c r) first) F64.hundred) r)
        plot_df
  end.

(** [for c in plot_df.columns: ...] *)
Definition normalize (plot_df : list overview_row) : list overview_row :=
  fold_left (fun df c => rebase c df) columns plot_df.

(** The position of the first non-null cell of a column
    ([Series.first_valid_index]). *)
Fixpoint first_valid_index (col : list F64.t) : option nat :=
  match col with
  | [] => None
  | v :: rest =>
      if F64.notnull v then Some O
      else option_map S (first_valid_index rest)
  end.

End Frame.

(** ** Python dictionaries with text keys *)

Module Dict.

Section Values.
Context {V : Type}.

(** Insertion order is kept; a key that is set again keeps its place. *)
Definition t := list (string * V).

Fixpoint get (d : t) (k : string) : option V :=
  match d with
  | [] => None
  | (k', v) :: rest => if String.eqb k' k then Some v else get rest k
  end.

(** [d[k] = v] *)
Fixpoint set (d : t) (k : string) (v : V) : t :=
  match d with
  | [] => [(k, v)]
  | (k', v') :: rest =>
      if String.eqb k' k then (k', v) :: rest else (k', v') :: set rest k v
  end.

(** [d.update(other)] *)
Definition update (d other : t) : t :=
  fold_left (fun acc kv => set acc (fst kv) (snd kv)) other d.

(** [d.get(k, default)] *)
Definition get_default (d : t) (k : string) (default : V) : V :=
  match get d k with
  | Some v => v
  | None => default
  end.

Definition keys (d : t) : list string := map fst d.
Definition values (d : t) : list V := map snd d.
End Values.

Arguments t : clear implicits.

End Dict.

(** ** The pages *)

Module App.

Import Store Sql Frame Rows.
Local Open Scope string_scope.
Local Open Scope Z_scope.

(** *** The session: memoisation, store traffic, notices *)

(** A bound parameter: text, or a date passed as [str(d)]. *)
Inductive param := P_text (s : string) | P_date (d : day).

(** What is sent to the store: the statement text and its bound
    parameters. *)
Record statement := { sql : string; params : list param }.

(** A statement together with the rows it yields on the store at hand. *)
Record query (A : Type) := { stmt : statement; answer : A }.
Arguments stmt {A} _.
Arguments answer {A} _.

(** The entries of [st.cache_data]: one per memoised function and
    argument tuple. *)
Inductive cache_key :=
| K_run_query (s : statement)
| K_get_bitcoin_coin_id
| K_get_db_date_range
| K_get_top3
| K_get_coin_display_names (coin_ids : list string).

Definition param_eq_dec (x y : param) : {x = y} + {x <> y}.
Proof. decide equality; [apply string_dec | apply Z.eq_dec]. Defined.

Definition statement_eq_dec (x y : statement) : {x = y} + {x <> y}.
Proof.
  decide equality; [apply (list_eq_dec param_eq_dec) | apply string_dec].
Defined.

Definition cache_key_eq_dec (x y : cache_key) : {x = y} + {x <> y}.
Proof.
  decide equality;
    [apply statement_eq_dec | apply (list_eq_dec string_dec)].
Defined.

(** [st.error(msg)] and [st.warning(msg)] as they appear on the page. *)
Inductive notice := Shown_error (msg : string) | Shown_warning (msg : string).

Record session := {
  memo : list cache_key;
  issued : list statement;
  shown : list notice
}.

(** A fresh process: nothing memoised, nothing sent, nothing shown. *)
Definition fresh : session := {| memo := []; issued := []; shown := [] |}.

(** A run of page code ends normally, in [st.stop()], or in a Python
    exception. *)
Inductive result (A : Type) :=
| Done (a : A)
| Stopped
| Raised (exception : string).
Arguments Done {A} _.
Arguments Stopped {A}.
Arguments Raised {A} _.

Definition M (A : Type) : Type := session -> result A * session.

Definition ret {A : Type} (a : A) : M A := fun s => (Done a, s).

Definition bind {A B : Type} (m : M A) (k : A -> M B) : M B :=
  fun s =>
    match m s with
    | (Done a, s') => k a s'
    | (Stopped, s') => (Stopped, s')
    | (Raised e, s') => (Raised e, s')
    end.

Notation "x <- c1 ;; c2" := (bind c1 (fun x => c2))
  (at level 61, c1 at next level, right associativity).
Notation "c1 ;; c2" := (bind c1 (fun _ => c2))
  (at level 61, right associativity).

Definition st_error (msg : string) : M unit :=
  fun s =>
    (Done tt,
     {| memo := memo s; issued := issued s;
        shown := shown s ++ [Shown_error msg] |}).

Definition st_warning (msg : string) : M unit :=
  fun s =>
    (Done tt,
     {| memo := memo s; issued := issued s;
        shown := shown s ++ [Shown_warning msg] |}).

Definition st_stop {A : Type} : M A := fun s => (Stopped, s).

Definition raise {A : Type} (exception : string) : M A :=
  fun s => (Raised exception, s).

(** [pd.read_sql_query(sql, conn, params=params)]: the statement goes to
    the store. *)
Definition read_sql_query {A : Type} (q : query A) : M A :=
  fun s =>
    (Done (answer q),
     {| memo := memo s; issued := issued s ++ [stmt q]; shown := shown s |}).

Definition memoized (k : cache_key) (s : session) : bool :=
  mem cache_key_eq_dec k (memo s).

(** [@st.cache_data]: on a hit the stored value is returned and the body
    does not run; on a miss the body runs and its value is stored.  The
    store does not change during a session, so the stored value is the
    value the body computes. *)
Definition cache_data {A : Type} (k : cache_key) (body : M A) : M A :=
  fun s =>
    if memoized k s then (fst (body s), s)
    else
      match body s with
      | (Done a, s') =>
          (Done a,
           {| memo := k :: memo s'; issued := issued s';
              shown := shown s' |})
      | other => other
      end.

(** [run_query(sql, params)] *)
Definition run_query {A : Type} (q : query A) : M A :=
  cache_data (K_run_query (stmt q)) (read_sql_query q).

(** *** What a run sends and shows *)

(** [yields P m v]: from every session, [m] ends normally with the value
    [v], shows nothing, and sends only statements that satisfy [P]. *)
Definition yields {A : Type} (P : statement -> Prop) (m : M A) (v : A)
  : Prop :=
  forall s, exists s1,
    m s = (Done v, s1)
    /\ shown s1 = shown s
    /\ exists sent, issued s1 = (issued s ++ sent)%list /\ Forall P sent.

(** [halts P m notices]: from every session, [m] ends in [st.stop()]
    after showing [notices], and sends only statements that satisfy [P]. *)
Definition halts {A : Type} (P : statement -> Prop) (m : M A)
    (notices : list notice) : Prop :=
  forall s, exists s1,
    m s = (Stopped, s1)
    /\ shown s1 = (shown s ++ notices)%list
    /\ exists sent, issued s1 = (issued s ++ sent)%list /\ Forall P sent.

(** [raises P m exception]: from every session, [m] ends in the Python
    exception, shows nothing, and sends only statements that satisfy [P]. *)
Definition raises {A : Type} (P : statement -> Prop) (m : M A)
    (exception : string) : Prop :=
  forall s, exists s1,
    m s = (Raised exception, s1)
    /\ shown s1 = shown s
    /\ exists sent, issued s1 = (issued s ++ sent)%list /\ Forall P sent.

(** Statements without bound parameters. *)
Definition unbound (q : statement) : Prop := params q = [].

(** Statements that take no date as parameter. *)
Definition dateless (q : statement) : Prop :=
  forall d, ~ In (P_date d) (params q).

(** *** Widgets *)

(** [st.date_input(label, value=value, ...)]: the date the user picked, the
    default when the widget was not touched. *)
Definition date_input (value : day) (picked : option day) : day :=
  match picked with
  | Some d => d
  | None => value
  end.

(** [st.selectbox(label, options)]: the option the user picked, the first
    one when the widget was not touched. *)
Definition selectbox (options : list string) (picked : option nat) : string :=
  match picked with
  | Some i => nth i options (hd "" options)
  | None => hd "" options
  end.

(** Python truth of an optional text: [None] and [''] are false. *)
Definition truthy (x : option string) : bool :=
  match x with
  | None => false
  | Some s => negb (String.eqb s "")
  end.

(** A column of [pd.read_sql_query] whose every value is NULL comes as an
    object column of [None]; a REAL column with a number in it comes as
    float64, its NULLs as NaN. *)
Definition object_column (col : list F64.t) : bool := forallb F64.isnull col.

(** The four cards of the Top 3 page, Current Price, All-Time High,
    All-Time Low and Average Price, each shown as [f"${val:,.2f}"]: a
    float, NaN included, has that format; [None], the last value of an
    object column, has not. *)
Definition metric_cards (prices : list F64.t) : M unit :=
  if object_column prices then raise "TypeError" else ret tt.

Section Pages.
Variable db : database.

(** [date.today()] *)
Variable today : day.

(** *** Shared helpers *)

Definition bitcoin_like_query : query (list string) :=
  {| stmt := {| sql := "
        SELECT DISTINCT coin_id FROM crypto_prices
        WHERE LOWER(coin_id) LIKE '%bitcoin%' OR LOWER(coin_id) LIKE '%btc%'
        LIMIT 1
    "; params := [] |};
     answer := bitcoin_like_coin db |}.

Definition highest_avg_query : query (list (string * F64.t)) :=
  {| stmt := {| sql := "
        SELECT coin_id, AVG(price_usd) AS avg_p
        FROM crypto_prices GROUP BY coin_id ORDER BY avg_p DESC LIMIT 1
    "; params := [] |};
     answer := highest_avg_coin db |}.

(** Find the correct coin_id for Bitcoin. *)
Definition get_bitcoin_coin_id : M (option string) :=
  cache_data K_get_bitcoin_coin_id
    (df <- run_query bitcoin_like_query ;;
     match df with
     | c :: _ => ret (Some c)
     | [] =>
(* Fallback: highest average price *)
df2 <- run_query highest_avg_query ;;
ret (match df2 with
     | (c, _) :: _ => Some c
     | [] => None
     end)
end).

(** The three (table, date column) pairs, each with the dates of the
    table. *)
Definition date_tables : list (string * string * list day) :=
  [("crypto_prices", "date", map cp_date (crypto_prices db));
   ("oil_prices", "date", map op_date (oil_prices db));
   ("stock_prices", "date", map sp_date (stock_prices db))].

Definition date_range_query (table col : string) (dates : list day)
  : query (option day * option day) :=
  {| stmt :=
       {| sql := "SELECT MIN(date(" ++ col ++ ")) as mn, MAX(date("
                 ++ col ++ ")) as mx FROM " ++ table;
          params := [] |};
     answer := min_max_date dates |}.

Fixpoint collect_ranges (tables : list (string * string * list day))
  : M (list (day * day)) :=
  match tables with
  | [] => ret []
  | (table, col, dates) :: rest =>
      df <- run_query (date_range_query table col dates) ;;
      ranges <- collect_ranges rest ;;
      ret (match df with
           | (Some mn, Some mx) => (mn, mx) :: ranges
           | _ => ranges
           end)
  end.

(** Get the actual date range available across all tables. *)
Definition get_db_date_range : M (day * day) :=
  cache_data K_get_db_date_range
    (ranges <- collect_ranges date_tables ;;
     ret (match min_of (map fst ranges), max_of (map snd ranges) with
          | Some mn, Some mx => (mn, mx)
          | _, _ => (18993, today)   (* date(2022, 1, 1), date.today() *)
          end)).

(** *** Page 1: Market Overview *)

Definition overview_query (sd ed : day) (btc : string)
  : query (list overview_row) :=
  {| stmt :=
       {| sql := "
        WITH all_dates AS (
            SELECT DISTINCT date(date) AS date FROM crypto_prices  WHERE date(date) BETWEEN :sd AND :ed
            UNION
            SELECT DISTINCT date(date) AS date FROM oil_prices     WHERE date(date) BETWEEN :sd AND :ed
            UNION
            SELECT DISTINCT date(date) AS date FROM stock_prices   WHERE date(date) BETWEEN :sd AND :ed
        )
        SELECT
            d.date,
            cp.price_usd  AS bitcoin_price,
            o.price       AS oil_price,
            sp.close      AS sp500_close,
            ni.close      AS nifty_close
        FROM all_dates d
        LEFT JOIN (
            SELECT date(date) AS date, price_usd FROM crypto_prices WHERE coin_id = :btc
        ) cp ON d.date = cp.date
        LEFT JOIN (
            SELECT date(date) AS date, price FROM oil_prices
        ) o ON d.date = o.date
        LEFT JOIN (
            SELECT date(date) AS date, close FROM stock_prices WHERE ticker = '^GSPC'
        ) sp ON d.date = sp.date
        LEFT JOIN (
            SELECT date(date) AS date, close FROM stock_prices WHERE ticker = '^NSEI'
        ) ni ON d.date = ni.date
        ORDER BY d.date DESC
    ";
          params := [P_date sd; P_date ed; P_text btc] |};
     answer := overview db sd ed btc |}.

Definition some_coin_ids_query : query (list string) :=
  {| stmt :=
       {| sql := "SELECT DISTINCT coin_id FROM crypto_prices LIMIT 20";
          params := [] |};
     answer := some_coin_ids db |}.

Definition debug_range_query (table : string) (dates : list day)
  : query (option day * option day) :=
  {| stmt :=
       {| sql := "SELECT MIN(date(date)) mn, MAX(date(date)) mx FROM "
                 ++ table;
          params := [] |};
     answer := min_max_date dates |}.

Definition tickers_query : query (list string) :=
  {| stmt :=
       {| sql := "SELECT DISTINCT ticker FROM stock_prices";
          params := [] |};
     answer := tickers db |}.

(** What the page shows once it renders: the four averages, the latest
    date, the normalised chart data and the snapshot table. *)
Record overview_view := {
  averages : list F64.t;
  latest_date : option day;
  chart : list overview_row;
  snapshot : list overview_row
}.

Definition market_overview (picked_start picked_end : option day)
  : M overview_view :=
  range <- get_db_date_range ;;
  let db_min := fst range in
  let db_max := snd range in
  let start_date := date_input db_min picked_start in
  let end_date := date_input db_max picked_end in
  if end_date <? start_date then
    st_error "Start date must be before end date." ;;
    st_stop
  else
    btc <- get_bitcoin_coin_id ;;
    if negb (truthy btc) then
      st_error
        "Could not find Bitcoin in the database. Check the `crypto_prices` table." ;;
      _ <- run_query some_coin_ids_query ;;
      st_stop
    else
      let btc_id := match btc with Some c => c | None => "" end in
      df <- read_sql_query (overview_query start_date end_date btc_id) ;;
      let df := drop_all_null df in
      match df with
      | [] =>
          st_warning
            "No data found for the selected date range. Try widening the range." ;;
          _ <- run_query
                 (debug_range_query "crypto_prices"
                    (map cp_date (crypto_prices db))) ;;
          _ <- run_query
                 (debug_range_query "oil_prices"
                    (map op_date (oil_prices db))) ;;
          _ <- run_query
                 (debug_range_query "stock_prices"
                    (map sp_date (stock_prices db))) ;;
          _ <- run_query tickers_query ;;
          st_stop
      | _ :: _ =>
          ret {| averages := map (fun c => F64.avg (series c df)) columns;
                 latest_date := max_of (map date df);
                 chart := normalize (plot_frame df);
                 snapshot := df |}
      end.

(** *** Page 3: Top 3 Crypto Analysis *)

Definition top3_latest_query : query (list (string * F64.t)) :=
  {| stmt := {| sql := "
            SELECT coin_id, price_usd
            FROM crypto_prices
            WHERE date(date) = (
                SELECT MAX(date(date)) FROM crypto_prices AS cp2
                WHERE cp2.coin_id = crypto_prices.coin_id
            )
            GROUP BY coin_id
            ORDER BY price_usd DESC
            LIMIT 3
        "; params := [] |};
     answer := top3_by_latest db |}.

Definition top3_avg_query : query (list (string * F64.t)) :=
  {| stmt := {| sql := "
                SELECT coin_id, AVG(price_usd) AS avg_p
                FROM crypto_prices
                GROUP BY coin_id
                ORDER BY avg_p DESC
                LIMIT 3
            "; params := [] |};
     answer := top3_by_avg db |}.

Definition get_top3 : M (list string) :=
  cache_data K_get_top3
    (df <- run_query top3_latest_query ;;
     df <- (if (length df <? 3)%nat then run_query top3_avg_query
            else ret df) ;;
     ret (map fst df)).

Definition display_names_query (coin_ids : list string)
  : query (list cryptocurrency_row) :=
  let placeholders := Text.join "," (map (fun _ => "?") coin_ids) in
  {| stmt :=
       {| sql := "SELECT id, name, symbol FROM cryptocurrencies WHERE LOWER(id) IN ("
                 ++ placeholders ++ ")";
          params := map (fun c => P_text (Text.lower c)) coin_ids |};
     answer := metadata_of db (map Text.lower coin_ids) |}.

(** [f"{row['name']} ({row['symbol'].upper()})"] *)
Definition display_name (row : cryptocurrency_row) : string :=
  name row ++ " (" ++ Text.upper (symbol row) ++ ")".

Definition get_coin_display_names (coin_ids : list string)
  : M (Dict.t string) :=
  cache_data (K_get_coin_display_names coin_ids)
    (df <- run_query (display_names_query coin_ids) ;;
     ret (fold_left
            (fun mapping row => Dict.set mapping (id row) (display_name row))
            df [])).

(** [[name_map.get(c, c.title()) for c in top3]] *)
Definition display_labels (name_map : Dict.t string) (top3 : list string)
  : list string :=
  map (fun c => Dict.get_default name_map c (Text.title c)) top3.

(** [dict(zip(display_labels, top3))] *)
Definition label_to_id (labels top3 : list string) : Dict.t string :=
  Dict.update [] (combine labels top3).

Definition coin_series_query (coin : string) (s e : day)
  : query (list (day * F64.t)) :=
  {| stmt :=
       {| sql := "SELECT date(date) AS date, price_usd FROM crypto_prices WHERE coin_id=? AND date(date) BETWEEN ? AND ? ORDER BY date(date)";
          params := [P_text coin; P_date s; P_date e] |};
     answer := coin_series db coin s e |}.

(** What the page shows once it renders: the selected coin and its
    series, from which the cards, the chart and the table are drawn. *)
Record coin_view := {
  coin : string;
  cdf : list (day * F64.t)
}.

Definition top3_analysis (picked_coin : option nat)
    (picked_from picked_to : option day) : M coin_view :=
  top3 <- get_top3 ;;
  match top3 with
  | [] =>
      st_warning "No cryptocurrency data found." ;;
      st_stop
  | _ :: _ =>
      name_map <- get_coin_display_names top3 ;;
      let labels := display_labels name_map top3 in
      let ids := label_to_id labels top3 in
      range <- get_db_date_range ;;
      let db_min := fst range in
      let db_max := snd range in
      let selected_label := selectbox labels picked_coin in
      match Dict.get ids selected_label with
      | None => raise "KeyError"
      | Some coin =>
          let start_c := date_input db_min picked_from in
          let end_c := date_input db_max picked_to in
          if end_c <? start_c then
            st_error "Invalid date range." ;;
            st_stop
          else
            cdf <- run_query (coin_series_query coin start_c end_c) ;;
            match cdf with
            | [] =>
                st_warning "No data for selected coin and date range." ;;
                st_stop
            | _ :: _ =>
                metric_cards (map snd cdf) ;;
                ret {| coin := coin; cdf := cdf |}
            end
      end
  end.

End Pages.

End App.

(** ** Page 2: the query catalogue *)

Module Catalog.

Local Open Scope string_scope.

(** [QUERY_GROUPS]: category name to (query label to SQL text), both in
    source order. *)
Definition QUERY_GROUPS : Dict.t (Dict.t string) :=
  [
   ("📊 Cryptocurrencies (Metadata)",
    [
      ("1. Top 3 Cryptocurrencies by Market Cap",
       "SELECT name, market_cap
FROM cryptocurrencies
ORDER BY market_cap DESC
LIMIT 3;");
      ("2. Coins Where Circulating Supply > 90% of Total",
       "SELECT name, circulating_supply, total_supply
FROM cryptocurrencies
WHERE circulating_supply >= 0.9 * total_supply;");
      ("3. Coins Within 10% of All-Time High (ATH)",
       "SELECT name, current_price, ath
FROM cryptocurrencies
WHERE current_price >= 0.9 * ath;");
      ("4. Avg Market Cap Rank of Coins With Volume > $1B",
       "SELECT AVG(market_cap_rank) AS avg_rank
FROM cryptocurrencies
WHERE total_volume > 1000000000;");
      ("5. Most Recently Updated Coin",
       "SELECT name, last_updated
FROM cryptocurrencies
ORDER BY last_updated DESC
LIMIT 1;")
    ]);
   ("💰 Crypto Prices (Daily)",
    [
      ("6. Highest Bitcoin Price (Last 365 Days)",
       "SELECT MAX(price_usd) AS max_price
FROM crypto_prices
WHERE coin_id = 'bitcoin'
AND date(date) >= DATE('now', '-365 day');");
      ("7. Average Ethereum Price (Past 1 Year)",
       "SELECT ROUND(AVG(price_usd), 2) AS avg_price
FROM crypto_prices
WHERE coin_id = 'ethereum'
AND date(date) >= DATE('now', '-365 day');");
      ("8. Bitcoin Daily Price Trend in 2025",
       "SELECT date(date) AS date, price_usd
FROM crypto_prices
WHERE coin_id = 'bitcoin'
AND date(date) BETWEEN '2025-01-01' AND '2025-12-31'
ORDER BY date;");
      ("9. Coin With Highest Average Price (All Time)",
       "SELECT coin_id, ROUND(AVG(price_usd), 2) AS avg_price
FROM crypto_prices
GROUP BY coin_id
ORDER BY avg_price DESC
LIMIT 1;");
      ("10. Bitcoin % Price Change (Sep 2024 to Sep 2025)",
       "SELECT
  ROUND((MAX(price_usd) - MIN(price_usd)) * 100.0 / MIN(price_usd), 2) AS pct_change
FROM crypto_prices
WHERE coin_id = 'bitcoin'
AND date(date) BETWEEN '2024-09-01' AND '2025-09-30';")
    ]);
   ("🛢 Oil Prices",
    [
      ("11. Highest Oil Price (Last 5 Years)",
       "SELECT ROUND(MAX(price), 2) AS max_oil_price
FROM oil_prices
WHERE date(date) >= DATE('now', '-5 years');");
      ("12. Average Oil Price Per Year",
       "SELECT strftime('%Y', date) AS year,
       ROUND(AVG(price), 2) AS avg_price
FROM oil_prices
GROUP BY year
ORDER BY year;");
      ("13. Oil Prices During COVID Crash (Mar–Apr 2020)",
       "SELECT date(date) AS date, price
FROM oil_prices
WHERE date(date) BETWEEN '2020-03-01' AND '2020-04-30'
ORDER BY date;");
      ("14. Lowest Oil Price (All Time)",
       "SELECT ROUND(MIN(price), 2) AS min_oil_price
FROM oil_prices;");
      ("15. Oil Price Volatility Per Year (Max - Min)",
       "SELECT strftime('%Y', date) AS year,
       ROUND(MAX(price) - MIN(price), 2) AS volatility
FROM oil_prices
GROUP BY year
ORDER BY year;")
    ]);
   ("📈 Stock Prices",
    [
      ("16. All Stock Prices for S&P 500 (^GSPC)",
       "SELECT date(date) AS date, open, high, low, close, volume
FROM stock_prices
WHERE ticker = '^GSPC'
ORDER BY date DESC
LIMIT 100;");
      ("17. Highest Closing Price for NASDAQ (^IXIC)",
       "SELECT ROUND(MAX(close), 2) AS max_close
FROM stock_prices
WHERE ticker = '^IXIC';");
      ("18. Top 5 Days With Highest Price Spread for S&P 500",
       "SELECT date(date) AS date,
       ROUND(high - low, 2) AS spread
FROM stock_prices
WHERE ticker = '^GSPC'
ORDER BY spread DESC
LIMIT 5;");
      ("19. Monthly Average Closing Price Per Ticker",
       "SELECT ticker,
       strftime('%Y-%m', date) AS month,
       ROUND(AVG(close), 2) AS avg_close
FROM stock_prices
GROUP BY ticker, month
ORDER BY ticker, month;");
      ("20. Average Trading Volume of NSEI in 2024",
       "SELECT ROUND(AVG(volume), 0) AS avg_volume
FROM stock_prices
WHERE ticker = '^NSEI'
AND strftime('%Y', date) = '2024';")
    ]);
   ("🔗 Cross-Market Join Queries",
    [
      ("21. Bitcoin vs Oil Average Price in 2025",
       "SELECT
  ROUND(AVG(cp.price_usd), 2) AS avg_bitcoin,
  ROUND(AVG(op.price), 2)     AS avg_oil
FROM crypto_prices cp
JOIN oil_prices op ON date(cp.date) = date(op.date)
WHERE cp.coin_id = 'bitcoin'
AND date(cp.date) BETWEEN '2025-01-01' AND '2025-12-31';");
      ("22. Bitcoin vs S&P 500 (Correlation Check)",
       "SELECT date(cp.date) AS date,
       cp.price_usd AS bitcoin_price,
       sp.close     AS sp500_close
FROM crypto_prices cp
JOIN stock_prices sp ON date(cp.date) = date(sp.date)
WHERE cp.coin_id = 'bitcoin'
AND sp.ticker = '^GSPC'
ORDER BY date DESC
LIMIT 60;");
      ("23. Ethereum vs NASDAQ Daily Prices in 2025",
       "SELECT date(cp.date) AS date,
       cp.price_usd AS ethereum_price,
       sp.close     AS nasdaq_close
FROM crypto_prices cp
JOIN stock_prices sp ON date(cp.date) = date(sp.date)
WHERE cp.coin_id = 'ethereum'
AND sp.ticker = '^IXIC'
AND date(cp.date) BETWEEN '2025-01-01' AND '2025-12-31'
ORDER BY date;");
      ("24. Oil Price Spikes vs Bitcoin Price Change",
       "SELECT date(op.date) AS date,
       op.price          AS oil_price,
       cp.price_usd      AS bitcoin_price
FROM oil_prices op
JOIN crypto_prices cp ON date(op.date) = date(cp.date)
WHERE cp.coin_id = 'bitcoin'
ORDER BY op.price DESC
LIMIT 20;");
      ("25. Top 3 Crypto Coins vs NIFTY (^NSEI) 2025",
       "SELECT date(cp.date) AS date,
       cp.coin_id,
       cp.price_usd AS crypto_price,
       sp.close     AS nifty_close
FROM crypto_prices cp
JOIN stock_prices sp ON date(cp.date) = date(sp.date)
WHERE sp.ticker = '^NSEI'
AND date(cp.date) BETWEEN '2025-01-01' AND '2025-12-31'
AND cp.coin_id IN (
    SELECT coin_id FROM crypto_prices
    GROUP BY coin_id ORDER BY AVG(price_usd) DESC LIMIT 3
)
ORDER BY date, cp.coin_id;");
      ("26. S&P 500 vs Crude Oil on Same Dates",
       "SELECT date(sp.date) AS date,
       sp.close  AS sp500_close,
       op.price  AS oil_price
FROM stock_prices sp
JOIN oil_prices op ON date(sp.date) = date(op.date)
WHERE sp.ticker = '^GSPC'
ORDER BY date DESC
LIMIT 60;");
      ("27. Bitcoin vs Crude Oil (Same Date Correlation)",
       "SELECT date(cp.date) AS date,
       cp.price_usd AS bitcoin_price,
       op.price     AS oil_price
FROM crypto_prices cp
JOIN oil_prices op ON date(cp.date) = date(op.date)
WHERE cp.coin_id = 'bitcoin'
ORDER BY date DESC
LIMIT 60;");
      ("28. NASDAQ vs Ethereum Price Trends",
       "SELECT date(sp.date) AS date,
       sp.close     AS nasdaq_close,
       cp.price_usd AS ethereum_price
FROM stock_prices sp
JOIN crypto_prices cp ON date(sp.date) = date(cp.date)
WHERE sp.ticker = '^IXIC'
AND cp.coin_id = 'ethereum'
ORDER BY date DESC
LIMIT 60;");
      ("29. Top 3 Crypto Coins Joined with Stock Indices (2025)",
       "SELECT date(cp.date) AS date,
       cp.coin_id,
       cp.price_usd AS crypto_price,
       sp.ticker,
       sp.close     AS stock_close
FROM crypto_prices cp
JOIN stock_prices sp ON date(cp.date) = date(sp.date)
WHERE date(cp.date) BETWEEN '2025-01-01' AND '2025-12-31'
AND cp.coin_id IN (
    SELECT coin_id FROM crypto_prices
    GROUP BY coin_id ORDER BY AVG(price_usd) DESC LIMIT 3
)
AND sp.ticker IN ('^GSPC', '^NSEI', '^IXIC')
ORDER BY date, cp.coin_id, sp.ticker;");
      ("30. Multi-Join: Stocks + Oil + Bitcoin (Daily)",
       "SELECT date(cp.date) AS date,
       cp.price_usd AS bitcoin_price,
       op.price     AS oil_price,
       sp.close     AS sp500_close
FROM crypto_prices cp
JOIN oil_prices op   ON date(cp.date) = date(op.date)
JOIN stock_prices sp ON date(cp.date) = date(sp.date)
WHERE cp.coin_id = 'bitcoin'
AND sp.ticker = '^GSPC'
ORDER BY date DESC
LIMIT 60;")
    ])
  ].

(** [PREDEFINED = {}], then
    [for group_queries in QUERY_GROUPS.values():
       PREDEFINED.update(group_queries)]. *)
Definition PREDEFINED : Dict.t string :=
  fold_left
    (fun predefined group_queries => Dict.update predefined group_queries)
    (Dict.values QUERY_GROUPS) [].

(** [list(QUERY_GROUPS.keys())], the options of the Category box. *)
Definition categories : list string := Dict.keys QUERY_GROUPS.

(** [list(QUERY_GROUPS[category].keys())], the options of the Query box. *)
Definition query_names (category : string) : list string :=
  match Dict.get QUERY_GROUPS category with
  | Some group_queries => Dict.keys group_queries
  | None => []
  end.

(** Every (label, statement) entry of the catalogue, group after group. *)
Definition entries : list (string * string) :=
  flat_map snd QUERY_GROUPS.

(** [selected = PREDEFINED[selected_name]], then [run_query(selected)]:
    the statement the Run button sends, with the default empty parameter
    tuple. *)
Definition selected (selected_name : string) : option App.statement :=
  option_map (fun text => {| App.sql := text; App.params := [] |})
    (Dict.get PREDEFINED selected_name).

(** SQLite binds a parameter at [?], [?NNN], [:AAA], [@AAA] or [$AAA]. *)
Definition is_placeholder_mark (c : ascii) : bool :=
  Ascii.eqb c "?" || Ascii.eqb c ":" || Ascii.eqb c "@" || Ascii.eqb c "$".

(** The number of such marks in a statement text; a text without any
    takes no bound parameter. *)
Fixpoint placeholder_marks (text : string) : nat :=
  match text with
  | EmptyString => O
  | String c rest =>
      ((if is_placeholder_mark c then 1 else 0) + placeholder_marks rest)%nat
  end.

End Catalog.

(** ** Locating the store *)

Module Discovery.

Import App.
Local Open Scope string_scope.

Section Filesystem.

(** [os.path.join] and [os.path.exists], as the operating system provides
    them. *)
Variable path_join : string -> string -> string.
Variable path_exists : string -> bool.

(** [os.path.dirname(os.path.abspath(__file__))], its parent directory
    [os.path.dirname(script_dir)], and [os.path.expanduser(~)]. *)
Variable script_dir : string.
Variable parent_dir : string.
Variable home : string.

(** The places searched, in order of preference. *)
Definition candidates : list string :=
  [path_join script_dir "mydb (4).db";
   path_join (path_join script_dir "CROSSMARKET") "mydb (4).db";
   path_join parent_dir "mydb (4).db";
   path_join (path_join parent_dir "CROSSMARKET") "mydb (4).db";
   path_join (path_join home "Downloads") "mydb (4).db";
   path_join (path_join (path_join home "Downloads") "CROSSMARKET")
     "mydb (4).db"].

(** [for path in candidates: if os.path.exists(path): return path] *)
Fixpoint first_existing (paths : list string) : option string :=
  match paths with
  | [] => None
  | path :: rest =>
      if path_exists path then Some path else first_existing rest
  end.

(** Search for the database file in common locations relative to this
    script. *)
Definition find_db : string :=
  match first_existing candidates with
  | Some path => path
  | None => hd "" candidates   (* candidates[0] *)
  end.

(** [DB_PATH = find_db()] *)
Definition DB_PATH : string := find_db.

Definition not_found_message : string :=
  "
### ❌ Database not found

Could not find `mydb (4).db`. Please make sure **app.py and the database file are in the same folder**.

**Searched locations:**
- Same folder as app.py: `" ++ script_dir ++ "/`
- Subfolder: `" ++ script_dir ++ "/CROSSMARKET/`

**How to fix:** Copy `mydb (4).db` into the same folder as `app.py` and restart.
        ".

(** [get_conn()]: the connection is the path it was opened on. *)
Definition get_conn : M string :=
  if negb (path_exists DB_PATH) then
    bind (st_error not_found_message) (fun _ => st_stop)
  else ret DB_PATH.

End Filesystem.

End Discovery.

(** ** What reaches the store *)

Module Traffic.

Import App.
Local Open Scope string_scope.

(** Blank, tab, line feed, carriage return. *)
Definition is_space (c : ascii) : bool :=
  Ascii.eqb c " " || Ascii.eqb c "009" || Ascii.eqb c "010"
  || Ascii.eqb c "013".

Fixpoint ltrim (text : string) : string :=
  match text with
  | EmptyString => EmptyString
  | String c rest => if is_space c then ltrim rest else text
  end.

(** The words that make an SQLite statement with a WITH clause a write:
    WITH may precede SELECT, INSERT, REPLACE, UPDATE or DELETE. *)
Definition write_words : list string :=
  ["INSERT"; "REPLACE"; "UPDATE"; "DELETE"].

(** The text of a query, letters compared without case: after leading
    white space it opens with SELECT, or it opens with WITH and holds none
    of the [write_words]. *)
Definition is_query_text (text : string) : bool :=
  let t := Text.upper (ltrim text) in
  String.prefix "SELECT" t
  || (String.prefix "WITH" t
      && forallb (fun w => negb (Text.contains w t)) write_words).

Definition read_only (q : statement) : Prop := is_query_text (sql q) = true.

(** [sends P m]: however [m] ends, it only appends to the statements sent,
    and what it appends satisfies [P]. *)
Definition sends {A : Type} (P : statement -> Prop) (m : M A) : Prop :=
  forall s, exists sent,
    issued (snd (m s)) = (issued s ++ sent)%list /\ Forall P sent.

End Traffic.

(** ** The cards of the Top 3 page *)

Module Cards.

Import Store.

(** [cdf[price_usd].iloc[-1]], the Current Price card. *)
Definition current_price (cdf : list (day * F64.t)) : F64.t :=
  last (map snd cdf) F64.null.

End Cards.

(** ** The SQL Query Runner *)

Module Runner.

Import App Catalog.
Local Open Scope string_scope.

(** What the page reads from its two boxes: the category, the names
    [list(QUERY_GROUPS[category].keys())] offered under it, the name picked
    and [selected = PREDEFINED[selected_name]].  A subscript on a missing
    key raises KeyError. *)
Definition selection (picked_category picked_query : option nat) : M string :=
  let category := selectbox categories picked_category in
  match Dict.get QUERY_GROUPS category with
  | None => raise "KeyError"
  | Some group_queries =>
      let query_names := Dict.keys group_queries in
      let selected_name := selectbox query_names picked_query in
      match Dict.get PREDEFINED selected_name with
      | None => raise "KeyError"
      | Some selected => ret selected
      end
  end.

(** Under every category at least one name is offered, and the merged
    lookup gives each name offered the statement its own group lists. *)
Definition group_agrees (category : string) : bool :=
  match Dict.get QUERY_GROUPS category with
  | None => false
  | Some group_queries =>
      negb (Nat.eqb (length group_queries) 0)
      && forallb
           (fun selected_name =>
              match Dict.get PREDEFINED selected_name,
                    Dict.get group_queries selected_name with
              | Some merged, Some listed => String.eqb merged listed
              | _, _ => false
              end)
           (Dict.keys group_queries)
  end.

End Runner.

(** ** Sample stores *)

Module Samples.

Import Store.
Local Open Scope string_scope.
Local Open Scope Z_scope.

(** 2024-01-01, 2024-01-02 and 2024-01-03. *)
Definition jan1 : day := 19723.
Definition jan2 : day := 19724.
Definition jan3 : day := 19725.

Definition crypto (c : string) (d : day) (usd : Z) : crypto_price_row :=
  {| coin_id := c; cp_date := d; price_usd := F64.of_Z usd |}.

Definition oil (d : day) (usd : Z) : oil_price_row :=
  {| op_date := d; price := F64.of_Z usd |}.

Definition stock (t : string) (d : day) (pts : Z) : stock_price_row :=
  {| ticker := t; sp_date := d; close := F64.of_Z pts |}.

Definition metadata : list cryptocurrency_row :=
  [{| id := "bitcoin"; name := "Bitcoin"; symbol := "btc" |};
   {| id := "ethereum"; name := "Ethereum"; symbol := "eth" |}].

(** Three coins over three days, oil on the first two, both indices on
    the second. *)
Definition market : database :=
  {| crypto_prices :=
       [crypto "bitcoin" jan1 42000; crypto "ethereum" jan1 2300;
        crypto "tether" jan1 1;
        crypto "bitcoin" jan2 43000; crypto "ethereum" jan2 2400;
        crypto "bitcoin" jan3 44000];
     oil_prices := [oil jan1 70; oil jan2 71];
     stock_prices := [stock "^GSPC" jan2 4700; stock "^NSEI" jan2 21000];
     cryptocurrencies := metadata |}.

(** Oil quoted at 0.0 on the first day. *)
Definition zero_oil : database :=
  {| crypto_prices := [crypto "bitcoin" jan2 43000];
     oil_prices := [oil jan1 0; oil jan2 50];
     stock_prices := [];
     cryptocurrencies := metadata |}.

(** Two oil quotes for the same day. *)
Definition repeated_oil : database :=
  {| crypto_prices := [crypto "bitcoin" jan1 42000];
     oil_prices := [oil jan1 70; oil jan1 71];
     stock_prices := [];
     cryptocurrencies := metadata |}.

(** Two coins only. *)
Definition two_coins : database :=
  {| crypto_prices :=
       [crypto "ethereum" jan1 2300; crypto "bitcoin" jan1 42000;
        crypto "bitcoin" jan2 43000];
     oil_prices := [];
     stock_prices := [];
     cryptocurrencies := metadata |}.

Definition crypto_null (c : string) (d : day) : crypto_price_row :=
  {| coin_id := c; cp_date := d; price_usd := F64.null |}.

(** Three coins; the latest row of bitcoin has no price. *)
Definition null_latest : database :=
  {| crypto_prices :=
       [crypto "bitcoin" jan1 42000; crypto_null "bitcoin" jan2;
        crypto "ethereum" jan2 2400; crypto "tether" jan2 1];
     oil_prices := [];
     stock_prices := [];
     cryptocurrencies := metadata |}.

(** Crypto prices on three days, oil on the first two, no equities. *)
Definition three_days : database :=
  {| crypto_prices :=
       [crypto "bitcoin" jan1 42000; crypto "bitcoin" jan2 43000;
        crypto "bitcoin" jan3 44000];
     oil_prices := [oil jan1 70; oil jan2 71];
     stock_prices := [];
     cryptocurrencies := metadata |}.

(** Four coins with latest prices 10, none, 5 and 20. *)
Definition four_coins : database :=
  {| crypto_prices :=
       [crypto "A" jan1 10; crypto "B" jan1 7; crypto_null "B" jan2;
        crypto "C" jan1 5; crypto "D" jan1 20];
     oil_prices := [];
     stock_prices := [];
     cryptocurrencies := metadata |}.

(** Bitcoin on the first day; on the second only a NASDAQ close, which no
    column of the overview shows. *)
Definition nasdaq_day : database :=
  {| crypto_prices := [crypto "bitcoin" jan1 42000];
     oil_prices := [];
     stock_prices := [stock "^IXIC" jan2 15000];
     cryptocurrencies := metadata |}.

(** No crypto price at all. *)
Definition no_crypto : database :=
  {| crypto_prices := [];
     oil_prices := [oil jan1 70];
     stock_prices := [];
     cryptocurrencies := metadata |}.

(** No coin named after Bitcoin. *)
Definition altcoins : database :=
  {| crypto_prices :=
       [crypto "tether" jan1 1; crypto "ethereum" jan1 2300;
        crypto "ethereum" jan2 2400];
     oil_prices := [];
     stock_prices := [];
     cryptocurrencies := metadata |}.

(** A price series that spells the coin [BITCOIN], metadata that spells it
    [bitcoin]. *)
Definition mixed_case : database :=
  {| crypto_prices := [crypto "BITCOIN" jan1 42000];
     oil_prices := [];
     stock_prices := [];
     cryptocurrencies := metadata |}.

End Samples.

(** * Properties *)

(** ** binary64 arithmetic *)

Section F64_facts.

Lemma F64_one_value :
  F64.one = S754_finite false 4503599627370496 (-52).
Proof. reflexivity. Qed.

Lemma F64_hundred_value :
  F64.hundred = S754_finite false 7036874417766400 (-46).
Proof. reflexivity. Qed.

(** Division is correctly rounded, so a finite non-zero float divided by
    itself is exactly 1.0, whatever its mantissa and exponent. *)
Lemma F64_div_self (x : F64.t) :
  F64.is_finite_nonzero x = true -> F64.div x x = F64.one.
Proof.
  destruct x as [s | s | | s m e]; try discriminate.
  intros _. rewrite F64_one_value.
  unfold F64.div, F64.prec, F64.emax, SFdiv, SFdiv_core_binary.
  replace (Zdigits2 (Z.pos m) + e - (Zdigits2 (Z.pos m) + e)) with 0 by lia.
  replace (e - e) with 0 by lia.
  change (Z.min (fexp 53 1024 0) 0) with (-53).
  change (0 - -53) with 53.
  cbv iota beta.
  rewrite Z.shiftl_mul_pow2 by lia.
  assert (H : Z.div_eucl (Z.pos m * 2 ^ 53) (Z.pos m) = (2 ^ 53, 0)).
  { pose proof (Z_div_mod (Z.pos m * 2 ^ 53) (Z.pos m) ltac:(lia)) as H.
    destruct (Z.div_eucl (Z.pos m * 2 ^ 53) (Z.pos m)) as [q r].
    destruct H as [H1 H2].
    assert (q = 2 ^ 53) by nia.
    subst q. f_equal. lia. }
  rewrite H, xorb_nilpotent.
  unfold new_location.
  destruct (Z.even (Z.pos m)); reflexivity.
Qed.

Lemma F64_rebase_self (x : F64.t) :
  F64.is_finite_nonzero x = true ->
  F64.mul (F64.div x x) F64.hundred = F64.hundred.
Proof.
  intros H. rewrite (F64_div_self x H). reflexivity.
Qed.

(** A null cell stays null under the normalisation arithmetic. *)
Lemma F64_rebase_null (first : F64.t) :
  F64.mul (F64.div F64.null first) F64.hundred = F64.null.
Proof. reflexivity. Qed.

Lemma F64_leb_total (x y : F64.t) : F64.leb x y = true \/ F64.leb y x = true.
Proof.
  unfold F64.leb.
  destruct (Z.lt_trichotomy (F64.sort_class x) (F64.sort_class y))
    as [H | [H | H]].
  - left. apply Z.ltb_lt in H. rewrite H. reflexivity.
  - rewrite H, Z.eqb_refl, Z.ltb_irrefl. simpl.
    destruct (Qlt_le_dec (F64.to_Q y) (F64.to_Q x)) as [Hq | Hq].
    + right. apply Qle_bool_iff. apply Qlt_le_weak. exact Hq.
    + left. apply Qle_bool_iff. exact Hq.
  - right. apply Z.ltb_lt in H. rewrite H. reflexivity.
Qed.

Lemma F64_leb_trans (x y z : F64.t) :
  F64.leb x y = true -> F64.leb y z = true -> F64.leb x z = true.
Proof.
  unfold F64.leb. intros Hxy Hyz.
  apply orb_true_iff in Hxy. apply orb_true_iff in Hyz.
  apply orb_true_iff.
  destruct Hxy as [Hxy | Hxy], Hyz as [Hyz | Hyz];
    rewrite ?andb_true_iff, ?Z.ltb_lt, ?Z.eqb_eq, ?Qle_bool_iff in *.
  - left. lia.
  - left. lia.
  - left. lia.
  - right. destruct Hxy as [E1 Q1], Hyz as [E2 Q2]. split.
    + congruence.
    + eapply Qle_trans; eassumption.
Qed.

End F64_facts.

(** ** Result sets *)

Section Rows_facts.

Import Rows.

Context {A : Type}.

Lemma distinct_In (eq_dec : forall x y : A, {x = y} + {x <> y})
    (l : list A) (x : A) :
  In x (distinct eq_dec l) <-> In x l.
Proof.
  unfold distinct. rewrite <- in_rev, nodup_In, <- in_rev. reflexivity.
Qed.

Lemma distinct_NoDup (eq_dec : forall x y : A, {x = y} + {x <> y})
    (l : list A) :
  NoDup (distinct eq_dec l).
Proof.
  unfold distinct. apply NoDup_rev, NoDup_nodup.
Qed.

(** Two duplicate-free listings of the same values have the same size. *)
Lemma NoDup_same_length (l1 l2 : list A) :
  NoDup l1 -> NoDup l2 -> (forall x, In x l1 <-> In x l2) ->
  length l1 = length l2.
Proof.
  intros H1 H2 H.
  apply Permutation_length, NoDup_Permutation; assumption.
Qed.

Lemma mem_true_iff (eq_dec : forall x y : A, {x = y} + {x <> y})
    (x : A) (l : list A) :
  mem eq_dec x l = true <-> In x l.
Proof.
  unfold mem. destruct (in_dec eq_dec x l); split; intros; 
    try assumption; try reflexivity; try discriminate; contradiction.
Qed.

Section Order_facts.
Variable leb : A -> A -> bool.

Lemma insert_perm (x : A) (l : list A) :
  Permutation (insert leb x l) (x :: l).
Proof.
  induction l as [| y t IH]; simpl.
  - apply Permutation_refl.
  - destruct (leb x y).
    + apply Permutation_refl.
    + eapply perm_trans; [apply perm_skip, IH | apply perm_swap].
Qed.

Lemma order_by_perm (l : list A) : Permutation (order_by leb l) l.
Proof.
  induction l as [| x t IH]; simpl.
  - apply perm_nil.
  - eapply perm_trans; [apply insert_perm | apply perm_skip, IH].
Qed.

Lemma order_by_In (l : list A) (x : A) :
  In x (order_by leb l) <-> In x l.
Proof.
  split; apply Permutation_in;
    [apply order_by_perm | apply Permutation_sym, order_by_perm].
Qed.

Lemma order_by_length (l : list A) : length (order_by leb l) = length l.
Proof. apply Permutation_length, order_by_perm. Qed.

Hypothesis leb_total : forall x y, leb x y = true \/ leb y x = true.
Hypothesis leb_trans :
  forall x y z, leb x y = true -> leb y z = true -> leb x z = true.

Local Abbreviation le := (fun x y : A => leb x y = true).

Lemma insert_sorted (x : A) (l : list A) :
  StronglySorted le l -> StronglySorted le (insert leb x l).
Proof.
  induction 1 as [| y t Hs IH Hall]; simpl.
  - constructor; constructor.
  - destruct (leb x y) eqn:E.
    + constructor.
      * constructor; assumption.
      * constructor; [exact E |].
        eapply Forall_impl; [| exact Hall].
        intros z Hz. eapply leb_trans; eassumption.
    + constructor; [exact IH |].
      assert (Hyx : leb y x = true)
        by (destruct (leb_total x y) as [H' | H']; [congruence | exact H']).
      eapply Permutation_Forall;
        [apply Permutation_sym, insert_perm |].
      constructor; assumption.
Qed.

Lemma order_by_sorted (l : list A) : StronglySorted le (order_by leb l).
Proof.
  induction l as [| x t IH]; simpl.
  - constructor.
  - apply insert_sorted, IH.
Qed.

(** The first row of a sorted result is below every row. *)
Lemma order_by_head (l : list A) (x : A) (rest : list A) :
  order_by leb l = x :: rest -> forall y, In y l -> leb x y = true.
Proof.
  intros E y Hy.
  pose proof (order_by_sorted l) as Hs. rewrite E in Hs.
  apply (order_by_In l) in Hy. rewrite E in Hy.
  destruct Hy as [<- | Hy].
  - destruct (leb_total x x); assumption.
  - apply StronglySorted_inv in Hs. destruct Hs as [_ Hall].
    rewrite Forall_forall in Hall. apply Hall, Hy.
Qed.
End Order_facts.

End Rows_facts.

(** ** The normalisation pass *)

Section Frame_facts.

Import Sql Frame.

Lemma get_set_same (c : column) (v : F64.t) (r : overview_row) :
  get c (set c v r) = v.
Proof. destruct c; reflexivity. Qed.

Lemma get_set_other (c c' : column) (v : F64.t) (r : overview_row) :
  c <> c' -> get c (set c' v r) = get c r.
Proof. destruct c, c'; intros H; try reflexivity; contradiction. Qed.

Lemma date_set (c : column) (v : F64.t) (r : overview_row) :
  date (set c v r) = date r.
Proof. destruct c; reflexivity. Qed.

(** A turn of the loop leaves the other columns as they are. *)
Lemma series_rebase_other (c c' : column) (df : list overview_row) :
  c <> c' -> series c (rebase c' df) = series c df.
Proof.
  intros H. unfold rebase, series.
  destruct (F64.dropna (map (get c') df)) as [| first rest].
  - reflexivity.
  - rewrite map_map. apply map_ext. intros r. apply get_set_other, H.
Qed.

(** A turn of the loop on its own column. *)
Lemma series_rebase_same (c : column) (df : list overview_row) :
  series c (rebase c df)
  = match F64.dropna (series c df) with
    | [] => series c df
    | first :: _ =>
        map (fun v => F64.mul (F64.div v first) F64.hundred) (series c df)
    end.
Proof.
  unfold rebase.
  destruct (F64.dropna (series c df)) as [| first rest].
  - reflexivity.
  - unfold series. rewrite !map_map. apply map_ext. intros r.
    apply get_set_same.
Qed.

(** The whole loop, seen from one column. *)
Lemma series_normalize (c : column) (df : list overview_row) :
  series c (normalize df) = series c (rebase c df).
Proof.
  unfold normalize, columns. simpl fold_left.
  destruct c;
    repeat (rewrite series_rebase_other by discriminate);
    rewrite !series_rebase_same;
    repeat (rewrite series_rebase_other by discriminate);
    reflexivity.
Qed.

(** The first cell that [dropna] keeps sits at [first_valid_index]. *)
Lemma first_valid_index_dropna (col : list F64.t) (first : F64.t)
    (rest : list F64.t) :
  F64.dropna col = first :: rest ->
  exists i, first_valid_index col = Some i /\ nth_error col i = Some first.
Proof.
  induction col as [| v col IH]; simpl.
  - discriminate.
  - destruct (F64.notnull v) eqn:E.
    + intros H. injection H as -> _. exists O. split; reflexivity.
    + intros H. destruct (IH H) as [i [Hi Hn]].
      exists (S i). rewrite Hi. split; [reflexivity | exact Hn].
Qed.

Lemma dropna_nil_all_null (col : list F64.t) :
  F64.dropna col = [] -> Forall (fun v => F64.isnull v = true) col.
Proof.
  induction col as [| v col IH]; simpl.
  - constructor.
  - unfold F64.notnull. destruct (F64.isnull v) eqn:E; simpl.
    + intros H. constructor; [exact E | apply IH, H].
    + discriminate.
Qed.

Lemma all_null_false_drop (df : list overview_row) :
  Forall (fun r => all_null r = false) (drop_all_null df).
Proof.
  apply Forall_forall. intros r Hr.
  apply filter_In in Hr. destruct Hr as [_ Hr].
  apply negb_true_iff, Hr.
Qed.

End Frame_facts.

(** ** Running page code *)

Section App_facts.

Import App.

Lemma bind_Done {A B : Type} (m : M A) (k : A -> M B) (s s' : session)
    (b : B) :
  bind m k s = (Done b, s') ->
  exists a s1, m s = (Done a, s1) /\ k a s1 = (Done b, s').
Proof.
  unfold bind. destruct (m s) as [[a | | e] s1]; intros H;
    try discriminate.
  exists a, s1. split; [reflexivity | exact H].
Qed.

Lemma cache_data_Done {A : Type} (k : cache_key) (body : M A)
    (s s' : session) (a : A) :
  cache_data k body s = (Done a, s') -> exists s1, body s = (Done a, s1).
Proof.
  unfold cache_data. destruct (memoized k s).
  - destruct (body s) as [r s1]. simpl. intros H.
    injection H as -> _. exists s1. reflexivity.
  - destruct (body s) as [[a' | | e] s1]; intros H; try discriminate.
    injection H as -> _. exists s1. reflexivity.
Qed.

Lemma yields_ret {A : Type} (P : statement -> Prop) (v : A) :
  yields P (ret v) v.
Proof.
  intros s. exists s. split; [reflexivity | split; [reflexivity |]].
  exists []. split; [symmetry; apply app_nil_r | constructor].
Qed.

Lemma yields_bind {A B : Type} (P : statement -> Prop) (m : M A)
    (k : A -> M B) (a : A) (b : B) :
  yields P m a -> yields P (k a) b -> yields P (bind m k) b.
Proof.
  intros Hm Hk s.
  destruct (Hm s) as (s1 & E1 & Sh1 & sent1 & I1 & F1).
  destruct (Hk s1) as (s2 & E2 & Sh2 & sent2 & I2 & F2).
  exists s2. unfold bind. rewrite E1. split; [exact E2 |].
  split; [congruence |].
  exists (sent1 ++ sent2). split.
  - rewrite I2, I1, app_assoc. reflexivity.
  - apply Forall_app. split; assumption.
Qed.

Lemma yields_read_sql_query {A : Type} (P : statement -> Prop)
    (q : query A) :
  P (stmt q) -> yields P (read_sql_query q) (answer q).
Proof.
  intros H s. eexists. split; [reflexivity |]. simpl.
  split; [reflexivity |].
  exists [stmt q]. split; [reflexivity | constructor; [exact H | constructor]].
Qed.

Lemma yields_cache_data {A : Type} (P : statement -> Prop) (k : cache_key)
    (body : M A) (v : A) :
  yields P body v -> yields P (cache_data k body) v.
Proof.
  intros Hb s. destruct (Hb s) as (s1 & E1 & Sh1 & sent1 & I1 & F1).
  unfold cache_data. rewrite E1. destruct (memoized k s).
  - exists s. split; [reflexivity | split; [reflexivity |]].
    exists []. split; [symmetry; apply app_nil_r | constructor].
  - eexists. split; [reflexivity |]. simpl. split; [exact Sh1 |].
    exists sent1. split; assumption.
Qed.

Lemma yields_run_query {A : Type} (P : statement -> Prop) (q : query A) :
  P (stmt q) -> yields P (run_query q) (answer q).
Proof.
  intros H. apply yields_cache_data, yields_read_sql_query, H.
Qed.

(** A memoised call returns its value without touching the session. *)
Lemma cache_data_hit {A : Type} (P : statement -> Prop) (k : cache_key)
    (body : M A) (v : A) (s : session) :
  yields P body v -> memoized k s = true ->
  cache_data k body s = (Done v, s).
Proof.
  intros Hb Hk. destruct (Hb s) as (s1 & E1 & _).
  unfold cache_data. rewrite Hk, E1. reflexivity.
Qed.

Lemma unbound_dateless (q : statement) : unbound q -> dateless q.
Proof. unfold unbound, dateless. intros -> d []. Qed.

Lemma yields_weaken {A : Type} (P Q : statement -> Prop) (m : M A) (v : A) :
  (forall q, P q -> Q q) -> yields P m v -> yields Q m v.
Proof.
  intros HPQ Hm s. destruct (Hm s) as (s1 & E1 & Sh1 & sent1 & I1 & F1).
  exists s1. split; [exact E1 | split; [exact Sh1 |]].
  exists sent1. split; [exact I1 |].
  eapply Forall_impl; [exact HPQ | exact F1].
Qed.

End App_facts.

(** ** Claims on the Market Overview frame *)

Section Overview_claims.

Import Store Sql Frame App.

(** C2 (amended).  On the frame that survives the all-null filter, sorted
    by ascending date, the normalisation pass treats every series column
    on its own.  A column without a non-null value is left as it is, all
    null, and nothing is divided.  A column with a non-null value has every
    cell divided by the first non-null value [first] in date order and then
    multiplied by 100; when [first] is finite and not zero, the cell at that
    first non-null row becomes exactly 100.0. *)
Theorem C2_normalization_anchor (df : list overview_row) (c : column) :
  let plot_df := plot_frame (drop_all_null df) in
  let out := normalize plot_df in
  (F64.dropna (series c plot_df) = [] ->
   series c out = series c plot_df
   /\ Forall (fun v => F64.isnull v = true) (series c out))
  /\ (forall first rest,
        F64.dropna (series c plot_df) = first :: rest ->
        series c out
        = map (fun v => F64.mul (F64.div v first) F64.hundred)
            (series c plot_df)
        /\ (F64.is_finite_nonzero first = true ->
            exists i,
              first_valid_index (series c plot_df) = Some i
              /\ nth_error (series c plot_df) i = Some first
              /\ nth_error (series c out) i = Some F64.hundred)).
Proof.
  intros plot_df out. subst out.
  rewrite series_normalize, series_rebase_same.
  split.
  - intros E. rewrite E. split; [reflexivity |].
    apply dropna_nil_all_null, E.
  - intros first rest E. rewrite E. split; [reflexivity |].
    intros Hfin.
    destruct (first_valid_index_dropna _ _ _ E) as [i [Hi Hn]].
    exists i. split; [exact Hi | split; [exact Hn |]].
    rewrite nth_error_map, Hn. simpl.
    rewrite (F64_rebase_self first Hfin). reflexivity.
Qed.

Lemma C2_normalization_anchor_witness :
  let plot_df :=
    plot_frame
      (drop_all_null
         (overview Samples.three_days Samples.jan1 Samples.jan3 "bitcoin")) in
  (series Sp500_close (normalize plot_df) = series Sp500_close plot_df
   /\ Forall (fun v => F64.isnull v = true)
        (series Sp500_close (normalize plot_df)))
  /\ exists i,
       first_valid_index (series Bitcoin_price plot_df) = Some i
       /\ nth_error (series Bitcoin_price plot_df) i = Some (F64.of_Z 42000)
       /\ nth_error (series Bitcoin_price (normalize plot_df)) i
          = Some F64.hundred.
Proof.
  intros plot_df. split.
  - exact
      (proj1
         (C2_normalization_anchor
            (overview Samples.three_days Samples.jan1 Samples.jan3 "bitcoin")
            Sp500_close)
         eq_refl).
  - destruct
      (proj2
         (C2_normalization_anchor
            (overview Samples.three_days Samples.jan1 Samples.jan3 "bitcoin")
            Bitcoin_price)
         (F64.of_Z 42000) [F64.of_Z 43000; F64.of_Z 44000] eq_refl)
      as [_ H].
    apply H. reflexivity.
Defined.

(** C2, as stated, fails when the first non-null value of a column is 0.0:
    the page renders, the oil column has the non-null values 0.0 and 50.0,
    and the normalised cell at its first non-null row is NaN, not 100.0. *)
Lemma C2_counterexample :
  exists view s',
    market_overview Samples.zero_oil Samples.jan3 None None fresh
    = (Done view, s')
    /\ F64.dropna (series Oil_price (plot_frame (snapshot view)))
       = [F64.zero; F64.of_Z 50]
    /\ first_valid_index (series Oil_price (plot_frame (snapshot view)))
       = Some O
    /\ nth_error (series Oil_price (chart view)) 0 = Some F64.null
    /\ F64.null <> F64.hundred.
Proof.
  eexists. eexists. split; [vm_compute; reflexivity |].
  repeat split; try (vm_compute; reflexivity).
  discriminate.
Qed.

End Overview_claims.

Section Overview_page_claims.

Import Store Sql Frame App.

(** Page code that ends in [st.stop()] does not render. *)
Ltac never_done H :=
  repeat
    (let a := fresh "a" in
     let s1 := fresh "s" in
     let E := fresh "E" in
     apply bind_Done in H as (a & s1 & E & H));
  discriminate H.

(** C3.  Whenever the Market Overview renders, the frame it works on is
    the result of the alignment statement with the rows dropped whose four
    series cells are all null: no row of it has bitcoin, oil, S&P 500 and
    NIFTY all null, and the averages, the normalised chart and the snapshot
    table are all computed from that filtered frame. *)
Theorem C3_no_all_null_rows (db : database) (today : day)
    (picked_start picked_end : option day) (s s' : session)
    (view : overview_view) :
  market_overview db today picked_start picked_end s = (Done view, s') ->
  (exists sd ed btc, snapshot view = drop_all_null (overview db sd ed btc))
  /\ Forall (fun r => all_null r = false) (snapshot view)
  /\ averages view
     = map (fun c => F64.avg (series c (snapshot view))) columns
  /\ chart view = normalize (plot_frame (snapshot view)).
Proof.
  intros H. unfold market_overview in H.
  apply bind_Done in H as (range & s1 & _ & H).
  destruct (date_input (snd range) picked_end
            <? date_input (fst range) picked_start)%Z.
  { never_done H. }
  apply bind_Done in H as (btc & s2 & _ & H).
  destruct (negb (truthy btc)).
  { never_done H. }
  apply bind_Done in H as (df & s3 & Hq & H).
  unfold read_sql_query in Hq. injection Hq as Hdf _. simpl in Hdf.
  destruct (drop_all_null df) as [| r rest] eqn:Ef.
  { never_done H. }
  unfold ret in H. injection H as <- _. simpl.
  split; [| split; [| split; reflexivity]].
  - eexists _, _, _. rewrite <- Ef, <- Hdf. reflexivity.
  - rewrite <- Ef. apply all_null_false_drop.
Qed.

Lemma C3_no_all_null_rows_witness :
  exists view s',
    market_overview Samples.market Samples.jan3 None None fresh
    = (Done view, s')
    /\ Forall (fun r => all_null r = false) (snapshot view)
    /\ length (snapshot view) = 3%nat.
Proof.
  eexists. eexists.
  assert (H : market_overview Samples.market Samples.jan3 None None fresh
              = (Done _, _)) by (vm_compute; reflexivity).
  split; [exact H |].
  split; [| vm_compute; reflexivity].
  exact (proj1 (proj2 (C3_no_all_null_rows _ _ _ _ _ _ _ H))).
Defined.

(** A calendar day on which every shown series is absent is in the result
    of the alignment statement and not in the frame the page works on. *)
Example all_null_row_dropped :
  map date (overview Samples.nasdaq_day Samples.jan1 Samples.jan2 "bitcoin")
  = [Samples.jan2; Samples.jan1]
  /\ exists view s',
       market_overview Samples.nasdaq_day Samples.jan3 None None fresh
       = (Done view, s')
       /\ map date (snapshot view) = [Samples.jan1].
Proof.
  split; [vm_compute; reflexivity |].
  eexists. eexists. split; vm_compute; reflexivity.
Qed.

(** Crypto on 2024-01-01..03, oil on 01-01 and 01-02, no equities: the
    calendar of the range is the three days, the row of 01-03 has a null oil
    cell and is kept, and the normalised crypto cell of 01-01 is 100.0. *)
Example three_days_overview :
  all_dates Samples.three_days Samples.jan1 Samples.jan3
  = [Samples.jan1; Samples.jan2; Samples.jan3]
  /\ exists view s',
       market_overview Samples.three_days Samples.jan3 None None fresh
       = (Done view, s')
       /\ map (fun r => (date r, F64.isnull (oil_price r))) (snapshot view)
          = [(Samples.jan3, true); (Samples.jan2, false);
             (Samples.jan1, false)]
       /\ map (fun r => (date r, bitcoin_price r)) (chart view)
          = [(Samples.jan1, F64.hundred);
             (Samples.jan2,
              F64.mul (F64.div (F64.of_Z 43000) (F64.of_Z 42000)) F64.hundred);
             (Samples.jan3,
              F64.mul (F64.div (F64.of_Z 44000) (F64.of_Z 42000)) F64.hundred)].
Proof.
  split; [vm_compute; reflexivity |].
  eexists. eexists. split; [vm_compute; reflexivity |].
  split; vm_compute; reflexivity.
Qed.

End Overview_page_claims.

(** ** The aligned calendar *)

Section Calendar_facts.

Import Store Sql Rows.

Lemma filter_eqb_count {R : Type} (rkey : R -> Z) (r : list R) (d : Z) :
  length (filter (fun y => d =? rkey y) r)
  = count_occ Z.eq_dec (map rkey r) d.
Proof.
  induction r as [| y r IH]; simpl.
  - reflexivity.
  - destruct (Z.eqb_spec d (rkey y)) as [E | E];
      destruct (Z.eq_dec (rkey y) d) as [E' | E']; simpl;
      try congruence.
Qed.

Lemma count_occ_constant {R : Type} (k d : Z) (ms : list R) :
  count_occ Z.eq_dec (map (fun _ : R => k) ms) d
  = if Z.eq_dec k d then length ms else O.
Proof.
  induction ms as [| m ms IH]; simpl.
  - destruct (Z.eq_dec k d); reflexivity.
  - rewrite IH. destruct (Z.eq_dec k d); reflexivity.
Qed.

Lemma join_rows_count {L R : Type} (key : L -> Z) (rkey : R -> Z)
    (on : L -> R -> bool) (r : list R) (x : L) (d : Z) :
  (forall x y, on x y = (key x =? rkey y)) ->
  count_occ Z.eq_dec (map (fun p => key (fst p)) (join_rows on r x)) d
  = if Z.eq_dec (key x) d
    then Nat.max 1 (count_occ Z.eq_dec (map rkey r) d)
    else O.
Proof.
  intros Hon. unfold join_rows.
  rewrite (filter_ext (on x) (fun y => key x =? rkey y) (Hon x)).
  pose proof (filter_eqb_count rkey r (key x)) as Hlen.
  destruct (filter (fun y => key x =? rkey y) r) as [| m ms].
  - simpl in *. destruct (Z.eq_dec (key x) d) as [E | E].
    + rewrite <- E, <- Hlen. reflexivity.
    + reflexivity.
  - rewrite map_map. simpl fst. rewrite count_occ_constant.
    destruct (Z.eq_dec (key x) d) as [E | E].
    + rewrite <- E, <- Hlen. reflexivity.
    + reflexivity.
Qed.

(** Rows of a left join per key: the left rows with that key, each once
    per matching right row and once when there is none. *)
Lemma left_join_count {L R : Type} (key : L -> Z) (rkey : R -> Z)
    (on : L -> R -> bool) (l : list L) (r : list R) (d : Z) :
  (forall x y, on x y = (key x =? rkey y)) ->
  count_occ Z.eq_dec (map (fun p => key (fst p)) (left_join on l r)) d
  = (count_occ Z.eq_dec (map key l) d
     * Nat.max 1 (count_occ Z.eq_dec (map rkey r) d))%nat.
Proof.
  intros Hon. unfold left_join.
  induction l as [| x l IH].
  - reflexivity.
  - cbn [flat_map map]. rewrite map_app, count_occ_app, IH.
    rewrite (join_rows_count key rkey on r x d Hon).
    cbn [count_occ].
    destruct (Z.eq_dec (key x) d); lia.
Qed.

Variable db : database.

Lemma all_dates_In (sd ed d : day) :
  In d (all_dates db sd ed)
  <-> between sd ed d = true
      /\ (In d (map cp_date (crypto_prices db))
          \/ In d (map op_date (oil_prices db))
          \/ In d (map sp_date (stock_prices db))).
Proof.
  unfold all_dates.
  rewrite distinct_In, !in_app_iff, !distinct_In, !filter_In.
  tauto.
Qed.

Lemma all_dates_NoDup (sd ed : day) : NoDup (all_dates db sd ed).
Proof. apply distinct_NoDup. Qed.

(** How often a date heads a row of the Market Overview statement. *)
Lemma overview_count (sd ed : day) (btc : string) (d : day) :
  count_occ Z.eq_dec (map date (overview db sd ed btc)) d
  = (count_occ Z.eq_dec (all_dates db sd ed) d
     * Nat.max 1
         (count_occ Z.eq_dec
            (map cp_date (of_coin btc (crypto_prices db))) d)
     * Nat.max 1 (count_occ Z.eq_dec (map op_date (oil_prices db)) d)
     * Nat.max 1
         (count_occ Z.eq_dec
            (map sp_date (of_ticker "^GSPC" (stock_prices db))) d)
     * Nat.max 1
         (count_occ Z.eq_dec
            (map sp_date (of_ticker "^NSEI" (stock_prices db))) d))%nat.
Proof.
  unfold overview.
  erewrite (proj1 (Permutation_count_occ Z.eq_dec _ _));
    [| apply Permutation_map, order_by_perm].
  rewrite map_map.
  erewrite map_ext;
    [| intros [[[[d0 r1] r2] r3] r4]; simpl;
       instantiate (1 := fun j => fst (fst (fst (fst j)))); reflexivity].
  rewrite (left_join_count (fun l => fst (fst (fst l))) sp_date)
    by reflexivity.
  rewrite (left_join_count (fun l => fst (fst l)) sp_date) by reflexivity.
  rewrite (left_join_count (fun l => fst l) op_date) by reflexivity.
  rewrite (left_join_count (fun d0 : day => d0) cp_date) by reflexivity.
  rewrite map_id. reflexivity.
Qed.

End Calendar_facts.

Section Calendar_claims.

Import Store Sql.

(** C1 (amended).  For every range [sd, ed] and every date [d] of the range
    that occurs in [crypto_prices] (under any coin), [oil_prices] or
    [stock_prices]: [d] is in the [all_dates] calendar exactly once, and it
    heads at least one row of the aligned output table.  It heads one row
    for every combination of rows that the selected coin, oil, ^GSPC and
    ^NSEI have on [d] (a series without a row on [d] counts once), hence
    exactly one row when none of the four has more than one row on [d]. *)
Theorem C1_calendar_union (db : database) (sd ed : day) (btc : string)
    (d : day) :
  let n_cp :=
    count_occ Z.eq_dec (map cp_date (of_coin btc (crypto_prices db))) d in
  let n_o := count_occ Z.eq_dec (map op_date (oil_prices db)) d in
  let n_sp :=
    count_occ Z.eq_dec
      (map sp_date (of_ticker "^GSPC" (stock_prices db))) d in
  let n_ni :=
    count_occ Z.eq_dec
      (map sp_date (of_ticker "^NSEI" (stock_prices db))) d in
  let rows := count_occ Z.eq_dec (map date (overview db sd ed btc)) d in
  between sd ed d = true ->
  In d (map cp_date (crypto_prices db))
  \/ In d (map op_date (oil_prices db))
  \/ In d (map sp_date (stock_prices db)) ->
  count_occ Z.eq_dec (all_dates db sd ed) d = 1%nat
  /\ (1 <= rows)%nat
  /\ rows = (Nat.max 1 n_cp * Nat.max 1 n_o * Nat.max 1 n_sp
             * Nat.max 1 n_ni)%nat
  /\ ((n_cp <= 1)%nat -> (n_o <= 1)%nat -> (n_sp <= 1)%nat ->
      (n_ni <= 1)%nat -> rows = 1%nat).
Proof.
  intros n_cp n_o n_sp n_ni rows Hrange Hsrc.
  assert (Hcal : count_occ Z.eq_dec (all_dates db sd ed) d = 1%nat).
  { apply NoDup_count_occ'; [apply all_dates_NoDup |].
    apply all_dates_In. split; assumption. }
  assert (Hrows : rows = (Nat.max 1 n_cp * Nat.max 1 n_o * Nat.max 1 n_sp
                          * Nat.max 1 n_ni)%nat).
  { subst rows. rewrite overview_count, Hcal. subst n_cp n_o n_sp n_ni.
    lia. }
  split; [exact Hcal |].
  split; [rewrite Hrows; nia |].
  split; [exact Hrows |].
  intros H1 H2 H3 H4. rewrite Hrows.
  rewrite !Nat.max_l by assumption. reflexivity.
Qed.

Lemma C1_calendar_union_witness :
  count_occ Z.eq_dec
    (all_dates Samples.market Samples.jan1 Samples.jan3) Samples.jan2
  = 1%nat
  /\ count_occ Z.eq_dec
       (map date
          (overview Samples.market Samples.jan1 Samples.jan3 "bitcoin"))
       Samples.jan2
     = 1%nat.
Proof.
  assert (Hsrc :
    In Samples.jan2 (map cp_date (crypto_prices Samples.market))
    \/ In Samples.jan2 (map op_date (oil_prices Samples.market))
    \/ In Samples.jan2 (map sp_date (stock_prices Samples.market)))
    by (right; left; right; left; reflexivity).
  pose proof
    (C1_calendar_union Samples.market Samples.jan1 Samples.jan3 "bitcoin"
       Samples.jan2 eq_refl Hsrc)
    as H.
  split.
  - exact (proj1 H).
  - apply (proj2 (proj2 (proj2 H))); vm_compute; lia.
Defined.

(** C1, as stated, fails when a joined series has two rows on one date:
    2024-01-01 lies in the range and occurs in [oil_prices], yet two rows
    of the aligned output table carry it. *)
Lemma C1_counterexample :
  between Samples.jan1 Samples.jan3 Samples.jan1 = true
  /\ In Samples.jan1 (map op_date (oil_prices Samples.repeated_oil))
  /\ count_occ Z.eq_dec
       (map date
          (overview Samples.repeated_oil Samples.jan1 Samples.jan3
             "bitcoin"))
       Samples.jan1
     = 2%nat.
Proof.
  split; [reflexivity |].
  split; [left; reflexivity |].
  vm_compute. reflexivity.
Qed.

End Calendar_claims.

(** ** The query catalogue *)

Section Catalog_claims.

Import Catalog.

(** C8.  No label occurs twice in the whole catalogue, so the merged
    lookup [PREDEFINED] has one entry per catalogue entry and maps every
    label to its own statement; and no statement contains a parameter mark,
    so each runs with the empty parameter tuple the Run button passes. *)
Theorem C8_catalog_labels_unique_no_parameters :
  NoDup (Dict.keys entries)
  /\ length PREDEFINED = length entries
  /\ Forall
       (fun e =>
          Dict.get PREDEFINED (fst e) = Some (snd e)
          /\ placeholder_marks (snd e) = O
          /\ selected (fst e)
             = Some {| App.sql := snd e; App.params := [] |})
       entries.
Proof.
  split; [| split].
  - assert (E : nodup string_dec (Dict.keys entries) = Dict.keys entries)
      by (vm_compute; reflexivity).
    rewrite <- E. apply NoDup_nodup.
  - vm_compute. reflexivity.
  - assert (E :
      forallb
        (fun e =>
           match Dict.get PREDEFINED (fst e) with
           | Some text => String.eqb text (snd e)
           | None => false
           end
           && Nat.eqb (placeholder_marks (snd e)) O)
        entries = true) by (vm_compute; reflexivity).
    apply Forall_forall. intros e He.
    rewrite forallb_forall in E. specialize (E e He).
    apply andb_true_iff in E. destruct E as [E1 E2].
    apply Nat.eqb_eq in E2.
    unfold selected.
    destruct (Dict.get PREDEFINED (fst e)) as [text |]; [| discriminate].
    apply String.eqb_eq in E1. subst text.
    split; [reflexivity | split; [exact E2 | reflexivity]].
Qed.

End Catalog_claims.

(** ** Rankings of coins *)

Section Ranking_facts.

Import Store Sql Rows.

Lemma max_of_spec (l : list Z) (m : Z) :
  max_of l = Some m -> In m l /\ forall x, In x l -> x <= m.
Proof.
  destruct l as [| a l]; [discriminate |].
  unfold max_of. intros H. injection H as <-.
  revert a. induction l as [| b l IH]; intros a; simpl.
  - split; [left; reflexivity |].
    intros x [<- | []]. lia.
  - destruct (IH (Z.max a b)) as [Hin Hle]. split.
    + destruct Hin as [E | Hin].
      * rewrite <- E.
        destruct (Z.max_spec a b) as [[_ E'] | [_ E']]; rewrite E';
          [right; left | left]; reflexivity.
      * right; right; exact Hin.
    + pose proof (Hle (Z.max a b) (or_introl eq_refl)) as Htop.
      intros x [E | [E | Hx]].
      * lia.
      * lia.
      * apply Hle. right. exact Hx.
Qed.

Lemma max_of_nonempty (l : list Z) :
  l <> [] -> exists m, max_of l = Some m.
Proof.
  destruct l as [| a l]; [contradiction | intros _].
  eexists. reflexivity.
Qed.

Lemma limit_length {A : Type} (n : nat) (l : list A) :
  length (limit n l) = Nat.min n (length l).
Proof. apply length_firstn. Qed.

Lemma limit_In {A : Type} (n : nat) (l : list A) (x : A) :
  In x (limit n l) -> In x l.
Proof.
  unfold limit. intros H. rewrite <- (firstn_skipn n l).
  apply in_or_app. left. exact H.
Qed.

Lemma limit_NoDup {A : Type} (n : nat) (l : list A) :
  NoDup l -> NoDup (limit n l).
Proof.
  unfold limit. intros H. rewrite <- (firstn_skipn n l) in H.
  apply NoDup_app_remove_r in H. exact H.
Qed.

Lemma limit_all {A : Type} (n : nat) (l : list A) :
  (length l <= n)%nat -> limit n l = l.
Proof. apply firstn_all2. Qed.

(** Sorting (key, value) rows built from their keys is sorting the keys. *)
Lemma insert_map {A B : Type} (f : A -> B) (leb : B -> B -> bool)
    (x : A) (l : list A) :
  insert leb (f x) (map f l)
  = map f (insert (fun a b => leb (f a) (f b)) x l).
Proof.
  induction l as [| y l IH]; simpl.
  - reflexivity.
  - destruct (leb (f x) (f y)); simpl; [reflexivity |].
    rewrite IH. reflexivity.
Qed.

Lemma order_by_map {A B : Type} (f : A -> B) (leb : B -> B -> bool)
    (l : list A) :
  order_by leb (map f l) = map f (order_by (fun a b => leb (f a) (f b)) l).
Proof.
  induction l as [| x l IH]; simpl.
  - reflexivity.
  - rewrite IH. apply insert_map.
Qed.

(** The identifiers of a ranking [LIMIT n] of (coin, value) rows. *)
Lemma ranking_ids (value : string -> F64.t) (ids : list string) (n : nat) :
  map fst
    (limit n (order_by desc_by_value (map (fun c => (c, value c)) ids)))
  = limit n (order_by (fun a b => F64.leb (value b) (value a)) ids).
Proof.
  rewrite order_by_map. unfold limit.
  rewrite <- firstn_map, map_map. simpl. rewrite map_id. reflexivity.
Qed.

Lemma value_desc_total (value : string -> F64.t) (a b : string) :
  F64.leb (value b) (value a) = true \/ F64.leb (value a) (value b) = true.
Proof. apply F64_leb_total. Qed.

Lemma value_desc_trans (value : string -> F64.t) (a b c : string) :
  F64.leb (value b) (value a) = true ->
  F64.leb (value c) (value b) = true ->
  F64.leb (value c) (value a) = true.
Proof. intros H1 H2. eapply F64_leb_trans; eassumption. Qed.

Variable db : database.

Lemma coin_ids_In (rows : list crypto_price_row) (c : string) :
  In c (coin_ids rows) <-> In c (map coin_id rows).
Proof. apply distinct_In. Qed.

Lemma of_coin_In (c : string) (rows : list crypto_price_row)
    (r : crypto_price_row) :
  In r (of_coin c rows) <-> In r rows /\ coin_id r = c.
Proof.
  unfold of_coin. rewrite filter_In, String.eqb_eq. reflexivity.
Qed.

(** Every coin of [crypto_prices] has a row at its latest date. *)
Lemma latest_row_exists (c : string) :
  In c (map coin_id (crypto_prices db)) ->
  exists r, In r (crypto_prices db) /\ coin_id r = c /\ is_latest db r = true.
Proof.
  intros Hc. apply in_map_iff in Hc. destruct Hc as [r0 [E0 Hr0]].
  assert (Hne : map cp_date (of_coin c (crypto_prices db)) <> []).
  { intros Hnil. apply map_eq_nil in Hnil.
    assert (Hin : In r0 (of_coin c (crypto_prices db)))
      by (apply of_coin_In; split; assumption).
    rewrite Hnil in Hin. exact Hin. }
  destruct (max_of_nonempty _ Hne) as [m Hm].
  destruct (max_of_spec _ _ Hm) as [Hin _].
  apply in_map_iff in Hin. destruct Hin as [r [Er Hr]].
  apply of_coin_In in Hr. destruct Hr as [Hr Ec].
  exists r. split; [exact Hr | split; [exact Ec |]].
  unfold is_latest, max_date_of_coin. rewrite Ec, Hm.
  apply Z.eqb_eq. exact Er.
Qed.

(** The latest-price rows cover the same coins as the whole table. *)
Lemma latest_coin_ids_In (c : string) :
  In c (coin_ids (filter (is_latest db) (crypto_prices db)))
  <-> In c (map coin_id (crypto_prices db)).
Proof.
  rewrite coin_ids_In. split.
  - intros H. apply in_map_iff in H. destruct H as [r [E Hr]].
    apply filter_In in Hr. apply in_map_iff. exists r. tauto.
  - intros H. destruct (latest_row_exists c H) as [r [Hr [E Hl]]].
    apply in_map_iff. exists r. split; [exact E |].
    apply filter_In. split; assumption.
Qed.

Lemma latest_price_by_coin_ids :
  map fst (latest_price_by_coin db)
  = coin_ids (filter (is_latest db) (crypto_prices db)).
Proof.
  unfold latest_price_by_coin. rewrite map_map. simpl. apply map_id.
Qed.

Lemma avg_price_by_coin_ids :
  map fst (avg_price_by_coin db) = coin_ids (crypto_prices db).
Proof.
  unfold avg_price_by_coin. rewrite map_map. simpl. apply map_id.
Qed.

Lemma latest_coin_count :
  length (coin_ids (filter (is_latest db) (crypto_prices db)))
  = length (coin_ids (crypto_prices db)).
Proof.
  apply NoDup_same_length; try apply distinct_NoDup.
  intros c. rewrite latest_coin_ids_In, coin_ids_In. reflexivity.
Qed.

Lemma top3_by_latest_length :
  length (top3_by_latest db)
  = Nat.min 3 (length (coin_ids (crypto_prices db))).
Proof.
  unfold top3_by_latest.
  rewrite limit_length, order_by_length, <- latest_coin_count,
    <- latest_price_by_coin_ids, length_map.
  reflexivity.
Qed.

Lemma top3_by_avg_length :
  length (top3_by_avg db)
  = Nat.min 3 (length (coin_ids (crypto_prices db))).
Proof.
  unfold top3_by_avg.
  rewrite limit_length, order_by_length, <- avg_price_by_coin_ids,
    length_map.
  reflexivity.
Qed.

Lemma top3_by_avg_ids :
  map fst (top3_by_avg db)
  = limit 3
      (order_by (fun a b => F64.leb (avg_price db b) (avg_price db a))
         (coin_ids (crypto_prices db))).
Proof. apply ranking_ids. Qed.

Lemma top3_by_latest_ids :
  map fst (top3_by_latest db)
  = limit 3
      (order_by
         (fun a b =>
            F64.leb
              (latest_price (filter (is_latest db) (crypto_prices db)) b)
              (latest_price (filter (is_latest db) (crypto_prices db)) a))
         (coin_ids (filter (is_latest db) (crypto_prices db)))).
Proof. apply ranking_ids. Qed.

End Ranking_facts.

(** ** The memoised helpers *)

Section Helper_facts.

Import Store Sql App.

Variable db : database.
Variable today : day.

(** [get_top3] returns the identifiers of one ranking, and sends only
    statements without parameters. *)
Lemma get_top3_yields :
  yields unbound (get_top3 db)
    (map fst
       (if (length (top3_by_latest db) <? 3)%nat then top3_by_avg db
        else top3_by_latest db)).
Proof.
  unfold get_top3. apply yields_cache_data.
  eapply yields_bind.
  { apply (yields_run_query unbound (top3_latest_query db)). reflexivity. }
  simpl answer.
  destruct (length (top3_by_latest db) <? 3)%nat.
  - eapply yields_bind; [| apply yields_ret].
    apply (yields_run_query unbound (top3_avg_query db)). reflexivity.
  - eapply yields_bind; [apply yields_ret | apply yields_ret].
Qed.

(** [get_bitcoin_coin_id] returns the first coin named after Bitcoin, else
    the head of the average-price ranking, else [None]. *)
Lemma get_bitcoin_coin_id_yields :
  yields unbound (get_bitcoin_coin_id db)
    match bitcoin_like_coin db with
    | c :: _ => Some c
    | [] =>
        match highest_avg_coin db with
        | (c, _) :: _ => Some c
        | [] => None
        end
    end.
Proof.
  unfold get_bitcoin_coin_id. apply yields_cache_data.
  eapply yields_bind.
  { apply (yields_run_query unbound (bitcoin_like_query db)). reflexivity. }
  simpl answer.
  destruct (bitcoin_like_coin db) as [| c rest].
  - eapply yields_bind; [| apply yields_ret].
    apply (yields_run_query unbound (highest_avg_query db)). reflexivity.
  - apply yields_ret.
Qed.

Lemma collect_ranges_yields (tables : list (string * string * list day)) :
  exists ranges, yields unbound (collect_ranges tables) ranges.
Proof.
  induction tables as [| [[table col] dates] rest [ranges IH]].
  - exists []. apply yields_ret.
  - eexists. simpl collect_ranges.
    eapply yields_bind.
    { apply (yields_run_query unbound (date_range_query table col dates)).
      reflexivity. }
    eapply yields_bind; [exact IH | apply yields_ret].
Qed.

Lemma get_db_date_range_yields :
  exists range, yields unbound (get_db_date_range db today) range.
Proof.
  destruct (collect_ranges_yields (date_tables db)) as [ranges H].
  eexists. unfold get_db_date_range. apply yields_cache_data.
  eapply yields_bind; [exact H | apply yields_ret].
Qed.

Lemma display_names_dateless (coin_ids : list string) :
  dateless (stmt (display_names_query db coin_ids)).
Proof.
  intros d Hin. simpl in Hin.
  apply in_map_iff in Hin. destruct Hin as [c [E _]]. discriminate.
Qed.

Lemma get_coin_display_names_yields (coin_ids : list string) :
  yields dateless (get_coin_display_names db coin_ids)
    (fold_left
       (fun mapping row => Dict.set mapping (id row) (display_name row))
       (metadata_of db (map Text.lower coin_ids)) []).
Proof.
  unfold get_coin_display_names. apply yields_cache_data.
  eapply yields_bind; [| apply yields_ret].
  apply (yields_run_query dateless (display_names_query db coin_ids)).
  apply display_names_dateless.
Qed.

End Helper_facts.

(** ** Claims on the Top-3 selection *)

Section Top3_claims.

Import Store Sql App.

(** C5 (amended).  [get_top3] returns the identifiers of one ranking,
    wholesale: when the latest-price statement returns fewer than 3 rows,
    the result is the all-time-average ranking and nothing else; otherwise
    it is the latest-price ranking and nothing else.  A row counts whether
    or not its price is null.  The two rankings are never mixed. *)
Theorem C5_fallback_exclusive (db : database) (s : session) :
  exists s',
    get_top3 db s
    = (Done
         (if (length (top3_by_latest db) <? 3)%nat
          then map fst (top3_by_avg db)
          else map fst (top3_by_latest db)),
       s').
Proof.
  destruct (get_top3_yields db s) as (s' & E & _).
  exists s'. rewrite E.
  destruct (length (top3_by_latest db) <? 3)%nat; reflexivity.
Qed.

(** Latest prices A = 10, B = none, C = 5, D = 20: the statement returns
    D, A, C, three rows, and the fallback is not taken. *)
Example four_coins_ranking :
  map fst (top3_by_latest Samples.four_coins) = ["D"; "A"; "C"]%string
  /\ exists s',
       get_top3 Samples.four_coins fresh
       = (Done ["D"; "A"; "C"]%string, s')
       /\ issued s' = [stmt (top3_latest_query Samples.four_coins)].
Proof.
  split; [vm_compute; reflexivity |].
  eexists. split; vm_compute; reflexivity.
Qed.

(** C5, as stated, fails when a latest price is null: the latest-price
    ranking of [Samples.null_latest] has two entries with a price and one
    without, fewer than 3 determinate entries, yet [get_top3] returns that
    ranking and not the all-time-average ranking. *)
Lemma C5_counterexample :
  map fst
    (filter (fun e => F64.notnull (snd e))
       (top3_by_latest Samples.null_latest))
  = ["ethereum"; "tether"]%string
  /\ map fst (top3_by_avg Samples.null_latest)
     = ["bitcoin"; "ethereum"; "tether"]%string
  /\ exists s',
       get_top3 Samples.null_latest fresh
       = (Done ["ethereum"; "tether"; "bitcoin"]%string, s').
Proof.
  split; [vm_compute; reflexivity |].
  split; [vm_compute; reflexivity |].
  eexists. vm_compute. reflexivity.
Qed.

Lemma ranking_NoDup (leb : string -> string -> bool) (ids : list string)
    (n : nat) :
  NoDup ids -> NoDup (Rows.limit n (Rows.order_by leb ids)).
Proof.
  intros H. apply limit_NoDup.
  eapply Permutation_NoDup; [apply Permutation_sym, order_by_perm | exact H].
Qed.

Lemma ranking_In (leb : string -> string -> bool) (ids : list string)
    (n : nat) (c : string) :
  In c (Rows.limit n (Rows.order_by leb ids)) -> In c ids.
Proof.
  intros H. apply limit_In in H. apply order_by_In in H. exact H.
Qed.

(** C6.  [get_top3] returns at most 3 identifiers, each a coin of
    [crypto_prices] and none twice.  When [crypto_prices] has fewer than 3
    distinct coins, it returns every one of them exactly once, ranked by
    descending all-time average price. *)
Theorem C6_top3_cardinality (db : database) (s : session) :
  exists top3 s',
    get_top3 db s = (Done top3, s')
    /\ (length top3 <= 3)%nat
    /\ NoDup top3
    /\ (forall c, In c top3 -> In c (map coin_id (crypto_prices db)))
    /\ ((length (coin_ids (crypto_prices db)) < 3)%nat ->
        length top3 = length (coin_ids (crypto_prices db))
        /\ (forall c, In c top3 <-> In c (map coin_id (crypto_prices db)))
        /\ StronglySorted
             (fun a b => F64.leb (avg_price db b) (avg_price db a) = true)
             top3).
Proof.
  destruct (get_top3_yields db s) as (s' & E & _).
  eexists. exists s'. split; [exact E |].
  pose proof (top3_by_latest_length db) as Hlat.
  pose proof (top3_by_avg_length db) as Havg.
  split; [| split; [| split; [| intros Hfew]]].
  - rewrite length_map.
    destruct (length (top3_by_latest db) <? 3)%nat; lia.
  - destruct (length (top3_by_latest db) <? 3)%nat.
    + rewrite top3_by_avg_ids. apply ranking_NoDup, distinct_NoDup.
    + rewrite top3_by_latest_ids. apply ranking_NoDup, distinct_NoDup.
  - intros c Hc.
    destruct (length (top3_by_latest db) <? 3)%nat.
    + rewrite top3_by_avg_ids in Hc. apply ranking_In in Hc.
      apply coin_ids_In. exact Hc.
    + rewrite top3_by_latest_ids in Hc. apply ranking_In in Hc.
      apply latest_coin_ids_In. exact Hc.
  - assert (Hgate : (length (top3_by_latest db) <? 3)%nat = true)
      by (apply Nat.ltb_lt; lia).
    rewrite Hgate, top3_by_avg_ids.
    rewrite limit_all by (rewrite order_by_length; lia).
    split; [apply order_by_length |].
    split.
    + intros c. rewrite order_by_In. apply coin_ids_In.
    + apply order_by_sorted.
      * intros a b. apply value_desc_total.
      * intros a b c. apply value_desc_trans.
Qed.

Lemma C6_top3_cardinality_witness :
  exists top3 s',
    get_top3 Samples.two_coins fresh = (Done top3, s')
    /\ length top3 = 2%nat
    /\ (forall c,
          In c top3
          <-> In c (map coin_id (crypto_prices Samples.two_coins))).
Proof.
  destruct (C6_top3_cardinality Samples.two_coins fresh)
    as (top3 & s' & E & _ & _ & _ & H).
  exists top3, s'. split; [exact E |].
  assert (Hfew :
    (length (coin_ids (crypto_prices Samples.two_coins)) < 3)%nat)
    by (vm_compute; lia).
  destruct (H Hfew) as (Hlen & Hin & _).
  split; [exact Hlen | exact Hin].
Defined.

Lemma top3_avg_not_memoized (db : database) :
  memoized (K_run_query (stmt (top3_avg_query db)))
    {| memo := [K_run_query (stmt (top3_latest_query db))];
       issued := [stmt (top3_latest_query db)];
       shown := [] |}
  = false.
Proof. vm_compute. reflexivity. Qed.

(** What a first call of [get_top3] sends to the store. *)
Lemma get_top3_fresh_issued (db : database) :
  issued (snd (get_top3 db fresh))
  = stmt (top3_latest_query db)
    :: (if (length (top3_by_latest db) <? 3)%nat
        then [stmt (top3_avg_query db)]
        else []).
Proof.
  unfold get_top3.
  unfold cache_data at 1. change (memoized K_get_top3 fresh) with false.
  cbv iota.
  unfold bind at 1. unfold run_query at 1. unfold cache_data at 1.
  change (memoized (K_run_query (stmt (top3_latest_query db))) fresh)
    with false.
  cbv iota. unfold read_sql_query at 1. cbv iota beta.
  change (answer (top3_latest_query db)) with (top3_by_latest db).
  destruct (length (top3_by_latest db) <? 3)%nat.
  - unfold bind, run_query, cache_data.
    change (memo fresh) with (@nil cache_key).
    change (issued fresh) with (@nil statement).
    change (shown fresh) with (@nil notice).
    cbn [memo issued shown app].
    rewrite top3_avg_not_memoized.
    unfold read_sql_query, ret. cbn [memo issued shown app snd].
    reflexivity.
  - unfold bind, ret. cbn. reflexivity.
Qed.

(** C9.  Before ORDER BY and LIMIT 3, the latest-price statement has
    exactly one row per distinct [coin_id] of [crypto_prices]: every coin
    with a row has a latest date.  So the statement returns min(3, number of
    distinct coins) rows, no coin twice, and one row for every coin when
    there are at most 3; a first call of [get_top3] sends the
    all-time-average statement if and only if [crypto_prices] has fewer
    than 3 distinct coins, and in that case the fallback returns as many
    rows as the latest-price statement did: one per distinct coin. *)
Theorem C9_fallback_iff_fewer_than_three_coins (db : database) :
  let coins := coin_ids (crypto_prices db) in
  NoDup (map fst (latest_price_by_coin db))
  /\ (forall c,
        In c (map fst (latest_price_by_coin db))
        <-> In c (map coin_id (crypto_prices db)))
  /\ NoDup (map fst (top3_by_latest db))
  /\ ((length coins <= 3)%nat ->
      forall c,
        In c (map fst (top3_by_latest db))
        <-> In c (map coin_id (crypto_prices db)))
  /\ length (top3_by_latest db) = Nat.min 3 (length coins)
  /\ issued (snd (get_top3 db fresh))
     = stmt (top3_latest_query db)
       :: (if (length coins <? 3)%nat
           then [stmt (top3_avg_query db)]
           else [])
  /\ ((length coins < 3)%nat ->
      length (top3_by_avg db) = length (top3_by_latest db)
      /\ length (top3_by_latest db) = length coins).
Proof.
  intros coins. subst coins.
  pose proof (top3_by_latest_length db) as Hlat.
  pose proof (top3_by_avg_length db) as Havg.
  split; [| split; [| split; [| split; [| split; [| split]]]]].
  - rewrite latest_price_by_coin_ids. apply distinct_NoDup.
  - intros c. rewrite latest_price_by_coin_ids.
    apply latest_coin_ids_In.
  - rewrite top3_by_latest_ids. apply ranking_NoDup, distinct_NoDup.
  - intros Hfew c. rewrite top3_by_latest_ids.
    rewrite limit_all
      by (rewrite order_by_length, latest_coin_count; exact Hfew).
    rewrite order_by_In. apply latest_coin_ids_In.
  - exact Hlat.
  - rewrite get_top3_fresh_issued. f_equal.
    assert (Hgate :
      (length (top3_by_latest db) <? 3)%nat
      = (length (coin_ids (crypto_prices db)) <? 3)%nat).
    { rewrite Hlat.
      destruct (Nat.ltb_spec (length (coin_ids (crypto_prices db))) 3);
        [apply Nat.ltb_lt | apply Nat.ltb_ge]; lia. }
    rewrite Hgate. reflexivity.
  - intros Hfew. lia.
Qed.

Lemma C9_fallback_iff_fewer_than_three_coins_witness :
  length (top3_by_avg Samples.two_coins) = 2%nat
  /\ length (top3_by_latest Samples.two_coins) = 2%nat
  /\ forall c,
       In c (map fst (top3_by_latest Samples.two_coins))
       <-> In c (map coin_id (crypto_prices Samples.two_coins)).
Proof.
  assert (Hfew :
    (length (coin_ids (crypto_prices Samples.two_coins)) < 3)%nat)
    by (vm_compute; lia).
  assert (Hle :
    (length (coin_ids (crypto_prices Samples.two_coins)) <= 3)%nat)
    by (vm_compute; lia).
  destruct (C9_fallback_iff_fewer_than_three_coins Samples.two_coins)
    as (_ & _ & _ & Hall & _ & _ & H).
  destruct (H Hfew) as [H1 H2].
  split; [rewrite H1; exact H2 |].
  split; [exact H2 | exact (Hall Hle)].
Defined.

End Top3_claims.

(** ** The coin behind the crypto series *)

Section Bitcoin_facts.

Import Store Sql Rows.

Lemma join_rows_In {L R : Type} (on : L -> R -> bool) (r : list R)
    (x : L) (p : L * option R) :
  In p (join_rows on r x) ->
  fst p = x
  /\ match snd p with
     | Some y => In y r /\ on x y = true
     | None => True
     end.
Proof.
  unfold join_rows.
  destruct (filter (on x) r) as [| m ms] eqn:E.
  - intros [<- | []]. split; [reflexivity | exact I].
  - intros H. apply in_map_iff in H. destruct H as [y [<- Hy]].
    split; [reflexivity |]. simpl.
    rewrite <- E in Hy. apply filter_In in Hy. exact Hy.
Qed.

Lemma left_join_In {L R : Type} (on : L -> R -> bool) (l : list L)
    (r : list R) (p : L * option R) :
  In p (left_join on l r) ->
  In (fst p) l
  /\ match snd p with
     | Some y => In y r /\ on (fst p) y = true
     | None => True
     end.
Proof.
  unfold left_join. intros H. apply in_flat_map in H.
  destruct H as [x [Hx Hp]].
  apply join_rows_In in Hp. destruct Hp as [E Hs].
  rewrite E. split; assumption.
Qed.

Variable db : database.

(** A non-null crypto cell of the aligned table is the price of a row of
    the selected coin on the date of the table row. *)
Lemma overview_bitcoin_price (sd ed : day) (btc : string)
    (row : overview_row) :
  In row (overview db sd ed btc) ->
  F64.isnull (bitcoin_price row) = false ->
  exists r,
    In r (crypto_prices db)
    /\ coin_id r = btc
    /\ cp_date r = date row
    /\ price_usd r = bitcoin_price row.
Proof.
  unfold overview. intros Hrow Hnn.
  apply order_by_In in Hrow. apply in_map_iff in Hrow.
  destruct Hrow as [[[[[d r_cp] r_o] r_sp] r_ni] [<- Hj]].
  simpl in Hnn |- *.
  apply left_join_In in Hj. destruct Hj as [Hj _]. simpl in Hj.
  apply left_join_In in Hj. destruct Hj as [Hj _]. simpl in Hj.
  apply left_join_In in Hj. destruct Hj as [Hj _]. simpl in Hj.
  apply left_join_In in Hj. destruct Hj as [_ Hcp]. simpl in Hcp.
  destruct r_cp as [r |]; [| discriminate].
  destruct Hcp as [Hr Hon]. apply of_coin_In in Hr.
  destruct Hr as [Hr Ec]. apply Z.eqb_eq in Hon.
  exists r. repeat split; auto.
Qed.

Lemma distinct_nil {A : Type} (eq_dec : forall x y : A, {x = y} + {x <> y})
    (l : list A) :
  distinct eq_dec l = [] -> l = [].
Proof.
  intros H. destruct l as [| x l]; [reflexivity |].
  assert (Hin : In x (distinct eq_dec (x :: l)))
    by (apply distinct_In; left; reflexivity).
  rewrite H in Hin. contradiction.
Qed.

(** With a coin named after Bitcoin in the table, the first statement
    returns one. *)
Lemma bitcoin_like_found (c0 : string) :
  In c0 (map coin_id (crypto_prices db)) -> like_bitcoin c0 = true ->
  exists c,
    bitcoin_like_coin db = [c]
    /\ In c (map coin_id (crypto_prices db))
    /\ like_bitcoin c = true.
Proof.
  intros Hin Hlike. unfold bitcoin_like_coin.
  set (hits := distinct string_dec
                 (map coin_id
                    (filter (fun r => like_bitcoin (coin_id r))
                       (crypto_prices db)))).
  assert (Hhit : In c0 hits).
  { apply distinct_In. apply in_map_iff in Hin.
    destruct Hin as [r [E Hr]]. apply in_map_iff. exists r.
    split; [exact E |]. apply filter_In. split; [exact Hr |].
    rewrite E. exact Hlike. }
  destruct hits as [| c rest] eqn:Eh; [contradiction |].
  exists c. split; [reflexivity |].
  assert (Hc : In c hits) by (rewrite Eh; left; reflexivity).
  apply distinct_In in Hc. apply in_map_iff in Hc.
  destruct Hc as [r [E Hr]]. apply filter_In in Hr.
  destruct Hr as [Hr Hl]. split.
  - apply in_map_iff. exists r. split; assumption.
  - rewrite <- E. exact Hl.
Qed.

(** Without one, it returns nothing. *)
Lemma bitcoin_like_none :
  (forall c, In c (map coin_id (crypto_prices db)) -> like_bitcoin c = false) ->
  bitcoin_like_coin db = [].
Proof.
  intros Hnone. unfold bitcoin_like_coin.
  assert (E : filter (fun r => like_bitcoin (coin_id r)) (crypto_prices db)
              = []).
  { destruct (filter (fun r => like_bitcoin (coin_id r)) (crypto_prices db))
      as [| r rest] eqn:Ef; [reflexivity |].
    assert (Hr : In r (filter (fun r => like_bitcoin (coin_id r))
                         (crypto_prices db)))
      by (rewrite Ef; left; reflexivity).
    apply filter_In in Hr. destruct Hr as [Hr Hl].
    rewrite (Hnone (coin_id r)) in Hl; [discriminate |].
    apply in_map. exact Hr. }
  rewrite E. reflexivity.
Qed.

(** The head of the average-price ranking is a coin of the table whose
    average no other coin exceeds. *)
Lemma highest_avg_found :
  crypto_prices db <> [] ->
  exists c v,
    highest_avg_coin db = [(c, v)]
    /\ In c (map coin_id (crypto_prices db))
    /\ forall c', In c' (map coin_id (crypto_prices db)) ->
                  F64.leb (avg_price db c') (avg_price db c) = true.
Proof.
  intros Hne.
  pose proof (ranking_ids (avg_price db) (coin_ids (crypto_prices db)) 1)
    as Hids.
  fold (avg_price_by_coin db) in Hids. fold (highest_avg_coin db) in Hids.
  set (ranked :=
         order_by (fun a b => F64.leb (avg_price db b) (avg_price db a))
           (coin_ids (crypto_prices db))) in *.
  destruct ranked as [| c rest] eqn:Er.
  - exfalso. apply Hne.
    assert (Hlen : length ranked = length (coin_ids (crypto_prices db)))
      by apply order_by_length.
    rewrite Er in Hlen. simpl in Hlen. symmetry in Hlen.
    apply length_zero_iff_nil in Hlen.
    apply distinct_nil in Hlen. apply map_eq_nil in Hlen. exact Hlen.
  - simpl in Hids.
    destruct (highest_avg_coin db) as [| [c1 v1] [| p rest1]] eqn:Eh;
      try discriminate.
    injection Hids as ->.
    exists c, v1. split; [reflexivity |].
    assert (Hhead : forall y, In y (coin_ids (crypto_prices db)) ->
                              F64.leb (avg_price db y) (avg_price db c) = true).
    { apply (order_by_head
               (fun a b => F64.leb (avg_price db b) (avg_price db a))
               (fun a b => value_desc_total (avg_price db) a b)
               (fun a b c => value_desc_trans (avg_price db) a b c)
               (coin_ids (crypto_prices db)) c rest).
      exact Er. }
    split.
    + apply coin_ids_In.
      apply (order_by_In
               (fun a b => F64.leb (avg_price db b) (avg_price db a))).
      fold ranked. rewrite Er. left. reflexivity.
    + intros c' Hc'. apply Hhead, coin_ids_In, Hc'.
Qed.

End Bitcoin_facts.

(** ** Range validation *)

Section Validation_facts.

Import Store Sql App.

Lemma halts_bind {A B : Type} (P : statement -> Prop) (m : M A)
    (k : A -> M B) (a : A) (notices : list notice) :
  yields P m a -> halts P (k a) notices -> halts P (bind m k) notices.
Proof.
  intros Hm Hk s.
  destruct (Hm s) as (s1 & E1 & Sh1 & sent1 & I1 & F1).
  destruct (Hk s1) as (s2 & E2 & Sh2 & sent2 & I2 & F2).
  exists s2. unfold bind. rewrite E1. split; [exact E2 |].
  split; [rewrite Sh2, Sh1; reflexivity |].
  exists (sent1 ++ sent2). split.
  - rewrite I2, I1, app_assoc. reflexivity.
  - apply Forall_app. split; assumption.
Qed.

Lemma halts_error_stop {A : Type} (P : statement -> Prop) (msg : string) :
  halts P (bind (st_error msg) (fun _ => @st_stop A)) [Shown_error msg].
Proof.
  intros s. eexists. split; [reflexivity |]. simpl.
  split; [reflexivity |].
  exists []. split; [symmetry; apply app_nil_r | constructor].
Qed.

Lemma halts_warning_stop {A : Type} (P : statement -> Prop) (msg : string) :
  halts P (bind (st_warning msg) (fun _ => @st_stop A)) [Shown_warning msg].
Proof.
  intros s. eexists. split; [reflexivity |]. simpl.
  split; [reflexivity |].
  exists []. split; [symmetry; apply app_nil_r | constructor].
Qed.

(** *** The label lookup of the Top 3 page cannot miss *)

Lemma dict_get_set {V : Type} (d : Dict.t V) (k k' : string) (v : V) :
  Dict.get (Dict.set d k v) k'
  = if String.eqb k k' then Some v else Dict.get d k'.
Proof.
  induction d as [| [k1 v1] rest IH]; simpl.
  - reflexivity.
  - destruct (String.eqb_spec k1 k) as [-> | Hne]; simpl.
    + destruct (String.eqb k k'); reflexivity.
    + rewrite IH.
      destruct (String.eqb_spec k1 k') as [-> | Hne'];
        [| reflexivity].
      destruct (String.eqb_spec k k') as [-> | _];
        [contradiction | reflexivity].
Qed.

Lemma dict_update_keeps {V : Type} (other d : Dict.t V) (k : string) :
  Dict.get d k <> None -> Dict.get (Dict.update d other) k <> None.
Proof.
  unfold Dict.update. revert d.
  induction other as [| [k1 v1] other IH]; intros d Hd; simpl.
  - exact Hd.
  - apply IH. rewrite dict_get_set.
    destruct (String.eqb k1 k); [discriminate | exact Hd].
Qed.

Lemma dict_update_has {V : Type} (other d : Dict.t V) (k : string) :
  In k (map fst other) -> Dict.get (Dict.update d other) k <> None.
Proof.
  revert d.
  induction other as [| [k1 v1] other IH]; intros d Hin; simpl in Hin.
  - contradiction.
  - destruct (string_dec k1 k) as [-> | Hne].
    + apply (dict_update_keeps other (Dict.set d k v1) k).
      rewrite dict_get_set, String.eqb_refl. discriminate.
    + destruct Hin as [E | Hin]; [contradiction |].
      apply (IH (Dict.set d k1 v1) Hin).
Qed.

Lemma map_fst_combine {X Y : Type} (l1 : list X) (l2 : list Y) :
  length l1 = length l2 -> map fst (combine l1 l2) = l1.
Proof.
  revert l2. induction l1 as [| x l1 IH]; intros [| y l2] H; simpl in *;
    try discriminate; [reflexivity |].
  f_equal. apply IH. lia.
Qed.

Lemma selectbox_In (options : list string) (picked : option nat) :
  options <> [] -> In (selectbox options picked) options.
Proof.
  intros Hne. destruct options as [| o rest]; [contradiction |].
  unfold selectbox. destruct picked as [i |]; [| left; reflexivity].
  destruct (Nat.lt_ge_cases i (length (o :: rest))) as [Hlt | Hge].
  - apply nth_In. exact Hlt.
  - rewrite nth_overflow by exact Hge. left. reflexivity.
Qed.

Lemma selected_label_known (name_map : Dict.t string) (top3 : list string)
    (picked : option nat) :
  top3 <> [] ->
  exists coin,
    Dict.get
      (label_to_id (display_labels name_map top3) top3)
      (selectbox (display_labels name_map top3) picked)
    = Some coin.
Proof.
  intros Hne.
  assert (Hlabels : display_labels name_map top3 <> []).
  { unfold display_labels. intros E. apply map_eq_nil in E. contradiction. }
  pose proof (selectbox_In _ picked Hlabels) as Hin.
  assert (Hlen : length (display_labels name_map top3) = length top3)
    by apply length_map.
  rewrite <- (map_fst_combine _ _ Hlen) in Hin at 2.
  pose proof (dict_update_has (combine (display_labels name_map top3) top3)
                [] _ Hin) as Hget.
  unfold label_to_id.
  destruct (Dict.get _ _) as [coin |]; [| contradiction].
  exists coin. reflexivity.
Qed.

Variable db : database.
Variable today : day.

(** A memoised [get_db_date_range] answers without a statement. *)
Lemma get_db_date_range_hit (s : session) :
  memoized K_get_db_date_range s = true ->
  exists range, get_db_date_range db today s = (Done range, s).
Proof.
  intros Hk.
  destruct (collect_ranges_yields (date_tables db)) as [ranges H].
  eexists. unfold get_db_date_range.
  apply (cache_data_hit unbound); [| exact Hk].
  eapply yields_bind; [exact H | apply yields_ret].
Qed.

Lemma market_overview_rejects (start_date end_date : day) :
  (end_date < start_date)%Z ->
  halts unbound
    (market_overview db today (Some start_date) (Some end_date))
    [Shown_error "Start date must be before end date."].
Proof.
  intros Hlt. unfold market_overview.
  destruct (get_db_date_range_yields db today) as [range Hr].
  eapply halts_bind; [exact Hr |].
  unfold date_input.
  apply Z.ltb_lt in Hlt. rewrite Hlt.
  apply halts_error_stop.
Qed.

Lemma top3_analysis_rejects (picked_coin : option nat)
    (start_c end_c : day) :
  (end_c < start_c)%Z ->
  exists notices,
    halts dateless
      (top3_analysis db today picked_coin (Some start_c) (Some end_c))
      notices
    /\ (notices = [Shown_error "Invalid date range."]
        \/ notices = [Shown_warning "No cryptocurrency data found."]).
Proof.
  intros Hlt. unfold top3_analysis.
  pose proof (yields_weaken unbound dateless _ _ unbound_dateless
                (get_top3_yields db)) as Htop.
  set (top3 := map fst
                 (if (length (top3_by_latest db) <? 3)%nat
                  then top3_by_avg db else top3_by_latest db)) in *.
  destruct top3 as [| c0 rest] eqn:Etop.
  - eexists. split; [| right; reflexivity].
    eapply halts_bind; [exact Htop |].
    apply halts_warning_stop.
  - eexists. split; [| left; reflexivity].
    eapply halts_bind; [exact Htop |]. cbv iota.
    eapply halts_bind; [apply get_coin_display_names_yields |].
    destruct (get_db_date_range_yields db today) as [range Hr].
    eapply halts_bind;
      [exact (yields_weaken unbound dateless _ _ unbound_dateless Hr) |].
    cbv zeta.
    match goal with
    | |- context [Dict.get (label_to_id (display_labels ?m ?t) ?t)
                    (selectbox _ ?p)] =>
        destruct (selected_label_known m t p ltac:(discriminate))
          as [coin Hcoin]
    end.
    rewrite Hcoin. unfold date_input.
    apply Z.ltb_lt in Hlt. rewrite Hlt.
    apply halts_error_stop.
Qed.

End Validation_facts.

Section Validation_claims.

Import Store Sql App.

(** C4 (amended).  For every user-supplied range with
    [start_date > end_date], both pages stop before the statement that
    takes the range is sent.  The Market Overview shows its range error and
    stops; before that it has sent only the parameterless probes of
    [get_db_date_range] that fill the date pickers, and nothing at all when
    that helper is memoised.  The Top 3 page stops with its range error, or
    earlier with the no-data warning when there is no coin; before that it
    has sent only statements without a date parameter (the top-3
    selection, the display-name lookup and the same probes). *)
Theorem C4_range_rejected_before_range_query (db : database) (today : day)
    (start_date end_date : day) (picked_coin : option nat) (s : session) :
  (end_date < start_date)%Z ->
  (exists s',
     market_overview db today (Some start_date) (Some end_date) s
     = (Stopped, s')
     /\ shown s'
        = shown s ++ [Shown_error "Start date must be before end date."]
     /\ exists sent,
          issued s' = issued s ++ sent
          /\ Forall unbound sent
          /\ (memoized K_get_db_date_range s = true -> sent = []))
  /\ (exists s',
        top3_analysis db today picked_coin (Some start_date)
          (Some end_date) s
        = (Stopped, s')
        /\ (shown s' = shown s ++ [Shown_error "Invalid date range."]
            \/ shown s'
               = shown s ++ [Shown_warning "No cryptocurrency data found."])
        /\ exists sent,
             issued s' = issued s ++ sent /\ Forall dateless sent).
Proof.
  intros Hlt. split.
  - destruct (market_overview_rejects db today start_date end_date Hlt s)
      as (s' & E & Sh & sent & I & F).
    exists s'. split; [exact E | split; [exact Sh |]].
    exists sent. split; [exact I | split; [exact F |]].
    intros Hmemo.
    destruct (get_db_date_range_hit db today s Hmemo) as [range Hhit].
    unfold market_overview in E. unfold bind at 1 in E.
    rewrite Hhit in E. unfold date_input in E.
    apply Z.ltb_lt in Hlt. rewrite Hlt in E.
    injection E as E. rewrite <- E in I. simpl in I.
    rewrite <- (app_nil_r (issued s)) in I at 1.
    apply app_inv_head in I. symmetry. exact I.
  - destruct (top3_analysis_rejects db today picked_coin start_date end_date
                Hlt) as (notices & Hh & Hn).
    destruct (Hh s) as (s' & E & Sh & sent & I & F).
    exists s'. split; [exact E |].
    split; [destruct Hn as [-> | ->]; [left | right]; exact Sh |].
    exists sent. split; assumption.
Qed.

Lemma C4_range_rejected_before_range_query_witness :
  let warm :=
    {| memo := [K_get_db_date_range]; issued := []; shown := [] |} in
  exists s',
    market_overview Samples.market Samples.jan3 (Some Samples.jan3)
      (Some Samples.jan1) warm
    = (Stopped, s')
    /\ shown s' = [Shown_error "Start date must be before end date."]
    /\ issued s' = [].
Proof.
  intros warm.
  assert (Hlt : (Samples.jan1 < Samples.jan3)%Z) by reflexivity.
  destruct
    (proj1
       (C4_range_rejected_before_range_query Samples.market Samples.jan3
          Samples.jan3 Samples.jan1 None warm Hlt))
    as (s' & E & Sh & sent & I & _ & Hmemo).
  exists s'. split; [exact E | split; [exact Sh |]].
  rewrite I, (Hmemo eq_refl). reflexivity.
Defined.

(** C4, as stated, fails in a process that has nothing memoised: with
    start 2024-01-03 after end 2024-01-01 the Market Overview stops at the
    range check, and by then three statements have gone to the store; the
    Top 3 page stops at its check after five. *)
Lemma C4_counterexample :
  (exists s',
     market_overview Samples.market Samples.jan3 (Some Samples.jan3)
       (Some Samples.jan1) fresh
     = (Stopped, s')
     /\ shown s' = [Shown_error "Start date must be before end date."]
     /\ map sql (issued s')
        = ["SELECT MIN(date(date)) as mn, MAX(date(date)) as mx FROM crypto_prices";
           "SELECT MIN(date(date)) as mn, MAX(date(date)) as mx FROM oil_prices";
           "SELECT MIN(date(date)) as mn, MAX(date(date)) as mx FROM stock_prices"]%string)
  /\ (exists s',
        top3_analysis Samples.market Samples.jan3 None (Some Samples.jan3)
          (Some Samples.jan1) fresh
        = (Stopped, s')
        /\ shown s' = [Shown_error "Invalid date range."]
        /\ length (issued s') = 5%nat).
Proof.
  split; eexists; (split; [vm_compute; reflexivity |]);
    split; vm_compute; reflexivity.
Qed.

End Validation_claims.

(** ** Display names *)

Section Display_name_claims.

Import Store Sql App.
Local Open Scope string_scope.

Lemma name_map_miss (rows : list cryptocurrency_row) (d : Dict.t string)
    (c : string) :
  Dict.get d c = None ->
  ~ In c (map id rows) ->
  Dict.get
    (fold_left
       (fun mapping row => Dict.set mapping (id row) (display_name row))
       rows d)
    c
  = None.
Proof.
  revert d. induction rows as [| row rows IH]; intros d Hd Hnot; simpl.
  - exact Hd.
  - apply IH.
    + rewrite dict_get_set.
      destruct (String.eqb_spec (id row) c) as [E | _]; [| exact Hd].
      exfalso. apply Hnot. left. exact E.
    + intros Hin. apply Hnot. right. exact Hin.
Qed.

(** An identifier that no metadata row matches, even without regard to
    case, is shown title-cased; the resolution always returns. *)
Lemma display_label_unmatched (db : database) (top3 : list string)
    (s : session) (c : string) :
  (forall m, In m (cryptocurrencies db) ->
             Text.lower (id m) <> Text.lower c) ->
  exists name_map s',
    get_coin_display_names db top3 s = (Done name_map, s')
    /\ display_labels name_map [c] = [Text.title c].
Proof.
  intros Hnone.
  destruct (get_coin_display_names_yields db top3 s) as (s' & E & _).
  eexists. exists s'. split; [exact E |].
  unfold display_labels, Dict.get_default. simpl map.
  rewrite name_map_miss; [reflexivity | reflexivity |].
  intros Hin. apply in_map_iff in Hin. destruct Hin as [m [Em Hm]].
  unfold metadata_of in Hm. apply filter_In in Hm. destruct Hm as [Hm _].
  apply (Hnone m Hm). rewrite Em. reflexivity.
Qed.

(** C7 on the store [Samples.mixed_case]: the top-3 selection yields the
    identifier BITCOIN, the metadata statement matches it without regard to
    case and returns the row of bitcoin, the mapping holds Bitcoin (BTC)
    under the key bitcoin, and the label shown for BITCOIN is the
    title-cased identifier, not the name with the symbol. *)
Theorem C7_case_insensitive_match_lost :
  exists s1 s2,
    get_top3 Samples.mixed_case fresh = (Done ["BITCOIN"], s1)
    /\ metadata_of Samples.mixed_case (map Text.lower ["BITCOIN"])
       = [{| id := "bitcoin"; name := "Bitcoin"; symbol := "btc" |}]
    /\ get_coin_display_names Samples.mixed_case ["BITCOIN"] s1
       = (Done [("bitcoin", "Bitcoin (BTC)")], s2)
    /\ display_labels [("bitcoin", "Bitcoin (BTC)")] ["BITCOIN"]
       = ["Bitcoin"].
Proof.
  eexists. eexists.
  split; [vm_compute; reflexivity |].
  split; [vm_compute; reflexivity |].
  split; vm_compute; reflexivity.
Qed.

End Display_name_claims.

(** ** Locating the store *)

Section Discovery_facts.

Import App Discovery.

Variable path_join : string -> string -> string.
Variable path_exists : string -> bool.
Variable script_dir parent_dir home : string.

Lemma first_existing_split (paths : list string) :
  match first_existing path_exists paths with
  | Some path =>
      exists before after,
        paths = before ++ path :: after
        /\ Forall (fun p => path_exists p = false) before
        /\ path_exists path = true
  | None => Forall (fun p => path_exists p = false) paths
  end.
Proof.
  induction paths as [| p rest IH]; simpl.
  - constructor.
  - destruct (path_exists p) eqn:E.
    + exists [], rest. split; [reflexivity | split; [constructor | exact E]].
    + destruct (first_existing path_exists rest) as [path |].
      * destruct IH as (before & after & -> & Hb & Hp).
        exists (p :: before), after.
        split; [reflexivity | split; [constructor; assumption | exact Hp]].
      * constructor; assumption.
Qed.

Lemma find_db_exists_iff :
  path_exists (find_db path_join path_exists script_dir parent_dir home) = true
  <-> exists p,
        In p (candidates path_join script_dir parent_dir home)
        /\ path_exists p = true.
Proof.
  unfold find_db.
  pose proof (first_existing_split
                (candidates path_join script_dir parent_dir home)) as H.
  destruct (first_existing path_exists
              (candidates path_join script_dir parent_dir home)) as [path |].
  - destruct H as (before & after & E & Hb & Hp).
    split; [| intros _; exact Hp].
    intros _. exists path. split; [| exact Hp].
    rewrite E. apply in_or_app. right. left. reflexivity.
  - rewrite Forall_forall in H. split.
    + intros Hyes. rewrite H in Hyes; [discriminate | left; reflexivity].
    + intros (p & Hin & Hp). rewrite (H p Hin) in Hp. discriminate.
Qed.

(** X1.  [find_db] returns the first candidate, in order of preference, that
    exists: every candidate listed before it is missing.  When no candidate
    exists it returns the first candidate, the file next to the script. *)
Theorem X1_find_db_first_existing :
  let found := find_db path_join path_exists script_dir parent_dir home in
  let places := candidates path_join script_dir parent_dir home in
  (exists before after,
     places = before ++ found :: after
     /\ Forall (fun p => path_exists p = false) before
     /\ (path_exists found = false ->
         before = [] /\ Forall (fun p => path_exists p = false) places))
  /\ (path_exists found = true
      <-> exists p, In p places /\ path_exists p = true).
Proof.
  intros found places. split; [| apply find_db_exists_iff].
  subst found. unfold find_db. fold places.
  pose proof (first_existing_split places) as H.
  destruct (first_existing path_exists places) as [path |].
  - destruct H as (before & after & E & Hb & Hp).
    exists before, after. split; [exact E | split; [exact Hb |]].
    intros Hno. congruence.
  - exists [], (tl places). split; [reflexivity | split; [constructor |]].
    intros _. split; [reflexivity | exact H].
Qed.

(** X2.  [get_conn] opens the store exactly when one of the searched places
    exists, and then on the place [find_db] chose, touching nothing of the
    session.  When none exists it shows the Database-not-found error, which
    names the script directory, and stops the page. *)
Theorem X2_get_conn_iff_store_found (s : session) :
  let places := candidates path_join script_dir parent_dir home in
  let conn := get_conn path_join path_exists script_dir parent_dir home in
  ((exists p, In p places /\ path_exists p = true) ->
   conn s
   = (Done (find_db path_join path_exists script_dir parent_dir home), s)
   /\ path_exists (find_db path_join path_exists script_dir parent_dir home)
      = true)
  /\ ((forall p, In p places -> path_exists p = false) ->
      exists s',
        conn s = (Stopped, s')
        /\ shown s' = shown s ++ [Shown_error (not_found_message script_dir)]
        /\ issued s' = issued s).
Proof.
  intros places conn. subst conn. unfold get_conn, DB_PATH.
  pose proof find_db_exists_iff as Hiff.
  split.
  - intros Hsome. apply Hiff in Hsome. split; [| exact Hsome].
    rewrite Hsome. reflexivity.
  - intros Hnone.
    assert (Hno :
      path_exists (find_db path_join path_exists script_dir parent_dir home)
      = false).
    { apply not_true_is_false. intros E.
      apply Hiff in E. destruct E as (p & Hin & Hp).
      rewrite (Hnone p Hin) in Hp. discriminate. }
    rewrite Hno. simpl. eexists. split; [reflexivity |].
    split; reflexivity.
Qed.

End Discovery_facts.

Section Discovery_witnesses.

Import App Discovery.

Lemma X1_find_db_first_existing_witness :
  let path_join := fun a b => (a ++ "/" ++ b)%string in
  let path_exists := String.eqb "/srv/CROSSMARKET/mydb (4).db" in
  find_db path_join path_exists "/srv/app" "/srv" "/root"
  = "/srv/CROSSMARKET/mydb (4).db"%string.
Proof.
  intros path_join path_exists.
  destruct (X1_find_db_first_existing path_join path_exists
              "/srv/app" "/srv" "/root")
    as [_ [_ Hyes]].
  assert (Hsome :
    exists p,
      In p (candidates path_join "/srv/app" "/srv" "/root")
      /\ path_exists p = true).
  { exists "/srv/CROSSMARKET/mydb (4).db"%string.
    split; [right; right; right; left |]; reflexivity. }
  apply Hyes in Hsome. apply String.eqb_eq in Hsome. symmetry. exact Hsome.
Defined.

Lemma X2_get_conn_iff_store_found_witness :
  let path_join := fun a b => (a ++ "/" ++ b)%string in
  (get_conn path_join (String.eqb "/srv/CROSSMARKET/mydb (4).db")
     "/srv/app" "/srv" "/root" fresh
   = (Done "/srv/CROSSMARKET/mydb (4).db"%string, fresh))
  /\ exists s',
       get_conn path_join (fun _ => false) "/srv/app" "/srv" "/root" fresh
       = (Stopped, s')
       /\ issued s' = [].
Proof.
  intros path_join. split.
  - assert (Hsome :
      exists p,
        In p (candidates path_join "/srv/app" "/srv" "/root")
        /\ String.eqb "/srv/CROSSMARKET/mydb (4).db" p = true).
    { exists "/srv/CROSSMARKET/mydb (4).db"%string.
      split; [right; right; right; left |]; reflexivity. }
    exact
      (proj1
         (proj1
            (X2_get_conn_iff_store_found path_join
               (String.eqb "/srv/CROSSMARKET/mydb (4).db")
               "/srv/app" "/srv" "/root" fresh)
            Hsome)).
  - destruct
      (proj2
         (X2_get_conn_iff_store_found path_join (fun _ => false)
            "/srv/app" "/srv" "/root" fresh)
         (fun _ _ => eq_refl))
      as (s' & E & _ & I).
    exists s'. split; [exact E | exact I].
Defined.

End Discovery_witnesses.

(** ** Memoisation *)

Section Memo_facts.

Import Store Sql App.

Lemma memoized_head (k : cache_key) (keys : list cache_key)
    (sent : list statement) (notices : list notice) :
  memoized k {| memo := k :: keys; issued := sent; shown := notices |} = true.
Proof.
  unfold memoized. apply mem_true_iff. left. reflexivity.
Qed.

(** After a call of a memoised function its key is stored. *)
Lemma cache_data_stores {A : Type} (P : statement -> Prop) (k : cache_key)
    (body : M A) (v : A) (s : session) :
  yields P body v -> memoized k (snd (cache_data k body s)) = true.
Proof.
  intros Hb. destruct (Hb s) as (s1 & E1 & _).
  unfold cache_data. destruct (memoized k s) eqn:Ek.
  - exact Ek.
  - rewrite E1. apply memoized_head.
Qed.

(** X3.  [run_query] sends a statement to the store at most once per
    process: every call returns the rows of the statement and leaves its key
    memoised, having sent at most that one statement; and a call made while
    the key is memoised returns the same rows and changes nothing, so nothing
    is sent. *)
Theorem X3_run_query_sends_once {A : Type} (q : query A) (s : session) :
  (exists s1,
     run_query q s = (Done (answer q), s1)
     /\ memoized (K_run_query (stmt q)) s1 = true
     /\ shown s1 = shown s
     /\ (issued s1 = issued s \/ issued s1 = issued s ++ [stmt q]))
  /\ (memoized (K_run_query (stmt q)) s = true ->
      run_query q s = (Done (answer q), s)).
Proof.
  assert (Hy : yields (fun st => st = stmt q) (read_sql_query q) (answer q))
    by (apply yields_read_sql_query; reflexivity).
  split.
  - pose proof (cache_data_stores _ (K_run_query (stmt q)) _ _ s Hy) as Hm.
    unfold run_query in *. unfold cache_data in *.
    destruct (memoized (K_run_query (stmt q)) s) eqn:Ek.
    + exists s. simpl. repeat split; auto.
    + unfold read_sql_query in *. simpl in *. eexists.
      split; [reflexivity |]. simpl. repeat split; auto.
  - intros Hk. unfold run_query.
    apply (cache_data_hit _ _ _ _ _ Hy Hk).
Qed.

Lemma X3_run_query_sends_once_witness :
  exists s1,
    run_query (top3_latest_query Samples.market) fresh
    = (Done (top3_by_latest Samples.market), s1)
    /\ run_query (top3_latest_query Samples.market) s1
       = (Done (top3_by_latest Samples.market), s1).
Proof.
  destruct (X3_run_query_sends_once (top3_latest_query Samples.market) fresh)
    as [(s1 & E & Hm & _) _].
  exists s1. split; [exact E |].
  exact (proj2 (X3_run_query_sends_once (top3_latest_query Samples.market) s1)
           Hm).
Defined.

Variable db : database.
Variable today : day.

(** Each helper is its body under [cache_data]. *)
Lemma get_bitcoin_coin_id_body :
  exists body v,
    get_bitcoin_coin_id db = cache_data K_get_bitcoin_coin_id body
    /\ yields unbound body v.
Proof.
  eexists.
  exists (match bitcoin_like_coin db with
          | c :: _ => Some c
          | [] => match highest_avg_coin db with
                  | (c, _) :: _ => Some c
                  | [] => None
                  end
          end).
  split; [reflexivity |].
  eapply yields_bind.
  { apply (yields_run_query unbound (bitcoin_like_query db)). reflexivity. }
  simpl answer.
  destruct (bitcoin_like_coin db) as [| c rest].
  - eapply yields_bind; [| apply yields_ret].
    apply (yields_run_query unbound (highest_avg_query db)). reflexivity.
  - apply yields_ret.
Qed.

Lemma get_db_date_range_body :
  exists body v,
    get_db_date_range db today = cache_data K_get_db_date_range body
    /\ yields unbound body v.
Proof.
  destruct (collect_ranges_yields (date_tables db)) as [ranges H].
  eexists. eexists. split; [reflexivity |].
  eapply yields_bind; [exact H | apply yields_ret].
Qed.

Lemma get_top3_body :
  exists body v,
    get_top3 db = cache_data K_get_top3 body /\ yields unbound body v.
Proof.
  eexists.
  exists (map fst
            (if (length (top3_by_latest db) <? 3)%nat then top3_by_avg db
             else top3_by_latest db)).
  split; [reflexivity |].
  eapply yields_bind.
  { apply (yields_run_query unbound (top3_latest_query db)). reflexivity. }
  simpl answer.
  destruct (length (top3_by_latest db) <? 3)%nat.
  - eapply yields_bind; [| apply yields_ret].
    apply (yields_run_query unbound (top3_avg_query db)). reflexivity.
  - eapply yields_bind; [apply yields_ret | apply yields_ret].
Qed.

Lemma get_coin_display_names_body (coin_ids : list string) :
  exists body v,
    get_coin_display_names db coin_ids
    = cache_data (K_get_coin_display_names coin_ids) body
    /\ yields dateless body v.
Proof.
  eexists. eexists. split; [reflexivity |].
  eapply yields_bind; [| apply yields_ret].
  apply (yields_run_query dateless (display_names_query db coin_ids)).
  apply display_names_dateless.
Qed.

(** X4.  The four memoised helpers behave alike: each call returns the
    helper's value, the same from every session, and leaves the helper
    memoised; a call made while it is memoised changes nothing, so a
    re-render sends no statement for it. *)
Theorem X4_helpers_memoised (coin_ids : list string) :
  (exists v,
     forall s,
       memoized K_get_bitcoin_coin_id (snd (get_bitcoin_coin_id db s)) = true
       /\ fst (get_bitcoin_coin_id db s) = Done v
       /\ (memoized K_get_bitcoin_coin_id s = true ->
           get_bitcoin_coin_id db s = (Done v, s)))
  /\ (exists v,
        forall s,
          memoized K_get_db_date_range (snd (get_db_date_range db today s))
          = true
          /\ fst (get_db_date_range db today s) = Done v
          /\ (memoized K_get_db_date_range s = true ->
              get_db_date_range db today s = (Done v, s)))
  /\ (exists v,
        forall s,
          memoized K_get_top3 (snd (get_top3 db s)) = true
          /\ fst (get_top3 db s) = Done v
          /\ (memoized K_get_top3 s = true -> get_top3 db s = (Done v, s)))
  /\ (exists v,
        forall s,
          memoized (K_get_coin_display_names coin_ids)
            (snd (get_coin_display_names db coin_ids s))
          = true
          /\ fst (get_coin_display_names db coin_ids s) = Done v
          /\ (memoized (K_get_coin_display_names coin_ids) s = true ->
              get_coin_display_names db coin_ids s = (Done v, s))).
Proof.
  assert (Hgen :
    forall (A : Type) (P : statement -> Prop) (k : cache_key) (body : M A)
           (v : A),
      yields P body v ->
      forall s,
        memoized k (snd (cache_data k body s)) = true
        /\ fst (cache_data k body s) = Done v
        /\ (memoized k s = true -> cache_data k body s = (Done v, s))).
  { intros A P k body v Hb s.
    split; [apply (cache_data_stores P _ _ v), Hb |].
    split; [| apply (cache_data_hit P), Hb].
    destruct (yields_cache_data P k body v Hb s) as (s1 & E & _).
    rewrite E. reflexivity. }
  split; [| split; [| split]].
  - destruct get_bitcoin_coin_id_body as (body & v & -> & Hb).
    exists v. apply (Hgen _ unbound), Hb.
  - destruct get_db_date_range_body as (body & v & -> & Hb).
    exists v. apply (Hgen _ unbound), Hb.
  - destruct get_top3_body as (body & v & -> & Hb).
    exists v. apply (Hgen _ unbound), Hb.
  - destruct (get_coin_display_names_body coin_ids) as (body & v & -> & Hb).
    exists v. apply (Hgen _ dateless), Hb.
Qed.

End Memo_facts.

Section Memo_witnesses.

Import Store Sql App.

Lemma X4_helpers_memoised_witness :
  exists v s1,
    get_top3 Samples.market fresh = (Done v, s1)
    /\ get_top3 Samples.market s1 = (Done v, s1).
Proof.
  destruct (X4_helpers_memoised Samples.market Samples.jan3 [])
    as (_ & _ & (v & H) & _).
  destruct (H fresh) as (Hm & Hv & _).
  exists v, (snd (get_top3 Samples.market fresh)).
  split.
  - rewrite <- Hv. apply surjective_pairing.
  - exact (proj2 (proj2 (H (snd (get_top3 Samples.market fresh)))) Hm).
Defined.

End Memo_witnesses.

(** ** The date range of the store *)

Section Date_range_facts.

Import Store Sql Rows App.

Lemma min_of_spec (l : list Z) (m : Z) :
  min_of l = Some m -> In m l /\ forall x, In x l -> (m <= x)%Z.
Proof.
  destruct l as [| a l]; [discriminate |].
  unfold min_of. intros H. injection H as <-.
  revert a. induction l as [| b l IH]; intros a; simpl.
  - split; [left; reflexivity |].
    intros x [<- | []]. lia.
  - destruct (IH (Z.min a b)) as [Hin Hle]. split.
    + destruct Hin as [E | Hin].
      * rewrite <- E.
        destruct (Z.min_spec a b) as [[_ E'] | [_ E']]; rewrite E';
          [left | right; left]; reflexivity.
      * right; right; exact Hin.
    + pose proof (Hle (Z.min a b) (or_introl eq_refl)) as Htop.
      intros x [E | [E | Hx]].
      * lia.
      * lia.
      * apply Hle. right. exact Hx.
Qed.

(** The (min, max) pairs [get_db_date_range] collects: one per table that
    has a row. *)
Lemma collect_ranges_value (tables : list (string * string * list day)) :
  yields unbound (collect_ranges tables)
    (flat_map
       (fun t =>
          match min_of (snd t), max_of (snd t) with
          | Some mn, Some mx => [(mn, mx)]
          | _, _ => []
          end)
       tables).
Proof.
  induction tables as [| [[table col] dates] rest IH].
  - apply yields_ret.
  - simpl collect_ranges.
    eapply yields_bind.
    { apply (yields_run_query unbound (date_range_query table col dates)).
      reflexivity. }
    eapply yields_bind; [exact IH |].
    simpl answer. unfold min_max_date. simpl flat_map.
    destruct (min_of dates) as [mn |], (max_of dates) as [mx |];
      apply yields_ret.
Qed.

Variable db : database.
Variable today : day.

(** Every date of the three tables. *)
Local Abbreviation every_date :=
  (map cp_date (crypto_prices db) ++ map op_date (oil_prices db)
   ++ map sp_date (stock_prices db)).

Lemma table_range (dates : list day) :
  match min_of dates, max_of dates with
  | Some mn, Some mx =>
      In mn dates /\ In mx dates
      /\ forall d, In d dates -> (mn <= d <= mx)%Z
  | None, None => dates = []
  | _, _ => False
  end.
Proof.
  destruct dates as [| a l]; [reflexivity |].
  pose proof (min_of_spec (a :: l)) as Hmin.
  pose proof (max_of_spec (a :: l)) as Hmax.
  destruct (min_of (a :: l)) as [mn |] eqn:E1; [| discriminate].
  destruct (max_of (a :: l)) as [mx |] eqn:E2; [| discriminate].
  destruct (Hmin mn eq_refl) as [H1 H2].
  destruct (Hmax mx eq_refl) as [H3 H4].
  split; [exact H1 | split; [exact H3 |]].
  intros d Hd. split; [apply H2 | apply H4]; exact Hd.
Qed.

(** The value of [get_db_date_range]: the least and the greatest date of
    the three tables, or 2022-01-01 and today when they are all empty. *)
Lemma get_db_date_range_value :
  exists db_min db_max,
    yields unbound (get_db_date_range db today) (db_min, db_max)
    /\ (every_date = [] -> db_min = 18993%Z /\ db_max = today)
    /\ (every_date <> [] ->
        In db_min every_date /\ In db_max every_date
        /\ forall d, In d every_date -> (db_min <= d <= db_max)%Z).
Proof.
  pose proof (collect_ranges_value (date_tables db)) as Hy.
  unfold date_tables in Hy. simpl flat_map in Hy. rewrite app_nil_r in Hy.
  pose proof (table_range (map cp_date (crypto_prices db))) as Hc.
  pose proof (table_range (map op_date (oil_prices db))) as Ho.
  pose proof (table_range (map sp_date (stock_prices db))) as Hs.
  set (ranges :=
         (match min_of (map cp_date (crypto_prices db)),
                max_of (map cp_date (crypto_prices db)) with
          | Some mn, Some mx => [(mn, mx)]
          | _, _ => []
          end
          ++ match min_of (map op_date (oil_prices db)),
                   max_of (map op_date (oil_prices db)) with
             | Some mn, Some mx => [(mn, mx)]
             | _, _ => []
             end
          ++ match min_of (map sp_date (stock_prices db)),
                   max_of (map sp_date (stock_prices db)) with
             | Some mn, Some mx => [(mn, mx)]
             | _, _ => []
             end)%list) in *.
  assert (Hy' :
    yields unbound (get_db_date_range db today)
      match min_of (map fst ranges), max_of (map snd ranges) with
      | Some mn, Some mx => (mn, mx)
      | _, _ => (18993%Z, today)
      end).
  { unfold get_db_date_range. apply yields_cache_data.
    eapply yields_bind; [exact Hy | apply yields_ret]. }
  (* every pair of [ranges] bounds a table, every table with a row has one *)
  assert (Hsound :
    forall mn mx, In (mn, mx) ranges ->
                  In mn every_date /\ In mx every_date).
  { intros mn mx Hin. subst ranges.
    destruct (min_of (map cp_date (crypto_prices db))) as [a1 |],
             (max_of (map cp_date (crypto_prices db))) as [b1 |];
      destruct (min_of (map op_date (oil_prices db))) as [a2 |],
               (max_of (map op_date (oil_prices db))) as [b2 |];
      destruct (min_of (map sp_date (stock_prices db))) as [a3 |],
               (max_of (map sp_date (stock_prices db))) as [b3 |];
      simpl in Hin; try contradiction;
      repeat match goal with
             | H : _ \/ _ |- _ => destruct H
             | H : (_, _) = (_, _) |- _ => injection H as <- <-
             | H : False |- _ => contradiction
             end;
      rewrite !in_app_iff; intuition. }
  assert (Hcover :
    forall d, In d every_date ->
              exists mn mx, In (mn, mx) ranges /\ (mn <= d <= mx)%Z).
  { intros d Hd. subst ranges. rewrite !in_app_iff in Hd.
    destruct (min_of (map cp_date (crypto_prices db))) as [a1 |],
             (max_of (map cp_date (crypto_prices db))) as [b1 |];
      destruct (min_of (map op_date (oil_prices db))) as [a2 |],
               (max_of (map op_date (oil_prices db))) as [b2 |];
      destruct (min_of (map sp_date (stock_prices db))) as [a3 |],
               (max_of (map sp_date (stock_prices db))) as [b3 |];
      try contradiction;
      repeat match goal with
             | H : _ = [] |- _ => rewrite H in *; clear H
             end;
      simpl in Hd;
      destruct Hd as [Hd | [Hd | Hd]]; try contradiction;
      repeat match goal with
             | H : _ /\ _ |- _ => destruct H
             end;
      match goal with
      | H : forall d, In d ?l -> _, Hd : In d ?l |- _ =>
          pose proof (H d Hd)
      end;
      eexists; eexists; (split; [| eassumption]); simpl; auto 6. }
  pose proof (min_of_spec (map fst ranges)) as Hmin.
  pose proof (max_of_spec (map snd ranges)) as Hmax.
  destruct (min_of (map fst ranges)) as [m |] eqn:Em.
  - destruct (max_of (map snd ranges)) as [M |] eqn:EM.
    + exists m, M. split; [exact Hy' |].
      destruct (Hmin m eq_refl) as [Hm1 Hm2].
      destruct (Hmax M eq_refl) as [HM1 HM2].
      apply in_map_iff in Hm1. destruct Hm1 as [[m' mx'] [<- Hm1]].
      apply in_map_iff in HM1. destruct HM1 as [[mn' M'] [<- HM1]].
      split.
      * intros Hnil. rewrite Hnil in Hsound.
        destruct (Hsound _ _ Hm1) as [[] _].
      * intros _. split; [apply (Hsound _ _ Hm1) |].
        split; [apply (Hsound _ _ HM1) |].
        intros d Hd. destruct (Hcover d Hd) as (mn & mx & Hin & Hb).
        specialize (Hm2 mn (in_map fst _ _ Hin)).
        specialize (HM2 mx (in_map snd _ _ Hin)).
        simpl in *. lia.
    + exfalso. destruct ranges as [| p r]; [discriminate | discriminate].
  - exists 18993%Z, today.
    assert (Hr : ranges = [])
      by (destruct ranges; [reflexivity | discriminate]).
    rewrite Hr in *. simpl in Hy'. split; [exact Hy' |].
    split; [intros _; split; reflexivity |].
    intros Hne. exfalso.
    destruct every_date as [| d rest] eqn:Ed; [contradiction |].
    destruct (Hcover d (or_introl eq_refl)) as (mn & mx & [] & _).
Qed.

(** X5.  [get_db_date_range] always returns, the same pair from every
    session.  When the three tables are empty the pair is 2022-01-01 and
    today.  Otherwise its ends are dates of the tables and every date of
    every table lies between them, so the lower end never exceeds the
    upper. *)
Theorem X5_date_range_covers_store :
  exists db_min db_max,
    (forall s, exists s',
        get_db_date_range db today s = (Done (db_min, db_max), s'))
    /\ (crypto_prices db = [] -> oil_prices db = [] -> stock_prices db = [] ->
        db_min = 18993%Z /\ db_max = today)
    /\ (forall d,
          In d (map cp_date (crypto_prices db))
          \/ In d (map op_date (oil_prices db))
          \/ In d (map sp_date (stock_prices db)) ->
          (db_min <= d <= db_max)%Z
          /\ (db_min <= db_max)%Z
          /\ In db_min every_date /\ In db_max every_date).
Proof.
  destruct get_db_date_range_value as (db_min & db_max & Hy & Hempty & Hsome).
  exists db_min, db_max. split; [| split].
  - intros s. destruct (Hy s) as (s' & E & _). exists s'. exact E.
  - intros E1 E2 E3. apply Hempty. rewrite E1, E2, E3. reflexivity.
  - intros d Hd.
    assert (Hin : In d every_date) by (rewrite !in_app_iff; exact Hd).
    assert (Hne : every_date <> [])
      by (intros E; rewrite E in Hin; exact Hin).
    destruct (Hsome Hne) as (H1 & H2 & H3).
    pose proof (H3 d Hin). split; [assumption |].
    split; [lia | split; assumption].
Qed.

End Date_range_facts.

Section Date_range_witnesses.

Import Store Sql App.

Lemma X5_date_range_covers_store_witness :
  exists db_min db_max s',
    get_db_date_range Samples.market Samples.jan3 fresh
    = (Done (db_min, db_max), s')
    /\ (db_min <= Samples.jan2 <= db_max)%Z
    /\ exists lo hi s1,
         get_db_date_range
           {| crypto_prices := []; oil_prices := []; stock_prices := [];
              cryptocurrencies := [] |} Samples.jan3 fresh
         = (Done (lo, hi), s1)
         /\ lo = 18993%Z /\ hi = Samples.jan3.
Proof.
  destruct (X5_date_range_covers_store Samples.market Samples.jan3)
    as (db_min & db_max & Hrun & _ & Hcover).
  destruct (Hrun fresh) as (s' & E).
  exists db_min, db_max, s'. split; [exact E |].
  assert (Hin :
    In Samples.jan2 (map cp_date (crypto_prices Samples.market))
    \/ In Samples.jan2 (map op_date (oil_prices Samples.market))
    \/ In Samples.jan2 (map sp_date (stock_prices Samples.market)))
    by (right; left; right; left; reflexivity).
  split; [exact (proj1 (Hcover _ Hin)) |].
  destruct (X5_date_range_covers_store
              {| crypto_prices := []; oil_prices := []; stock_prices := [];
                 cryptocurrencies := [] |} Samples.jan3)
    as (lo & hi & Hrun0 & Hempty & _).
  destruct (Hrun0 fresh) as (s1 & E0).
  exists lo, hi, s1. split; [exact E0 |].
  exact (Hempty eq_refl eq_refl eq_refl).
Defined.

End Date_range_witnesses.

(** ** How the pages end *)

Section Page_outcomes.

Import Store Sql Frame Rows App.
Local Open Scope string_scope.

(** No condition on the statements sent. *)
Local Abbreviation any := (fun _ : statement => True).

Lemma yields_any {A : Type} (P : statement -> Prop) (m : M A) (v : A) :
  yields P m v -> yields any m v.
Proof. apply yields_weaken. intros q _. exact I. Qed.

Lemma halts_stop {A : Type} (P : statement -> Prop) : halts P (@st_stop A) [].
Proof.
  intros s. exists s. split; [reflexivity |].
  split; [symmetry; apply app_nil_r |].
  exists []. split; [symmetry; apply app_nil_r | constructor].
Qed.

Lemma halts_error_then {A : Type} (P : statement -> Prop) (msg : string)
    (k : unit -> M A) (notices : list notice) :
  halts P (k tt) notices ->
  halts P (bind (st_error msg) k) (Shown_error msg :: notices).
Proof.
  intros Hk s. unfold bind, st_error.
  destruct (Hk {| memo := memo s; issued := issued s;
                  shown := (shown s ++ [Shown_error msg])%list |})
    as (s1 & E & Sh & sent & I & F).
  exists s1. split; [exact E |]. simpl in Sh, I.
  split; [rewrite Sh, <- app_assoc; reflexivity |].
  exists sent. split; assumption.
Qed.

Lemma halts_warning_then {A : Type} (P : statement -> Prop) (msg : string)
    (k : unit -> M A) (notices : list notice) :
  halts P (k tt) notices ->
  halts P (bind (st_warning msg) k) (Shown_warning msg :: notices).
Proof.
  intros Hk s. unfold bind, st_warning.
  destruct (Hk {| memo := memo s; issued := issued s;
                  shown := (shown s ++ [Shown_warning msg])%list |})
    as (s1 & E & Sh & sent & I & F).
  exists s1. split; [exact E |]. simpl in Sh, I.
  split; [rewrite Sh, <- app_assoc; reflexivity |].
  exists sent. split; assumption.
Qed.

Lemma raises_bind {A B : Type} (P : statement -> Prop) (m : M A)
    (k : A -> M B) (v : A) (e : string) :
  yields P m v -> raises P (k v) e -> raises P (bind m k) e.
Proof.
  intros Hm Hk s. unfold bind.
  destruct (Hm s) as (s1 & E1 & Sh1 & sent1 & I1 & F1). rewrite E1.
  destruct (Hk s1) as (s2 & E2 & Sh2 & sent2 & I2 & F2).
  exists s2. split; [exact E2 |].
  split; [rewrite Sh2; exact Sh1 |].
  exists (sent1 ++ sent2)%list. split.
  - rewrite I2, I1, app_assoc. reflexivity.
  - apply Forall_app. split; assumption.
Qed.

Lemma raises_cards {A : Type} (P : statement -> Prop) (prices : list F64.t)
    (k : unit -> M A) :
  object_column prices = true ->
  raises P (bind (metric_cards prices) k) "TypeError".
Proof.
  intros Hobj s. unfold bind, metric_cards. rewrite Hobj.
  exists s. split; [reflexivity |]. split; [reflexivity |].
  exists []. split; [symmetry; apply app_nil_r | constructor].
Qed.

Lemma yields_cards {A : Type} (P : statement -> Prop) (prices : list F64.t)
    (k : unit -> M A) (v : A) :
  object_column prices = false ->
  yields P (k tt) v -> yields P (bind (metric_cards prices) k) v.
Proof.
  intros Hobj Hk s. unfold bind, metric_cards. rewrite Hobj.
  exact (Hk s).
Qed.

Variable db : database.
Variable today : day.

Local Abbreviation every_date :=
  (map cp_date (crypto_prices db) ++ map op_date (oil_prices db)
   ++ map sp_date (stock_prices db))%list.

(** The coin [get_bitcoin_coin_id] returns. *)
Local Abbreviation the_btc :=
  (match bitcoin_like_coin db with
   | c :: _ => Some c
   | [] =>
       match highest_avg_coin db with
       | (c, _) :: _ => Some c
       | [] => None
       end
   end).

(** The four ways the Market Overview ends. *)
Lemma market_overview_cases :
  exists db_min db_max,
    (every_date = [] -> db_min = 18993%Z /\ db_max = today)
    /\ (every_date <> [] -> (db_min <= db_max)%Z)
    /\ forall picked_start picked_end,
         let start_date := date_input db_min picked_start in
         let end_date := date_input db_max picked_end in
         let df :=
           drop_all_null
             (overview db start_date end_date
                match the_btc with Some c => c | None => "" end) in
         let page := market_overview db today picked_start picked_end in
         if (end_date <? start_date)%Z then
           halts any page [Shown_error "Start date must be before end date."]
         else if negb (truthy the_btc) then
           halts any page
             [Shown_error
                "Could not find Bitcoin in the database. Check the `crypto_prices` table."]
         else
           match df with
           | [] =>
               halts any page
                 [Shown_warning
                    "No data found for the selected date range. Try widening the range."]
           | _ :: _ =>
               yields any page
                 {| averages := map (fun c => F64.avg (series c df)) columns;
                    latest_date := max_of (map date df);
                    chart := normalize (plot_frame df);
                    snapshot := df |}
           end.
Proof.
  destruct (get_db_date_range_value db today)
    as (db_min & db_max & Hr & Hempty & Hsome).
  exists db_min, db_max. split; [exact Hempty |].
  split.
  { intros Hne. destruct (Hsome Hne) as (Hin & _ & Hall).
    destruct (Hall db_min Hin). assumption. }
  intros picked_start picked_end start_date end_date df page.
  subst page. unfold market_overview.
  fold start_date. 
  destruct (end_date <? start_date)%Z eqn:Elt.
  - eapply halts_bind; [exact (yields_any _ _ _ Hr) |].
    cbn [fst snd]. fold start_date end_date. rewrite Elt.
    apply halts_error_stop.
  - destruct (negb (truthy the_btc)) eqn:Et.
    + eapply halts_bind; [exact (yields_any _ _ _ Hr) |].
      cbn [fst snd]. fold start_date end_date. rewrite Elt.
      eapply halts_bind;
        [exact (yields_any _ _ _ (get_bitcoin_coin_id_yields db)) |].
      rewrite Et.
      apply halts_error_then.
      eapply halts_bind;
        [apply (yields_run_query any (some_coin_ids_query db)); exact I |].
      apply halts_stop.
    + destruct df as [| r rest] eqn:Edf.
      * eapply halts_bind; [exact (yields_any _ _ _ Hr) |].
        cbn [fst snd]. fold start_date end_date. rewrite Elt.
        eapply halts_bind;
          [exact (yields_any _ _ _ (get_bitcoin_coin_id_yields db)) |].
        rewrite Et.
        eapply halts_bind;
          [apply (yields_read_sql_query any
                    (overview_query db start_date end_date
                       match the_btc with Some c => c | None => "" end));
           exact I |].
        cbn [answer overview_query]. fold df. rewrite Edf.
        apply halts_warning_then.
        eapply halts_bind; [apply yields_run_query; exact I |].
        eapply halts_bind; [apply yields_run_query; exact I |].
        eapply halts_bind; [apply yields_run_query; exact I |].
        eapply halts_bind; [apply yields_run_query; exact I |].
        apply halts_stop.
      * eapply yields_bind; [exact (yields_any _ _ _ Hr) |].
        cbn [fst snd]. fold start_date end_date. rewrite Elt.
        eapply yields_bind;
          [exact (yields_any _ _ _ (get_bitcoin_coin_id_yields db)) |].
        rewrite Et.
        eapply yields_bind;
          [apply (yields_read_sql_query any
                    (overview_query db start_date end_date
                       match the_btc with Some c => c | None => "" end));
           exact I |].
        cbn [answer overview_query]. fold df. rewrite Edf.
        apply yields_ret.
Qed.

(** The identifiers [get_top3] returns. *)
Local Abbreviation the_top3 :=
  (map fst
     (if (length (top3_by_latest db) <? 3)%nat then top3_by_avg db
      else top3_by_latest db)).

(** The five ways the Top 3 page ends. *)
Lemma top3_analysis_cases :
  exists db_min db_max,
    (every_date = [] -> db_min = 18993%Z /\ db_max = today)
    /\ (every_date <> [] -> (db_min <= db_max)%Z)
    /\ forall picked_coin picked_from picked_to,
         let name_map :=
           fold_left
             (fun mapping row => Dict.set mapping (id row) (display_name row))
             (metadata_of db (map Text.lower the_top3)) [] in
         let labels := display_labels name_map the_top3 in
         let page :=
           top3_analysis db today picked_coin picked_from picked_to in
         match the_top3 with
         | [] => halts any page [Shown_warning "No cryptocurrency data found."]
         | _ :: _ =>
             exists coin,
               Dict.get (label_to_id labels the_top3)
                 (selectbox labels picked_coin)
               = Some coin
               /\ let start_c := date_input db_min picked_from in
                  let end_c := date_input db_max picked_to in
                  if (end_c <? start_c)%Z then
                    halts any page [Shown_error "Invalid date range."]
                  else
                    match coin_series db coin start_c end_c with
                    | [] =>
                        halts any page
                          [Shown_warning
                             "No data for selected coin and date range."]
                    | _ :: _ =>
                        if object_column
                             (map snd (coin_series db coin start_c end_c))
                        then raises any page "TypeError"
                        else
                          yields any page
                            {| coin := coin;
                               cdf := coin_series db coin start_c end_c |}
                    end
         end.
Proof.
  destruct (get_db_date_range_value db today)
    as (db_min & db_max & Hr & Hempty & Hsome).
  exists db_min, db_max. split; [exact Hempty |].
  split.
  { intros Hne. destruct (Hsome Hne) as (Hin & _ & Hall).
    destruct (Hall db_min Hin). assumption. }
  intros picked_coin picked_from picked_to name_map labels page.
  pose proof (yields_any _ _ _ (get_top3_yields db)) as Htop.
  pose proof (fun ids => yields_any _ _ _ (get_coin_display_names_yields db ids))
    as Hnames.
  subst page labels name_map. unfold top3_analysis.
  destruct the_top3 as [| c0 rest] eqn:Etop.
  - eapply halts_bind; [exact Htop |]. apply halts_warning_stop.
  - destruct (selected_label_known
                (fold_left
                   (fun mapping row =>
                      Dict.set mapping (id row) (display_name row))
                   (metadata_of db (map Text.lower (c0 :: rest))) [])
                (c0 :: rest) picked_coin ltac:(discriminate))
      as [coin Hcoin].
    exists coin. split; [exact Hcoin |].
    cbv zeta.
    set (start_c := date_input db_min picked_from).
    set (end_c := date_input db_max picked_to).
    destruct (end_c <? start_c)%Z eqn:Elt.
    + eapply halts_bind; [exact Htop |]. cbv iota.
      eapply halts_bind; [apply Hnames |].
      eapply halts_bind; [exact (yields_any _ _ _ Hr) |].
      cbv zeta. cbn [fst snd]. rewrite Hcoin.
      fold start_c end_c. rewrite Elt.
      apply halts_error_stop.
    + destruct (coin_series db coin start_c end_c) as [| p ps] eqn:Ecdf.
      * eapply halts_bind; [exact Htop |]. cbv iota.
        eapply halts_bind; [apply Hnames |].
        eapply halts_bind; [exact (yields_any _ _ _ Hr) |].
        cbv zeta. cbn [fst snd]. rewrite Hcoin.
        fold start_c end_c. rewrite Elt.
        eapply halts_bind;
          [apply (yields_run_query any
                    (coin_series_query db coin start_c end_c)); exact I |].
        cbn [answer coin_series_query]. rewrite Ecdf.
        apply halts_warning_stop.
      * destruct (object_column (map snd (p :: ps))) eqn:Eobj.
        -- eapply raises_bind; [exact Htop |]. cbv iota.
           eapply raises_bind; [apply Hnames |].
           eapply raises_bind; [exact (yields_any _ _ _ Hr) |].
           cbv zeta. cbn [fst snd]. rewrite Hcoin.
           fold start_c end_c. rewrite Elt.
           eapply raises_bind;
             [apply (yields_run_query any
                       (coin_series_query db coin start_c end_c));
              exact I |].
           cbn [answer coin_series_query]. rewrite Ecdf.
           apply raises_cards. exact Eobj.
        -- eapply yields_bind; [exact Htop |]. cbv iota.
           eapply yields_bind; [apply Hnames |].
           eapply yields_bind; [exact (yields_any _ _ _ Hr) |].
           cbv zeta. cbn [fst snd]. rewrite Hcoin.
           fold start_c end_c. rewrite Elt.
           eapply yields_bind;
             [apply (yields_run_query any
                       (coin_series_query db coin start_c end_c));
              exact I |].
           cbn [answer coin_series_query]. rewrite Ecdf.
           apply yields_cards; [exact Eobj |].
           apply yields_ret.
Qed.

End Page_outcomes.

Section Page_outcome_properties.

Import Store Sql Frame Rows App.
Local Open Scope string_scope.

Lemma dict_get_update_from {V : Type} (other d : Dict.t V) (k : string)
    (v : V) :
  Dict.get (Dict.update d other) k = Some v ->
  In (k, v) other \/ Dict.get d k = Some v.
Proof.
  unfold Dict.update. revert d.
  induction other as [| [k1 v1] other IH]; intros d H; simpl in H.
  - right. exact H.
  - destruct (IH _ H) as [Hin | Hget].
    + left. right. exact Hin.
    + rewrite dict_get_set in Hget.
      destruct (String.eqb_spec k1 k) as [-> | _].
      * injection Hget as ->. left. left. reflexivity.
      * right. exact Hget.
Qed.

(** The coin behind a label is one of the coins offered. *)
Lemma label_to_id_In (labels top3 : list string) (label coin : string) :
  Dict.get (label_to_id labels top3) label = Some coin -> In coin top3.
Proof.
  unfold label_to_id. intros H.
  apply dict_get_update_from in H. destruct H as [H | H]; [| discriminate].
  apply in_combine_r in H. exact H.
Qed.

Lemma object_column_spec {A : Type} (l : list (A * F64.t)) :
  object_column (map snd l) = true ->
  Forall (fun p => F64.isnull (snd p) = true) l.
Proof.
  unfold object_column. intros H. apply Forall_forall. intros p Hp.
  rewrite forallb_forall in H. apply H. apply in_map. exact Hp.
Qed.

Lemma object_column_false {A : Type} (l : list (A * F64.t)) :
  object_column (map snd l) = false ->
  exists p, In p l /\ F64.isnull (snd p) = false.
Proof.
  unfold object_column. induction l as [| p l IH]; simpl; [discriminate |].
  destruct (F64.isnull (snd p)) eqn:E; simpl.
  - intros H. destruct (IH H) as (q & Hq & Hn). exists q. auto.
  - intros _. exists p. auto.
Qed.

Variable db : database.
Variable today : day.

(** X6.  The Market Overview never ends in a Python exception: it either
    stops after showing exactly one of its three notices, or renders a table
    with at least one row and shows no notice.  The Top 3 page ends in one
    of three ways.  It stops after exactly one of its three notices.  Or it
    renders, without a notice, a series with at least one point and at least
    one price that is not NULL, for a coin that [get_top3] returned.  Or the
    series of the selected coin in the range has points but no price other
    than NULL: then the cards fail with TypeError, nothing having been
    shown.  The subscript [label_to_id[selected_label]] never fails. *)
Theorem X6_page_outcomes (picked_start picked_end : option day)
    (picked_coin : option nat) (s : session) :
  (exists s',
     (market_overview db today picked_start picked_end s = (Stopped, s')
      /\ exists n,
           shown s' = (shown s ++ [n])%list
           /\ In n
                [Shown_error "Start date must be before end date.";
                 Shown_error
                   "Could not find Bitcoin in the database. Check the `crypto_prices` table.";
                 Shown_warning
                   "No data found for the selected date range. Try widening the range."])
     \/ (exists view,
           market_overview db today picked_start picked_end s = (Done view, s')
           /\ shown s' = shown s
           /\ snapshot view <> []))
  /\ (exists s',
        (top3_analysis db today picked_coin picked_start picked_end s
         = (Stopped, s')
         /\ exists n,
              shown s' = (shown s ++ [n])%list
              /\ In n
                   [Shown_warning "No cryptocurrency data found.";
                    Shown_error "Invalid date range.";
                    Shown_warning "No data for selected coin and date range."])
        \/ (exists view top3 s0,
              top3_analysis db today picked_coin picked_start picked_end s
              = (Done view, s')
              /\ shown s' = shown s
              /\ cdf view <> []
              /\ (exists p, In p (cdf view) /\ F64.isnull (snd p) = false)
              /\ get_top3 db s = (Done top3, s0)
              /\ In (coin view) top3)
        \/ (exists c start_c end_c top3 s0,
              top3_analysis db today picked_coin picked_start picked_end s
              = (Raised "TypeError", s')
              /\ shown s' = shown s
              /\ get_top3 db s = (Done top3, s0)
              /\ In c top3
              /\ (forall d, picked_start = Some d -> start_c = d)
              /\ (forall d, picked_end = Some d -> end_c = d)
              /\ coin_series db c start_c end_c <> []
              /\ Forall (fun p => F64.isnull (snd p) = true)
                   (coin_series db c start_c end_c))).
Proof.
  split.
  - destruct (market_overview_cases db today) as (db_min & db_max & _ & _ & H).
    specialize (H picked_start picked_end). cbv zeta in H.
    destruct (date_input db_max picked_end <? date_input db_min picked_start)%Z.
    { destruct (H s) as (s' & E & Sh & _). exists s'. left.
      split; [exact E |]. eexists. split; [exact Sh |]. simpl. auto. }
    destruct (negb (truthy _)).
    { destruct (H s) as (s' & E & Sh & _). exists s'. left.
      split; [exact E |]. eexists. split; [exact Sh |]. simpl. auto. }
    destruct (drop_all_null _) as [| r rest] eqn:Edf.
    { destruct (H s) as (s' & E & Sh & _). exists s'. left.
      split; [exact E |]. eexists. split; [exact Sh |]. simpl. auto. }
    destruct (H s) as (s' & E & Sh & _). exists s'. right.
    eexists. split; [exact E |]. split; [exact Sh |]. discriminate.
  - destruct (top3_analysis_cases db today) as (db_min & db_max & _ & _ & H).
    specialize (H picked_coin picked_start picked_end). cbv zeta in H.
    destruct (get_top3_yields db s) as (s0 & Etop & _).
    destruct (map fst _) as [| c0 rest] eqn:Etop3.
    { destruct (H s) as (s' & E & Sh & _). exists s'. left.
      split; [exact E |]. eexists. split; [exact Sh |]. simpl. auto. }
    destruct H as (c1 & Hcoin & H).
    apply label_to_id_In in Hcoin.
    set (start_c := date_input db_min picked_start) in *.
    set (end_c := date_input db_max picked_end) in *.
    destruct (end_c <? start_c)%Z.
    { destruct (H s) as (s' & E & Sh & _). exists s'. left.
      split; [exact E |]. eexists. split; [exact Sh |]. simpl. auto. }
    destruct (coin_series db c1 start_c end_c) as [| p ps] eqn:Ecdf.
    { destruct (H s) as (s' & E & Sh & _). exists s'. left.
      split; [exact E |]. eexists. split; [exact Sh |]. simpl. auto. }
    destruct (object_column (map snd (p :: ps))) eqn:Eobj.
    + destruct (H s) as (s' & E & Sh & _). exists s'. right. right.
      exists c1, start_c, end_c, (c0 :: rest), s0.
      split; [exact E |]. split; [exact Sh |]. split; [exact Etop |].
      split; [exact Hcoin |].
      split; [intros d ->; reflexivity |].
      split; [intros d ->; reflexivity |].
      rewrite Ecdf. split; [discriminate |].
      apply object_column_spec. exact Eobj.
    + destruct (H s) as (s' & E & Sh & _). exists s'. right. left.
      eexists. exists (c0 :: rest), s0. split; [exact E |].
      split; [exact Sh |]. cbn [coin cdf]. split; [discriminate |].
      split; [apply object_column_false; exact Eobj |].
      split; [exact Etop | exact Hcoin].
Qed.

(** X7.  With both date pickers untouched and at least one dated row in the
    store, no page shows its range error: the default range runs from the
    least to the greatest date of the store.  The Market Overview then
    renders or stops on the Bitcoin error or the no-data warning; the Top 3
    page renders, stops on one of its two warnings, or fails in its cards
    with TypeError having shown nothing. *)
Theorem X7_default_range_is_valid (picked_coin : option nat) (s : session) :
  (map cp_date (crypto_prices db) ++ map op_date (oil_prices db)
   ++ map sp_date (stock_prices db))%list <> [] ->
  (exists s',
     (market_overview db today None None s = (Stopped, s')
      /\ (shown s'
          = (shown s
             ++ [Shown_error
                   "Could not find Bitcoin in the database. Check the `crypto_prices` table."])%list
          \/ shown s'
             = (shown s
                ++ [Shown_warning
                      "No data found for the selected date range. Try widening the range."])%list))
     \/ (exists view,
           market_overview db today None None s = (Done view, s')))
  /\ (exists s',
        (top3_analysis db today picked_coin None None s = (Stopped, s')
         /\ (shown s'
             = (shown s ++ [Shown_warning "No cryptocurrency data found."])%list
             \/ shown s'
                = (shown s
                   ++ [Shown_warning
                         "No data for selected coin and date range."])%list))
        \/ (exists view,
              top3_analysis db today picked_coin None None s
              = (Done view, s'))
        \/ (top3_analysis db today picked_coin None None s
            = (Raised "TypeError", s')
            /\ shown s' = shown s)).
Proof.
  intros Hne. split.
  - destruct (market_overview_cases db today)
      as (db_min & db_max & _ & Hle & H).
    specialize (Hle Hne). specialize (H None None). cbv zeta in H.
    unfold date_input in H.
    assert (Hok : (db_max <? db_min)%Z = false) by (apply Z.ltb_ge; exact Hle).
    rewrite Hok in H.
    destruct (negb (truthy _)).
    { destruct (H s) as (s' & E & Sh & _). exists s'. left.
      split; [exact E | left; exact Sh]. }
    destruct (drop_all_null _) as [| r rest].
    { destruct (H s) as (s' & E & Sh & _). exists s'. left.
      split; [exact E | right; exact Sh]. }
    destruct (H s) as (s' & E & _). exists s'. right.
    eexists. exact E.
  - destruct (top3_analysis_cases db today)
      as (db_min & db_max & _ & Hle & H).
    specialize (Hle Hne). specialize (H picked_coin None None).
    cbv zeta in H. unfold date_input in H.
    assert (Hok : (db_max <? db_min)%Z = false) by (apply Z.ltb_ge; exact Hle).
    destruct (map fst _) as [| c0 rest].
    { destruct (H s) as (s' & E & Sh & _). exists s'. left.
      split; [exact E | left; exact Sh]. }
    destruct H as (coin & _ & H). rewrite Hok in H.
    destruct (coin_series db coin _ _) as [| p ps].
    { destruct (H s) as (s' & E & Sh & _). exists s'. left.
      split; [exact E | right; exact Sh]. }
    destruct (object_column (map snd (p :: ps))).
    + destruct (H s) as (s' & E & Sh & _). exists s'. right. right.
      split; [exact E | exact Sh].
    + destruct (H s) as (s' & E & _). exists s'. right. left.
      eexists. exact E.
Qed.

End Page_outcome_properties.

Section Page_outcome_witnesses.

Import Store Sql Frame App.

Lemma X7_default_range_is_valid_witness :
  exists s' view,
    market_overview Samples.market Samples.jan3 None None fresh
    = (Done view, s').
Proof.
  assert (Hne :
    (map cp_date (crypto_prices Samples.market)
     ++ map op_date (oil_prices Samples.market)
     ++ map sp_date (stock_prices Samples.market))%list <> [])
    by discriminate.
  destruct (proj1 (X7_default_range_is_valid Samples.market Samples.jan3
                     None fresh Hne))
    as (s' & [[E _] | [view E]]).
  - exfalso.
    assert (Hrun : fst (market_overview Samples.market Samples.jan3 None None
                          fresh) <> Stopped)
      by (vm_compute; discriminate).
    rewrite E in Hrun. apply Hrun. reflexivity.
  - exists s', view. exact E.
Defined.

(** The third coin offered on a store whose bitcoin row of 2024-01-02 has
    no price, asked for that one day: the cards fail. *)
Example null_series_cards_fail :
  exists s',
    top3_analysis Samples.null_latest Samples.jan3 (Some 2%nat)
      (Some Samples.jan2) (Some Samples.jan2) fresh
    = (Raised "TypeError", s')
    /\ shown s' = [].
Proof. vm_compute. eexists. split; reflexivity. Qed.

End Page_outcome_witnesses.

(** ** The aligned table, row by row *)

Section Overview_rows.

Import Store Sql Frame Rows App.
Local Open Scope string_scope.

Lemma join_rows_keeps {L R : Type} (on : L -> R -> bool) (r : list R) (x : L) :
  exists o, In (x, o) (join_rows on r x).
Proof.
  unfold join_rows. destruct (filter (on x) r) as [| m ms].
  - exists None. left. reflexivity.
  - exists (Some m). left. reflexivity.
Qed.

Lemma join_rows_match {L R : Type} (on : L -> R -> bool) (r : list R) (x : L)
    (y : R) :
  In y r -> on x y = true -> In (x, Some y) (join_rows on r x).
Proof.
  intros Hy Hon. unfold join_rows.
  assert (Hin : In y (filter (on x) r)) by (apply filter_In; split; assumption).
  destruct (filter (on x) r) as [| m ms]; [contradiction |].
  apply (in_map (fun z => (x, Some z))). exact Hin.
Qed.

(** A left join loses no left row ... *)
Lemma left_join_keeps {L R : Type} (on : L -> R -> bool) (l : list L)
    (r : list R) (x : L) :
  In x l -> exists o, In (x, o) (left_join on l r).
Proof.
  intros Hx. destruct (join_rows_keeps on r x) as [o Ho].
  exists o. unfold left_join. apply in_flat_map. exists x. split; assumption.
Qed.

(** ... and pairs it with every right row that matches. *)
Lemma left_join_match {L R : Type} (on : L -> R -> bool) (l : list L)
    (r : list R) (x : L) (y : R) :
  In x l -> In y r -> on x y = true -> In (x, Some y) (left_join on l r).
Proof.
  intros Hx Hy Hon. unfold left_join. apply in_flat_map. exists x.
  split; [exact Hx | apply join_rows_match; assumption].
Qed.

Lemma of_ticker_In (t : string) (rows : list stock_price_row)
    (r : stock_price_row) :
  In r (of_ticker t rows) <-> In r rows /\ ticker r = t.
Proof.
  unfold of_ticker. rewrite filter_In, String.eqb_eq. reflexivity.
Qed.

Lemma sorted_weaken {A : Type} (R R' : A -> A -> Prop) (l : list A) :
  (forall a b, R a b -> R' a b) -> StronglySorted R l -> StronglySorted R' l.
Proof.
  intros HR. induction 1 as [| x l Hs IH Hall]; constructor.
  - exact IH.
  - eapply Forall_impl; [| exact Hall]. intros b. apply HR.
Qed.

Lemma date_desc_sorted (rows : list overview_row) :
  StronglySorted (fun a b => (date b <= date a)%Z)
    (order_by (fun a b => (date b <=? date a)%Z) rows).
Proof.
  eapply sorted_weaken;
    [| apply (order_by_sorted (fun a b => (date b <=? date a)%Z))].
  - intros a b H. apply Z.leb_le. exact H.
  - intros a b. destruct (Z.le_ge_cases (date b) (date a));
      [left | right]; apply Z.leb_le; assumption.
  - intros a b c H1 H2. apply Z.leb_le in H1, H2. apply Z.leb_le. lia.
Qed.

Lemma date_asc_sorted (rows : list overview_row) :
  StronglySorted (fun a b => (date a <= date b)%Z)
    (order_by (fun a b => (date a <=? date b)%Z) rows).
Proof.
  eapply sorted_weaken;
    [| apply (order_by_sorted (fun a b => (date a <=? date b)%Z))].
  - intros a b H. apply Z.leb_le. exact H.
  - intros a b. destruct (Z.le_ge_cases (date a) (date b));
      [left | right]; apply Z.leb_le; assumption.
  - intros a b c H1 H2. apply Z.leb_le in H1, H2. apply Z.leb_le. lia.
Qed.

Variable db : database.

(** The joined rows of the statement before projection and sorting. *)
Lemma overview_row_origin (sd ed : day) (btc : string) (row : overview_row) :
  In row (overview db sd ed btc) ->
  exists r_cp r_o r_sp r_ni,
    In (date row) (all_dates db sd ed)
    /\ bitcoin_price row = joined price_usd r_cp
    /\ oil_price row = joined price r_o
    /\ sp500_close row = joined close r_sp
    /\ nifty_close row = joined close r_ni
    /\ match r_cp with
       | Some r =>
           In r (crypto_prices db) /\ coin_id r = btc
           /\ cp_date r = date row
       | None => True
       end
    /\ match r_o with
       | Some r => In r (oil_prices db) /\ op_date r = date row
       | None => True
       end
    /\ match r_sp with
       | Some r =>
           In r (stock_prices db) /\ ticker r = "^GSPC"
           /\ sp_date r = date row
       | None => True
       end
    /\ match r_ni with
       | Some r =>
           In r (stock_prices db) /\ ticker r = "^NSEI"
           /\ sp_date r = date row
       | None => True
       end.
Proof.
  unfold overview. intros Hrow.
  apply order_by_In in Hrow. apply in_map_iff in Hrow.
  destruct Hrow as [[[[[d r_cp] r_o] r_sp] r_ni] [<- Hj]].
  exists r_cp, r_o, r_sp, r_ni. cbn [date bitcoin_price oil_price sp500_close
                                     nifty_close].
  apply left_join_In in Hj. destruct Hj as [Hj Hni]. cbn [fst snd] in Hj, Hni.
  apply left_join_In in Hj. destruct Hj as [Hj Hsp]. cbn [fst snd] in Hj, Hsp.
  apply left_join_In in Hj. destruct Hj as [Hj Ho]. cbn [fst snd] in Hj, Ho.
  apply left_join_In in Hj. destruct Hj as [Hd Hcp]. cbn [fst snd] in Hd, Hcp.
  split; [exact Hd |].
  repeat (split; [reflexivity |]).
  split; [| split; [| split]].
  - destruct r_cp as [r |]; [| exact I]. destruct Hcp as [Hr Hon].
    apply of_coin_In in Hr. apply Z.eqb_eq in Hon. intuition.
  - destruct r_o as [r |]; [| exact I]. destruct Ho as [Hr Hon].
    apply Z.eqb_eq in Hon. intuition.
  - destruct r_sp as [r |]; [| exact I]. destruct Hsp as [Hr Hon].
    apply of_ticker_In in Hr. apply Z.eqb_eq in Hon. intuition.
  - destruct r_ni as [r |]; [| exact I]. destruct Hni as [Hr Hon].
    apply of_ticker_In in Hr. apply Z.eqb_eq in Hon. intuition.
Qed.

Lemma overview_dates_in_range (sd ed : day) (btc : string) :
  Forall (fun row => (sd <= date row <= ed)%Z) (overview db sd ed btc).
Proof.
  apply Forall_forall. intros row Hrow.
  destruct (overview_row_origin sd ed btc row Hrow)
    as (_ & _ & _ & _ & Hd & _).
  apply all_dates_In in Hd. destruct Hd as [Hb _].
  unfold between in Hb. apply andb_true_iff in Hb.
  destruct Hb as [H1 H2]. apply Z.leb_le in H1, H2. lia.
Qed.

(** X8.  Every row of the alignment statement carries a date of the
    requested closed range, the rows come newest first, and a range whose
    start lies after its end selects no row at all. *)
Theorem X8_overview_rows_in_range_newest_first (sd ed : day) (btc : string) :
  Forall (fun row => (sd <= date row <= ed)%Z) (overview db sd ed btc)
  /\ StronglySorted (fun a b => (date b <= date a)%Z) (overview db sd ed btc)
  /\ ((ed < sd)%Z -> overview db sd ed btc = []).
Proof.
  pose proof (overview_dates_in_range sd ed btc) as Hrange.
  split; [exact Hrange |].
  split; [apply date_desc_sorted |].
  intros Hlt. destruct (overview db sd ed btc) as [| row rest];
    [reflexivity |].
  apply Forall_inv in Hrange. lia.
Qed.

(** X9.  No cell of the aligned table is invented: a cell that is not null
    is the value of a source row of its own series on the date of the table
    row: a [crypto_prices] row of the selected coin, an [oil_prices] row, a
    [stock_prices] row of ^GSPC, a [stock_prices] row of ^NSEI. *)
Theorem X9_overview_cells_come_from_source (sd ed : day) (btc : string)
    (row : overview_row) :
  In row (overview db sd ed btc) ->
  (F64.isnull (bitcoin_price row) = false ->
   exists r,
     In r (crypto_prices db) /\ coin_id r = btc /\ cp_date r = date row
     /\ price_usd r = bitcoin_price row)
  /\ (F64.isnull (oil_price row) = false ->
      exists r,
        In r (oil_prices db) /\ op_date r = date row
        /\ price r = oil_price row)
  /\ (F64.isnull (sp500_close row) = false ->
      exists r,
        In r (stock_prices db) /\ ticker r = "^GSPC" /\ sp_date r = date row
        /\ close r = sp500_close row)
  /\ (F64.isnull (nifty_close row) = false ->
      exists r,
        In r (stock_prices db) /\ ticker r = "^NSEI" /\ sp_date r = date row
        /\ close r = nifty_close row).
Proof.
  intros Hrow.
  destruct (overview_row_origin sd ed btc row Hrow)
    as (r_cp & r_o & r_sp & r_ni & _ & E1 & E2 & E3 & E4 & H1 & H2 & H3 & H4).
  rewrite E1, E2, E3, E4.
  split; [| split; [| split]].
  - destruct r_cp as [r |]; [| discriminate]. intros _. exists r. intuition.
  - destruct r_o as [r |]; [| discriminate]. intros _. exists r. intuition.
  - destruct r_sp as [r |]; [| discriminate]. intros _. exists r. intuition.
  - destruct r_ni as [r |]; [| discriminate]. intros _. exists r. intuition.
Qed.

(** A left row can be paired with any right row that matches it. *)
Lemma left_join_choose {L R : Type} (on : L -> R -> bool) (l : list L)
    (r : list R) (x : L) (choice : option R) :
  In x l ->
  match choice with
  | Some y => In y r /\ on x y = true
  | None => True
  end ->
  exists o,
    In (x, o) (left_join on l r)
    /\ match choice with
       | Some y => o = Some y
       | None => True
       end.
Proof.
  intros Hx Hc. destruct choice as [y |].
  - exists (Some y). split; [| reflexivity].
    destruct Hc as [Hy Hon]. apply left_join_match; assumption.
  - destruct (left_join_keeps on l r x Hx) as [o Ho].
    exists o. split; [exact Ho | exact I].
Qed.

(** For a calendar date and a choice of matching source rows there is a row
    of the statement that shows the chosen values. *)
Lemma overview_choose (sd ed : day) (btc : string) (d : day)
    (c1 : option crypto_price_row) (c2 : option oil_price_row)
    (c3 c4 : option stock_price_row) :
  In d (all_dates db sd ed) ->
  match c1 with
  | Some r => In r (crypto_prices db) /\ coin_id r = btc /\ cp_date r = d
  | None => True
  end ->
  match c2 with
  | Some r => In r (oil_prices db) /\ op_date r = d
  | None => True
  end ->
  match c3 with
  | Some r => In r (stock_prices db) /\ ticker r = "^GSPC" /\ sp_date r = d
  | None => True
  end ->
  match c4 with
  | Some r => In r (stock_prices db) /\ ticker r = "^NSEI" /\ sp_date r = d
  | None => True
  end ->
  exists row,
    In row (overview db sd ed btc)
    /\ date row = d
    /\ (forall r, c1 = Some r -> bitcoin_price row = price_usd r)
    /\ (forall r, c2 = Some r -> oil_price row = price r)
    /\ (forall r, c3 = Some r -> sp500_close row = close r)
    /\ (forall r, c4 = Some r -> nifty_close row = close r).
Proof.
  intros Hd H1 H2 H3 H4.
  destruct (left_join_choose (fun d0 r => (d0 =? cp_date r)%Z)
              (all_dates db sd ed) (of_coin btc (crypto_prices db)) d c1 Hd)
    as (o1 & J1 & E1).
  { destruct c1 as [r |]; [| exact I]. destruct H1 as (Hr & Hc & Hdate).
    split; [apply of_coin_In; split; assumption |].
    apply Z.eqb_eq. symmetry. exact Hdate. }
  destruct (left_join_choose
              (fun (l : day * option crypto_price_row) r =>
                 (fst l =? op_date r)%Z)
              _ (oil_prices db) (d, o1) c2 J1)
    as (o2 & J2 & E2).
  { destruct c2 as [r |]; [| exact I]. destruct H2 as (Hr & Hdate).
    split; [exact Hr |]. apply Z.eqb_eq. symmetry. exact Hdate. }
  destruct (left_join_choose
              (fun (l : day * option crypto_price_row * option oil_price_row)
                   r => (fst (fst l) =? sp_date r)%Z)
              _ (of_ticker "^GSPC" (stock_prices db)) (d, o1, o2) c3 J2)
    as (o3 & J3 & E3).
  { destruct c3 as [r |]; [| exact I]. destruct H3 as (Hr & Ht & Hdate).
    split; [apply of_ticker_In; split; assumption |].
    apply Z.eqb_eq. symmetry. exact Hdate. }
  destruct (left_join_choose
              (fun (l : day * option crypto_price_row * option oil_price_row
                        * option stock_price_row)
                   r => (fst (fst (fst l)) =? sp_date r)%Z)
              _ (of_ticker "^NSEI" (stock_prices db)) (d, o1, o2, o3) c4 J3)
    as (o4 & J4 & E4).
  { destruct c4 as [r |]; [| exact I]. destruct H4 as (Hr & Ht & Hdate).
    split; [apply of_ticker_In; split; assumption |].
    apply Z.eqb_eq. symmetry. exact Hdate. }
  exists {| date := d;
            bitcoin_price := joined price_usd o1;
            oil_price := joined price o2;
            sp500_close := joined close o3;
            nifty_close := joined close o4 |}.
  split.
  - unfold overview. apply order_by_In. apply in_map_iff.
    exists (d, o1, o2, o3, o4). split; [reflexivity | exact J4].
  - cbn [date bitcoin_price oil_price sp500_close nifty_close].
    split; [reflexivity |].
    split; [| split; [| split]]; intros r Er.
    + rewrite Er in E1. rewrite E1. reflexivity.
    + rewrite Er in E2. rewrite E2. reflexivity.
    + rewrite Er in E3. rewrite E3. reflexivity.
    + rewrite Er in E4. rewrite E4. reflexivity.
Qed.

Lemma in_range_between (sd ed d : day) :
  (sd <= d <= ed)%Z -> between sd ed d = true.
Proof.
  intros [H1 H2]. unfold between.
  apply andb_true_iff. split; apply Z.leb_le; assumption.
Qed.

Lemma keeps_row (df : list overview_row) (row : overview_row) (c : column) :
  In row df -> F64.isnull (get c row) = false -> In row (drop_all_null df).
Proof.
  intros Hrow Hnn. apply filter_In. split; [exact Hrow |].
  apply negb_true_iff. unfold all_null, columns.
  destruct c; simpl in *; rewrite Hnn; simpl;
    rewrite ?andb_false_r; reflexivity.
Qed.

(** X10.  No price of a shown series is lost: for every row of the selected
    coin, of oil, of ^GSPC or of ^NSEI whose date lies in the requested
    range there is a row of the aligned table with that date that shows its
    value in the column of its series, and when the value is not null that
    table row survives the all-null filter. *)
Theorem X10_overview_loses_no_price (sd ed : day) (btc : string) :
  (forall r,
     In r (crypto_prices db) -> coin_id r = btc ->
     (sd <= cp_date r <= ed)%Z ->
     exists row,
       In row (overview db sd ed btc)
       /\ date row = cp_date r /\ bitcoin_price row = price_usd r
       /\ (F64.isnull (price_usd r) = false ->
           In row (drop_all_null (overview db sd ed btc))))
  /\ (forall r,
        In r (oil_prices db) -> (sd <= op_date r <= ed)%Z ->
        exists row,
          In row (overview db sd ed btc)
          /\ date row = op_date r /\ oil_price row = price r
          /\ (F64.isnull (price r) = false ->
              In row (drop_all_null (overview db sd ed btc))))
  /\ (forall r,
        In r (stock_prices db) -> ticker r = "^GSPC" ->
        (sd <= sp_date r <= ed)%Z ->
        exists row,
          In row (overview db sd ed btc)
          /\ date row = sp_date r /\ sp500_close row = close r
          /\ (F64.isnull (close r) = false ->
              In row (drop_all_null (overview db sd ed btc))))
  /\ (forall r,
        In r (stock_prices db) -> ticker r = "^NSEI" ->
        (sd <= sp_date r <= ed)%Z ->
        exists row,
          In row (overview db sd ed btc)
          /\ date row = sp_date r /\ nifty_close row = close r
          /\ (F64.isnull (close r) = false ->
              In row (drop_all_null (overview db sd ed btc)))).
Proof.
  split; [| split; [| split]].
  - intros r Hr Hc Hrange.
    destruct (overview_choose sd ed btc (cp_date r) (Some r) None None None)
      as (row & Hrow & Hd & H1 & _); try exact I.
    { apply all_dates_In. split; [apply in_range_between, Hrange |].
      left. apply in_map. exact Hr. }
    { auto. }
    exists row. specialize (H1 r eq_refl).
    split; [exact Hrow | split; [exact Hd | split; [exact H1 |]]].
    intros Hnn. apply (keeps_row _ _ Bitcoin_price Hrow).
    simpl. rewrite H1. exact Hnn.
  - intros r Hr Hrange.
    destruct (overview_choose sd ed btc (op_date r) None (Some r) None None)
      as (row & Hrow & Hd & _ & H2 & _); try exact I.
    { apply all_dates_In. split; [apply in_range_between, Hrange |].
      right. left. apply in_map. exact Hr. }
    { auto. }
    exists row. specialize (H2 r eq_refl).
    split; [exact Hrow | split; [exact Hd | split; [exact H2 |]]].
    intros Hnn. apply (keeps_row _ _ Oil_price Hrow).
    simpl. rewrite H2. exact Hnn.
  - intros r Hr Ht Hrange.
    destruct (overview_choose sd ed btc (sp_date r) None None (Some r) None)
      as (row & Hrow & Hd & _ & _ & H3 & _); try exact I.
    { apply all_dates_In. split; [apply in_range_between, Hrange |].
      right. right. apply in_map. exact Hr. }
    { auto. }
    exists row. specialize (H3 r eq_refl).
    split; [exact Hrow | split; [exact Hd | split; [exact H3 |]]].
    intros Hnn. apply (keeps_row _ _ Sp500_close Hrow).
    simpl. rewrite H3. exact Hnn.
  - intros r Hr Ht Hrange.
    destruct (overview_choose sd ed btc (sp_date r) None None None (Some r))
      as (row & Hrow & Hd & _ & _ & _ & H4); try exact I.
    { apply all_dates_In. split; [apply in_range_between, Hrange |].
      right. right. apply in_map. exact Hr. }
    { auto. }
    exists row. specialize (H4 r eq_refl).
    split; [exact Hrow | split; [exact Hd | split; [exact H4 |]]].
    intros Hnn. apply (keeps_row _ _ Nifty_close Hrow).
    simpl. rewrite H4. exact Hnn.
Qed.

(** A left row is paired with NULL only when no right row matches it. *)
Lemma join_rows_unmatched {L R : Type} (on : L -> R -> bool) (r : list R)
    (x0 x : L) :
  In (x, None) (join_rows on r x0) ->
  forall y, In y r -> on x y = false.
Proof.
  unfold join_rows. destruct (filter (on x0) r) as [| m ms] eqn:E.
  - intros [H | []]. injection H as <-. intros y Hy.
    destruct (on x0 y) eqn:Eon; [| reflexivity].
    assert (Hin : In y (filter (on x0) r))
      by (apply filter_In; split; assumption).
    rewrite E in Hin. contradiction.
  - intros H. apply in_map_iff in H. destruct H as [y [Ey _]].
    discriminate.
Qed.

Lemma left_join_unmatched {L R : Type} (on : L -> R -> bool) (l : list L)
    (r : list R) (x : L) :
  In (x, None) (left_join on l r) ->
  forall y, In y r -> on x y = false.
Proof.
  unfold left_join. intros H. apply in_flat_map in H.
  destruct H as [x0 [_ H]]. eapply join_rows_unmatched. exact H.
Qed.

(** The crypto cell of a row of the statement is the price of a row of the
    selected coin on the date of the row, or it is NULL and the coin has no
    row on that date. *)
Lemma overview_crypto_cell (sd ed : day) (btc : string)
    (row : overview_row) :
  In row (overview db sd ed btc) ->
  (exists r,
     In r (crypto_prices db) /\ coin_id r = btc /\ cp_date r = date row
     /\ price_usd r = bitcoin_price row)
  \/ (bitcoin_price row = F64.null
      /\ forall r,
           In r (crypto_prices db) -> coin_id r = btc ->
           cp_date r <> date row).
Proof.
  unfold overview. intros Hrow.
  apply order_by_In in Hrow. apply in_map_iff in Hrow.
  destruct Hrow as [[[[[d r_cp] r_o] r_sp] r_ni] [<- Hj]].
  cbn [date bitcoin_price].
  apply left_join_In in Hj. destruct Hj as [Hj _]. cbn [fst snd] in Hj.
  apply left_join_In in Hj. destruct Hj as [Hj _]. cbn [fst snd] in Hj.
  apply left_join_In in Hj. destruct Hj as [Hj _]. cbn [fst snd] in Hj.
  destruct r_cp as [r |].
  - left. apply left_join_In in Hj. destruct Hj as [_ Hcp].
    cbn [fst snd] in Hcp. destruct Hcp as [Hr Hon].
    apply of_coin_In in Hr. destruct Hr as [Hr Hc].
    apply Z.eqb_eq in Hon. exists r. cbn [joined]. auto.
  - right. split; [reflexivity |]. intros r Hr Hc Hd.
    pose proof (left_join_unmatched _ _ _ _ Hj r) as Hno.
    cbv beta in Hno. rewrite Hd, Z.eqb_refl in Hno.
    assert (Hin : In r (of_coin btc (crypto_prices db)))
      by (apply of_coin_In; split; assumption).
    specialize (Hno Hin). discriminate.
Qed.

End Overview_rows.

(** ** The coin behind the crypto series: the claim *)

Section Bitcoin_claims.

Import Store Sql Frame App.

Ltac never_done H :=
  repeat
    (let a := fresh "a" in
     let s1 := fresh "s" in
     let E := fresh "E" in
     apply bind_Done in H as (a & s1 & E & H));
  discriminate H.

(** C10.  [get_bitcoin_coin_id] always returns, and one value whatever the
    session.  If some [coin_id] of [crypto_prices] contains bitcoin or btc
    (letters compared without case), it returns such a [coin_id].  If none
    does and the table is not empty, it returns a coin whose all-time
    average price no other coin exceeds.  If the table is empty it returns
    no coin, and the Market Overview, asked for a valid range, shows the
    Bitcoin error and stops without rendering.  Whenever the page renders,
    its crypto column is the price series of that one coin over the range
    asked for.  Every non-null crypto cell is the price of a
    [crypto_prices] row of the coin on the date of the table row.  Every
    crypto cell is the price of such a row, or it is null and the coin has
    no row on that date.  And every row of the coin that is dated inside the
    range and has a price is shown: the table has a row with its date and
    its price in the crypto column. *)
Theorem C10_bitcoin_selection (db : database) (today : day) (s : session) :
  exists btc s',
    get_bitcoin_coin_id db s = (Done btc, s')
    /\ ((exists c,
           In c (map coin_id (crypto_prices db)) /\ like_bitcoin c = true) ->
        exists c,
          btc = Some c
          /\ In c (map coin_id (crypto_prices db))
          /\ like_bitcoin c = true)
    /\ ((forall c,
           In c (map coin_id (crypto_prices db)) -> like_bitcoin c = false) ->
        crypto_prices db <> [] ->
        exists c,
          btc = Some c
          /\ In c (map coin_id (crypto_prices db))
          /\ forall c', In c' (map coin_id (crypto_prices db)) ->
                        F64.leb (avg_price db c') (avg_price db c) = true)
    /\ (crypto_prices db = [] ->
        btc = None
        /\ forall (start_date end_date : day) (s0 : session),
             (start_date <= end_date)%Z ->
             exists s1,
               market_overview db today (Some start_date) (Some end_date) s0
               = (Stopped, s1)
               /\ shown s1
                  = shown s0
                    ++ [Shown_error
                          "Could not find Bitcoin in the database. Check the `crypto_prices` table."])
    /\ (forall picked_start picked_end s0 view s1,
          market_overview db today picked_start picked_end s0
          = (Done view, s1) ->
          exists c sd ed,
            btc = Some c
            /\ snapshot view = drop_all_null (overview db sd ed c)
            /\ (forall row,
                  In row (snapshot view) ->
                  F64.isnull (bitcoin_price row) = false ->
                  exists r,
                    In r (crypto_prices db)
                    /\ coin_id r = c
                    /\ cp_date r = date row
                    /\ price_usd r = bitcoin_price row)
            /\ (forall d, picked_start = Some d -> sd = d)
            /\ (forall d, picked_end = Some d -> ed = d)
            /\ (forall row,
                  In row (snapshot view) ->
                  (exists r,
                     In r (crypto_prices db)
                     /\ coin_id r = c
                     /\ cp_date r = date row
                     /\ price_usd r = bitcoin_price row)
                  \/ (bitcoin_price row = F64.null
                      /\ forall r,
                           In r (crypto_prices db) -> coin_id r = c ->
                           cp_date r <> date row))
            /\ (forall r,
                  In r (crypto_prices db) -> coin_id r = c ->
                  (sd <= cp_date r <= ed)%Z ->
                  F64.isnull (price_usd r) = false ->
                  exists row,
                    In row (snapshot view)
                    /\ date row = cp_date r
                    /\ bitcoin_price row = price_usd r)).
Proof.
  pose proof (get_bitcoin_coin_id_yields db) as Hy.
  destruct (Hy s) as (s' & E & _).
  eexists. exists s'. split; [exact E |].
  split; [| split; [| split]].
  - intros [c0 [Hin Hlike]].
    destruct (bitcoin_like_found db c0 Hin Hlike) as (c & Ec & Hc & Hl).
    rewrite Ec. exists c. auto.
  - intros Hnone Hne.
    rewrite (bitcoin_like_none db Hnone).
    destruct (highest_avg_found db Hne) as (c & v & Ec & Hc & Hmax).
    rewrite Ec. exists c. auto.
  - intros Hempty.
    assert (Hnone : forall c, In c (map coin_id (crypto_prices db)) ->
                              like_bitcoin c = false)
      by (rewrite Hempty; intros c []).
    assert (Hval :
      match bitcoin_like_coin db with
      | c :: _ => Some c
      | [] => match highest_avg_coin db with
              | (c, _) :: _ => Some c
              | [] => None
              end
      end = None).
    { rewrite (bitcoin_like_none db Hnone).
      unfold highest_avg_coin, avg_price_by_coin, coin_ids.
      rewrite Hempty. reflexivity. }
    split; [exact Hval |].
    intros start_date end_date s0 Hrange.
    destruct (get_db_date_range_yields db today) as [range Hr].
    destruct (Hr s0) as (s1 & E1 & Sh1 & _).
    destruct (Hy s1) as (s2 & E2 & Sh2 & _).
    rewrite Hval in E2.
    unfold market_overview.
    unfold bind at 1. rewrite E1. unfold date_input.
    assert (Hok : (end_date <? start_date)%Z = false)
      by (apply Z.ltb_ge; exact Hrange).
    rewrite Hok. unfold bind at 1. rewrite E2. cbn [truthy negb].
    unfold bind at 1. unfold st_error at 1.
    match goal with
    | |- context [bind _ _ ?st] =>
        destruct (yields_run_query unbound (some_coin_ids_query db)
                    eq_refl st)
          as (s3 & E3 & Sh3 & _)
    end.
    unfold bind at 1. rewrite E3. unfold st_stop.
    exists s3. split; [reflexivity |].
    rewrite Sh3. cbn [shown]. rewrite Sh2, Sh1. reflexivity.
  - intros picked_start picked_end s0 view s1 H.
    unfold market_overview in H.
    apply bind_Done in H as (range & s2 & _ & H).
    destruct (date_input (snd range) picked_end
              <? date_input (fst range) picked_start)%Z.
    { never_done H. }
    apply bind_Done in H as (btc & s3 & Hb & H).
    destruct (Hy s2) as (s3' & E3 & _).
    rewrite E3 in Hb. injection Hb as Hb _.
    destruct (negb (truthy btc)) eqn:Et.
    { never_done H. }
    destruct btc as [c |]; [| discriminate].
    apply bind_Done in H as (df & s4 & Hq & H).
    unfold read_sql_query in Hq. injection Hq as Hdf _. simpl in Hdf.
    destruct (drop_all_null df) as [| r0 rest] eqn:Ef.
    { never_done H. }
    unfold ret in H. injection H as <- _. cbn [snapshot].
    exists c, (date_input (fst range) picked_start),
      (date_input (snd range) picked_end).
    split; [exact Hb |].
    split; [rewrite <- Ef, <- Hdf; reflexivity |].
    rewrite <- Ef, <- Hdf.
    split; [| split; [| split; [| split]]].
    + intros row Hrow Hnn.
      apply filter_In in Hrow. destruct Hrow as [Hrow _].
      eapply overview_bitcoin_price; eassumption.
    + intros d ->. reflexivity.
    + intros d ->. reflexivity.
    + intros row Hrow.
      apply filter_In in Hrow. destruct Hrow as [Hrow _].
      eapply overview_crypto_cell. exact Hrow.
    + intros r Hr Hc Hrange Hnn.
      destruct (overview_choose db (date_input (fst range) picked_start)
                  (date_input (snd range) picked_end) c (cp_date r)
                  (Some r) None None None)
        as (row & Hrow & Hd & H1 & _); try exact I.
      { apply all_dates_In. split; [apply in_range_between, Hrange |].
        left. apply in_map. exact Hr. }
      { auto. }
      specialize (H1 r eq_refl). exists row.
      split; [| split; [exact Hd | exact H1]].
      apply (keeps_row _ _ Bitcoin_price Hrow).
      simpl. rewrite H1. exact Hnn.
Qed.


Lemma C10_bitcoin_selection_witness :
  (exists c s',
     get_bitcoin_coin_id Samples.market fresh = (Done (Some c), s')
     /\ like_bitcoin c = true)
  /\ (exists c s',
        get_bitcoin_coin_id Samples.altcoins fresh = (Done (Some c), s')
        /\ forall c', In c' (map coin_id (crypto_prices Samples.altcoins)) ->
                      F64.leb (avg_price Samples.altcoins c')
                        (avg_price Samples.altcoins c) = true)
  /\ (exists s' s1,
        get_bitcoin_coin_id Samples.no_crypto fresh = (Done None, s')
        /\ market_overview Samples.no_crypto Samples.jan3
             (Some Samples.jan1) (Some Samples.jan3) fresh
           = (Stopped, s1))
  /\ (exists view s1 c sd ed,
        market_overview Samples.market Samples.jan3 None None fresh
        = (Done view, s1)
        /\ snapshot view = drop_all_null (overview Samples.market sd ed c))
  /\ (exists view s1 row,
        market_overview Samples.market Samples.jan3
          (Some Samples.jan1) (Some Samples.jan3) fresh
        = (Done view, s1)
        /\ In row (snapshot view)
        /\ date row = Samples.jan2
        /\ bitcoin_price row = F64.of_Z 43000).
Proof.
  split; [| split; [| split; [| split]]].
  - destruct (C10_bitcoin_selection Samples.market Samples.jan3 fresh)
      as (btc & s' & E & H & _).
    assert (Hsome :
      exists c, In c (map coin_id (crypto_prices Samples.market))
                /\ like_bitcoin c = true).
    { exists "bitcoin"%string. split; [left |]; reflexivity. }
    destruct (H Hsome) as (c & -> & _ & Hlike).
    exists c, s'. split; [exact E | exact Hlike].
  - destruct (C10_bitcoin_selection Samples.altcoins Samples.jan3 fresh)
      as (btc & s' & E & _ & H & _).
    assert (Hnone :
      forall c, In c (map coin_id (crypto_prices Samples.altcoins)) ->
                like_bitcoin c = false).
    { intros c Hc. simpl in Hc.
      destruct Hc as [<- | [<- | [<- | []]]]; reflexivity. }
    assert (Hne : crypto_prices Samples.altcoins <> []) by discriminate.
    destruct (H Hnone Hne) as (c & -> & _ & Hmax).
    exists c, s'. split; [exact E | exact Hmax].
  - destruct (C10_bitcoin_selection Samples.no_crypto Samples.jan3 fresh)
      as (btc & s' & E & _ & _ & H & _).
    destruct (H eq_refl) as [-> Hstop].
    assert (Hrange : (Samples.jan1 <= Samples.jan3)%Z) by discriminate.
    destruct (Hstop Samples.jan1 Samples.jan3 fresh Hrange) as (s1 & E1 & _).
    exists s', s1. split; [exact E | exact E1].
  - destruct (C10_bitcoin_selection Samples.market Samples.jan3 fresh)
      as (btc & s' & _ & _ & _ & _ & H).
    assert (Hrun : market_overview Samples.market Samples.jan3 None None fresh
                   = (Done _, _)) by (vm_compute; reflexivity).
    destruct (H _ _ _ _ _ Hrun) as (c & sd & ed & _ & Hsnap & _).
    eexists _, _, c, sd, ed. split; [exact Hrun | exact Hsnap].
  - destruct (C10_bitcoin_selection Samples.market Samples.jan3 fresh)
      as (btc & s' & E & Hlike & _ & _ & H).
    assert (Hsome :
      exists c, In c (map coin_id (crypto_prices Samples.market))
                /\ like_bitcoin c = true).
    { exists "bitcoin"%string. split; [left |]; reflexivity. }
    destruct (Hlike Hsome) as (c0 & Ebtc & _ & _).
    assert (Hval : fst (get_bitcoin_coin_id Samples.market fresh)
                   = Done (Some "bitcoin"%string))
      by (vm_compute; reflexivity).
    rewrite E, Ebtc in Hval. cbn [fst] in Hval. injection Hval as ->.
    assert (Hrun : market_overview Samples.market Samples.jan3
                     (Some Samples.jan1) (Some Samples.jan3) fresh
                   = (Done _, _)) by (vm_compute; reflexivity).
    destruct (H _ _ _ _ _ Hrun)
      as (c & sd & ed & Ec & _ & _ & Hsd & Hed & _ & Hall).
    rewrite Ebtc in Ec. injection Ec as <-.
    rewrite (Hsd _ eq_refl), (Hed _ eq_refl) in Hall.
    destruct (Hall (Samples.crypto "bitcoin" Samples.jan2 43000))
      as (row & Hrow & Hd & Hp).
    + simpl. right. right. right. left. reflexivity.
    + reflexivity.
    + simpl. unfold Samples.jan1, Samples.jan2, Samples.jan3. lia.
    + reflexivity.
    + eexists _, _, row. split; [exact Hrun |].
      split; [exact Hrow | split; [exact Hd | exact Hp]].
Defined.

End Bitcoin_claims.

(** ** Order and gaps of the rendered overview *)

Section Overview_order.

Import Store Sql Frame Rows App.
Local Open Scope string_scope.

Lemma sorted_filter {A : Type} (R : A -> A -> Prop) (f : A -> bool)
    (l : list A) :
  StronglySorted R l -> StronglySorted R (filter f l).
Proof.
  induction 1 as [| x l Hs IH Hall]; simpl.
  - constructor.
  - destruct (f x); [| exact IH].
    constructor; [exact IH |].
    apply Forall_forall. intros y Hy. apply filter_In in Hy.
    rewrite Forall_forall in Hall. apply Hall. tauto.
Qed.

Lemma sorted_map {A B : Type} (f : A -> B) (R : B -> B -> Prop) (l : list A) :
  StronglySorted (fun a b => R (f a) (f b)) l -> StronglySorted R (map f l).
Proof.
  induction 1 as [| x l Hs IH Hall]; simpl; constructor.
  - exact IH.
  - apply Forall_forall. intros y Hy. apply in_map_iff in Hy.
    destruct Hy as [a [<- Ha]]. rewrite Forall_forall in Hall.
    apply Hall, Ha.
Qed.

Lemma max_of_head (d : day) (rest : list day) :
  Forall (fun x => (x <= d)%Z) rest -> max_of (d :: rest) = Some d.
Proof.
  unfold max_of. intros H. f_equal.
  induction H as [| x rest Hx _ IH]; simpl.
  - reflexivity.
  - rewrite Z.max_l by exact Hx. exact IH.
Qed.

Lemma rebase_dates (c : column) (df : list overview_row) :
  map date (rebase c df) = map date df.
Proof.
  unfold rebase. destruct (F64.dropna (series c df)) as [| first rest].
  - reflexivity.
  - rewrite map_map. apply map_ext. intros r. apply date_set.
Qed.

Lemma normalize_dates (df : list overview_row) :
  map date (normalize df) = map date df.
Proof.
  unfold normalize, columns. simpl fold_left.
  rewrite !rebase_dates. reflexivity.
Qed.

(** X11.  The normalisation pass moves no row and fills no gap: the frame
    keeps its dates in their order, hence its number of rows, and in every
    column a cell that was null is still null afterwards. *)
Theorem X11_normalize_keeps_rows_and_gaps (df : list overview_row) :
  map date (normalize df) = map date df
  /\ length (normalize df) = length df
  /\ forall (c : column) (i : nat) (v : F64.t),
       nth_error (series c df) i = Some v ->
       F64.isnull v = true ->
       nth_error (series c (normalize df)) i = Some F64.null.
Proof.
  split; [apply normalize_dates |].
  split.
  - rewrite <- (length_map date (normalize df)), normalize_dates.
    apply length_map.
  - intros c i v Hv Hnull.
    assert (Ev : v = F64.null) by (destruct v; try discriminate; reflexivity).
    subst v.
    rewrite series_normalize, series_rebase_same.
    destruct (F64.dropna (series c df)) as [| first rest].
    + exact Hv.
    + rewrite nth_error_map, Hv. reflexivity.
Qed.

Lemma X11_normalize_keeps_rows_and_gaps_witness :
  let df :=
    plot_frame
      (drop_all_null
         (overview Samples.three_days Samples.jan1 Samples.jan3 "bitcoin")) in
  nth_error (series Oil_price (normalize df)) 2 = Some F64.null.
Proof.
  intros df.
  exact (proj2 (proj2 (X11_normalize_keeps_rows_and_gaps df))
           Oil_price 2%nat F64.null eq_refl eq_refl).
Defined.

Variable db : database.
Variable today : day.

(** What the Market Overview shows when it renders on a picked range. *)
Lemma market_overview_rendered (sd ed : day) (s s' : session)
    (view : overview_view) :
  market_overview db today (Some sd) (Some ed) s = (Done view, s') ->
  exists btc,
    snapshot view = drop_all_null (overview db sd ed btc)
    /\ chart view = normalize (plot_frame (snapshot view))
    /\ latest_date view = max_of (map date (snapshot view))
    /\ snapshot view <> [].
Proof.
  intros Hrun.
  destruct (market_overview_cases db today) as (db_min & db_max & _ & _ & H).
  specialize (H (Some sd) (Some ed)). cbv zeta in H. unfold date_input in H.
  destruct (ed <? sd)%Z.
  { destruct (H s) as (s1 & E & _). congruence. }
  destruct (negb (truthy _)).
  { destruct (H s) as (s1 & E & _). congruence. }
  destruct (drop_all_null _) as [| r rest] eqn:Edf.
  { destruct (H s) as (s1 & E & _). congruence. }
  destruct (H s) as (s1 & E & _). rewrite E in Hrun.
  injection Hrun as <- _. cbn [snapshot chart latest_date].
  eexists. split; [symmetry; exact Edf |].
  repeat split. discriminate.
Qed.

(** X12.  When the Market Overview renders on a picked range, the snapshot
    table has at least one row, lists only dates of that range and lists
    them newest first; the date shown above the cards is the date of its
    first row; and the chart data holds the same dates with the same
    multiplicity in chronological order. *)
Theorem X12_overview_table_and_chart_order (sd ed : day) (s s' : session)
    (view : overview_view) :
  market_overview db today (Some sd) (Some ed) s = (Done view, s') ->
  Forall (fun row => (sd <= date row <= ed)%Z) (snapshot view)
  /\ StronglySorted (fun a b => (b <= a)%Z) (map date (snapshot view))
  /\ (exists first rest,
        snapshot view = first :: rest
        /\ latest_date view = Some (date first))
  /\ StronglySorted (fun a b => (a <= b)%Z) (map date (chart view))
  /\ Permutation (map date (chart view)) (map date (snapshot view)).
Proof.
  intros Hrun.
  destruct (market_overview_rendered sd ed s s' view Hrun)
    as (btc & Esnap & Echart & Elatest & Hne).
  pose proof (overview_dates_in_range db sd ed btc) as Hrange.
  assert (Hsorted :
    StronglySorted (fun a b => (date b <= date a)%Z) (snapshot view)).
  { rewrite Esnap. apply sorted_filter. unfold overview.
    apply date_desc_sorted. }
  split; [| split; [| split; [| split]]].
  - rewrite Esnap. apply Forall_forall. intros row Hrow.
    apply filter_In in Hrow. rewrite Forall_forall in Hrange.
    apply Hrange. tauto.
  - apply sorted_map. exact Hsorted.
  - destruct (snapshot view) as [| first rest] eqn:Es; [contradiction |].
    exists first, rest. split; [reflexivity |].
    rewrite Elatest. simpl map. apply max_of_head.
    apply StronglySorted_inv in Hsorted. destruct Hsorted as [_ Hall].
    apply Forall_forall. intros x Hx. apply in_map_iff in Hx.
    destruct Hx as [r [<- Hr]]. rewrite Forall_forall in Hall.
    apply Hall, Hr.
  - rewrite Echart, normalize_dates. apply sorted_map.
    unfold plot_frame. apply date_asc_sorted.
  - rewrite Echart, normalize_dates. apply Permutation_map.
    unfold plot_frame. apply order_by_perm.
Qed.

End Overview_order.

(** ** The series of the Top 3 page *)

Section Coin_series_facts.

Import Store Sql Frame Rows App Cards.
Local Open Scope string_scope.

Lemma fst_asc_sorted (rows : list (day * F64.t)) :
  StronglySorted (fun a b => (fst a <= fst b)%Z)
    (order_by (fun a b => (fst a <=? fst b)%Z) rows).
Proof.
  eapply sorted_weaken;
    [| apply (order_by_sorted (fun a b : day * F64.t => (fst a <=? fst b)%Z))].
  - intros a b H. apply Z.leb_le. exact H.
  - intros a b. destruct (Z.le_ge_cases (fst a) (fst b));
      [left | right]; apply Z.leb_le; assumption.
  - intros a b c H1 H2. apply Z.leb_le in H1, H2. apply Z.leb_le. lia.
Qed.

(** The last row of an ascending list is a row of the list and no row
    comes later. *)
Lemma sorted_last (rows : list (day * F64.t)) (dflt : day * F64.t) :
  rows <> [] ->
  StronglySorted (fun a b => (fst a <= fst b)%Z) rows ->
  In (last rows dflt) rows
  /\ forall x, In x rows -> (fst x <= fst (last rows dflt))%Z.
Proof.
  intros Hne Hs. induction Hs as [| x l Hs IH Hall]; [contradiction |].
  destruct l as [| y l'].
  - simpl. split; [left; reflexivity |]. intros z [<- | []]. lia.
  - destruct (IH ltac:(discriminate)) as [Hin Hle].
    change (last (x :: y :: l') dflt) with (last (y :: l') dflt).
    split; [right; exact Hin |].
    intros z [<- | Hz]; [| apply Hle, Hz].
    rewrite Forall_forall in Hall. apply Hall, Hin.
Qed.

Lemma last_map_snd (rows : list (day * F64.t)) (d : day) (v : F64.t) :
  last (map snd rows) v = snd (last rows (d, v)).
Proof.
  induction rows as [| x [| y l] IH]; try reflexivity.
  change (last (map snd (x :: y :: l)) v) with (last (map snd (y :: l)) v).
  exact IH.
Qed.

Variable db : database.

Lemma coin_series_In (c : string) (s e d : day) (p : F64.t) :
  In (d, p) (coin_series db c s e)
  <-> exists r,
        In r (crypto_prices db) /\ coin_id r = c /\ cp_date r = d
        /\ price_usd r = p /\ (s <= d <= e)%Z.
Proof.
  unfold coin_series. rewrite order_by_In, in_map_iff. split.
  - intros [r [E Hr]]. injection E as <- <-.
    apply filter_In in Hr. destruct Hr as [Hr Hb].
    apply of_coin_In in Hr. destruct Hr as [Hr Hc].
    unfold between in Hb. apply andb_true_iff in Hb.
    destruct Hb as [H1 H2]. apply Z.leb_le in H1, H2.
    exists r. repeat split; auto.
  - intros (r & Hr & Hc & <- & <- & Hrange). exists r.
    split; [reflexivity |]. apply filter_In.
    split; [apply of_coin_In; split; assumption |].
    apply in_range_between, Hrange.
Qed.

(** X13.  The series statement of the Top 3 page returns exactly the rows of
    the selected coin whose date lies in the closed range: every point is
    such a row, every such row is a point, one point per row; the points
    come in ascending date order; and a range whose start lies after its end
    gives no point. *)
Theorem X13_coin_series_exact_and_ordered (c : string) (s e : day) :
  (forall d p,
     In (d, p) (coin_series db c s e)
     <-> exists r,
           In r (crypto_prices db) /\ coin_id r = c /\ cp_date r = d
           /\ price_usd r = p /\ (s <= d <= e)%Z)
  /\ length (coin_series db c s e)
     = length
         (filter
            (fun r => String.eqb (coin_id r) c && between s e (cp_date r))
            (crypto_prices db))
  /\ StronglySorted (fun a b => (a <= b)%Z) (map fst (coin_series db c s e))
  /\ ((e < s)%Z -> coin_series db c s e = []).
Proof.
  split; [apply coin_series_In |].
  split; [| split].
  - unfold coin_series, of_coin.
    rewrite order_by_length, length_map.
    f_equal. clear. induction (crypto_prices db) as [| r l IH]; simpl.
    + reflexivity.
    + destruct (String.eqb (coin_id r) c); simpl.
      * destruct (between s e (cp_date r)); simpl; rewrite IH; reflexivity.
      * exact IH.
  - apply sorted_map. unfold coin_series. apply fst_asc_sorted.
  - intros Hlt. destruct (coin_series db c s e) as [| [d p] rest] eqn:E;
      [reflexivity |].
    assert (Hin : In (d, p) (coin_series db c s e))
      by (rewrite E; left; reflexivity).
    apply coin_series_In in Hin. destruct Hin as (r & _ & _ & _ & _ & Hr).
    lia.
Qed.

Variable today : day.

(** What the Top 3 page shows when it renders on a picked range. *)
Lemma top3_analysis_rendered (picked_coin : option nat) (s e : day)
    (st st' : session) (view : coin_view) :
  top3_analysis db today picked_coin (Some s) (Some e) st = (Done view, st') ->
  cdf view = coin_series db (coin view) s e /\ cdf view <> [].
Proof.
  intros Hrun.
  destruct (top3_analysis_cases db today) as (db_min & db_max & _ & _ & H).
  specialize (H picked_coin (Some s) (Some e)). cbv zeta in H.
  unfold date_input in H.
  destruct (map fst _) as [| c0 rest].
  { destruct (H st) as (s1 & E & _). congruence. }
  destruct H as (c1 & _ & H).
  destruct (e <? s)%Z.
  { destruct (H st) as (s1 & E & _). congruence. }
  destruct (coin_series db c1 s e) as [| p ps] eqn:Ecdf.
  { destruct (H st) as (s1 & E & _). congruence. }
  destruct (object_column (map snd (p :: ps))).
  { destruct (H st) as (s1 & E & _). congruence. }
  destruct (H st) as (s1 & E & _). rewrite E in Hrun.
  injection Hrun as <- _. cbn [coin cdf].
  split; [symmetry; exact Ecdf | discriminate].
Qed.

(** X14.  When the Top 3 page renders on a picked range, the Current Price
    card shows the price of a row of the selected coin inside the range, and
    no row of that coin inside the range is dated later: it is the latest
    price of the range, not necessarily of the store. *)
Theorem X14_current_price_is_latest_in_range (picked_coin : option nat)
    (s e : day) (st st' : session) (view : coin_view) :
  top3_analysis db today picked_coin (Some s) (Some e) st = (Done view, st') ->
  exists r,
    In r (crypto_prices db)
    /\ coin_id r = coin view
    /\ (s <= cp_date r <= e)%Z
    /\ price_usd r = current_price (cdf view)
    /\ forall r',
         In r' (crypto_prices db) -> coin_id r' = coin view ->
         (s <= cp_date r' <= e)%Z -> (cp_date r' <= cp_date r)%Z.
Proof.
  intros Hrun.
  destruct (top3_analysis_rendered picked_coin s e st st' view Hrun)
    as [Ecdf Hne].
  assert (Hs : StronglySorted (fun a b => (fst a <= fst b)%Z) (cdf view))
    by (rewrite Ecdf; unfold coin_series; apply fst_asc_sorted).
  pose (dflt := ((0%Z : day), F64.null)).
  destruct (sorted_last (cdf view) dflt Hne Hs) as [Hin Hmax].
  assert (Ecur : current_price (cdf view) = snd (last (cdf view) dflt))
    by apply last_map_snd.
  rewrite Ecur.
  destruct (last (cdf view) dflt) as [d p] eqn:El.
  rewrite Ecdf in Hin. apply coin_series_In in Hin.
  destruct Hin as (r & Hr & Hc & Hd & Hp & Hrange).
  exists r. subst d p.
  split; [exact Hr |]. split; [exact Hc |]. split; [exact Hrange |].
  split; [reflexivity |].
  intros r' Hr' Hc' Hrange'.
  assert (Hin' : In (cp_date r', price_usd r') (cdf view)).
  { rewrite Ecdf. apply coin_series_In. exists r'. auto. }
  apply Hmax in Hin'. simpl in Hin'. exact Hin'.
Qed.

End Coin_series_facts.

(** ** Labels and names of the Top 3 page *)

Section Label_facts.

Import Store Sql Frame Rows App.
Local Open Scope string_scope.

Lemma dict_update_other {V : Type} (other d : Dict.t V) (k : string) :
  ~ In k (map fst other) -> Dict.get (Dict.update d other) k = Dict.get d k.
Proof.
  unfold Dict.update. revert d.
  induction other as [| [k1 v1] other IH]; intros d Hnot; simpl.
  - reflexivity.
  - rewrite IH by (intros H; apply Hnot; right; exact H).
    rewrite dict_get_set.
    destruct (String.eqb_spec k1 k) as [-> | _]; [| reflexivity].
    exfalso. apply Hnot. left. reflexivity.
Qed.

(** With pairwise distinct keys every pair can be looked up. *)
Lemma dict_update_lookup {V : Type} (other d : Dict.t V) (k : string) (v : V) :
  NoDup (map fst other) -> In (k, v) other ->
  Dict.get (Dict.update d other) k = Some v.
Proof.
  revert d.
  induction other as [| [k1 v1] other IH]; intros d Hnd Hin; simpl in *.
  - contradiction.
  - apply NoDup_cons_iff in Hnd. destruct Hnd as [Hnot Hnd].
    destruct Hin as [E | Hin].
    + injection E as -> ->.
      change (Dict.get (Dict.update (Dict.set d k v) other) k = Some v).
      rewrite dict_update_other by exact Hnot.
      rewrite dict_get_set, String.eqb_refl. reflexivity.
    + apply (IH (Dict.set d k1 v1) Hnd Hin).
Qed.

Lemma combine_nth_In {X Y : Type} (l1 : list X) (l2 : list Y) (i : nat)
    (x : X) (y : Y) :
  length l1 = length l2 -> (i < length l1)%nat ->
  In (nth i l1 x, nth i l2 y) (combine l1 l2).
Proof.
  intros Hlen Hi. rewrite <- combine_nth by exact Hlen.
  apply nth_In. rewrite length_combine. lia.
Qed.

(** With pairwise distinct labels the i-th label stands for the i-th
    coin. *)
Lemma label_lookup_nth (name_map : Dict.t string) (top3 : list string)
    (i : nat) :
  NoDup (display_labels name_map top3) -> (i < length top3)%nat ->
  Dict.get (label_to_id (display_labels name_map top3) top3)
    (selectbox (display_labels name_map top3) (Some i))
  = Some (nth i top3 "").
Proof.
  intros Hnd Hi.
  assert (Hlen : length (display_labels name_map top3) = length top3)
    by apply length_map.
  unfold label_to_id, selectbox.
  apply dict_update_lookup.
  - rewrite map_fst_combine by exact Hlen. exact Hnd.
  - apply combine_nth_In; [exact Hlen | lia].
Qed.

(** The mapping of [get_coin_display_names] holds, under every identifier
    found in the rows, the display name of a row with that identifier. *)
Lemma name_map_hit (rows : list cryptocurrency_row) (d : Dict.t string)
    (c : string) :
  In c (map id rows) ->
  exists m,
    In m rows /\ id m = c
    /\ Dict.get
         (fold_left
            (fun mapping row => Dict.set mapping (id row) (display_name row))
            rows d)
         c
       = Some (display_name m).
Proof.
  induction rows as [| x rows IH] using rev_ind; intros Hin.
  - contradiction.
  - rewrite fold_left_app. simpl. rewrite dict_get_set.
    destruct (String.eqb_spec (id x) c) as [E | Hne].
    + exists x. split; [apply in_or_app; right; left; reflexivity |].
      split; [exact E | reflexivity].
    + rewrite map_app, in_app_iff in Hin. destruct Hin as [Hin | Hin].
      * destruct (IH Hin) as (m & Hm & Em & Hget).
        exists m. split; [apply in_or_app; left; exact Hm |].
        split; assumption.
      * simpl in Hin. destruct Hin as [E | []]. contradiction.
Qed.

Variable db : database.
Variable today : day.

(** X15.  On ASCII text, where Python and SQLite fold letters alike: an
    ASCII identifier that is spelled exactly like the [id] of a metadata
    row, the rows of that [id] having ASCII symbols, is shown as Name
    (SYMBOL): the name of a metadata row with that [id], a blank, and its
    symbol in capitals between parentheses. *)
Theorem X15_exact_identifier_shows_name_and_symbol (top3 : list string)
    (c : string) (s : session) :
  In c top3 ->
  Text.is_ascii c = true ->
  (exists m, In m (cryptocurrencies db) /\ id m = c) ->
  (forall m, In m (cryptocurrencies db) -> id m = c ->
             Text.is_ascii (symbol m) = true) ->
  exists name_map s' m,
    get_coin_display_names db top3 s = (Done name_map, s')
    /\ In m (cryptocurrencies db) /\ id m = c
    /\ display_labels name_map [c]
       = [name m ++ " (" ++ Text.upper (symbol m) ++ ")"].
Proof.
  intros Hc _ (m0 & Hm0 & E0) _.
  destruct (get_coin_display_names_yields db top3 s) as (s' & E & _).
  assert (Hin : In c (map id (metadata_of db (map Text.lower top3)))).
  { apply in_map_iff. exists m0. split; [exact E0 |].
    unfold metadata_of. apply filter_In. split; [exact Hm0 |].
    apply mem_true_iff. rewrite E0. apply in_map. exact Hc. }
  destruct (name_map_hit _ [] c Hin) as (m & Hm & Em & Hget).
  eexists. exists s', m. split; [exact E |].
  unfold metadata_of in Hm. apply filter_In in Hm.
  split; [tauto | split; [exact Em |]].
  unfold display_labels, Dict.get_default. simpl map.
  rewrite Hget. reflexivity.
Qed.

(** The coin the Top 3 page renders is the one its label stands for. *)
Lemma top3_analysis_coin (picked_coin : option nat)
    (picked_from picked_to : option day) (st st' : session)
    (view : coin_view) (top3 : list string) (name_map : Dict.t string)
    (s0 s1 : session) :
  get_top3 db st = (Done top3, s0) ->
  get_coin_display_names db top3 s0 = (Done name_map, s1) ->
  top3_analysis db today picked_coin picked_from picked_to st
  = (Done view, st') ->
  Dict.get (label_to_id (display_labels name_map top3) top3)
    (selectbox (display_labels name_map top3) picked_coin)
  = Some (coin view).
Proof.
  intros Htop Hnames Hrun.
  destruct (get_top3_yields db st) as (s0' & Etop & _).
  rewrite Etop in Htop. injection Htop as Htop _.
  destruct (get_coin_display_names_yields db top3 s0) as (s1' & En & _).
  rewrite En in Hnames. injection Hnames as Hnames _.
  destruct (top3_analysis_cases db today) as (db_min & db_max & _ & _ & H).
  specialize (H picked_coin picked_from picked_to). cbv zeta in H.
  rewrite Htop in H. rewrite Hnames in H.
  destruct top3 as [| c0 rest].
  { destruct (H st) as (sx & E & _). congruence. }
  destruct H as (c1 & Hcoin & H).
  destruct (date_input db_max picked_to <? date_input db_min picked_from)%Z.
  { destruct (H st) as (sx & E & _). congruence. }
  destruct (coin_series db c1 _ _) as [| p ps] eqn:Ecdf.
  { destruct (H st) as (sx & E & _). congruence. }
  destruct (object_column (map snd (p :: ps))).
  { destruct (H st) as (sx & E & _). congruence. }
  destruct (H st) as (sx & E & _). rewrite E in Hrun.
  injection Hrun as <- _. cbn [coin]. exact Hcoin.
Qed.

(** X16.  When the labels of the coins offered are pairwise distinct, the
    Top 3 page renders the coin whose label was picked: picking the i-th
    label shows the i-th coin of [get_top3]. *)
Theorem X16_picked_label_shows_its_coin (i : nat)
    (picked_from picked_to : option day) (st st' : session)
    (view : coin_view) (top3 : list string) (name_map : Dict.t string)
    (s0 s1 : session) :
  get_top3 db st = (Done top3, s0) ->
  get_coin_display_names db top3 s0 = (Done name_map, s1) ->
  NoDup (display_labels name_map top3) ->
  (i < length top3)%nat ->
  top3_analysis db today (Some i) picked_from picked_to st
  = (Done view, st') ->
  coin view = nth i top3 "".
Proof.
  intros Htop Hnames Hnd Hi Hrun.
  pose proof (top3_analysis_coin (Some i) picked_from picked_to st st' view
                top3 name_map s0 s1 Htop Hnames Hrun) as Hget.
  rewrite (label_lookup_nth name_map top3 i Hnd Hi) in Hget.
  injection Hget as <-. reflexivity.
Qed.

End Label_facts.

Section Label_witnesses.

Import Store Sql Frame App.
Local Open Scope string_scope.

Lemma X15_exact_identifier_shows_name_and_symbol_witness :
  exists name_map s',
    get_coin_display_names Samples.market ["bitcoin"; "ethereum"; "tether"]
      fresh
    = (Done name_map, s')
    /\ exists m,
         In m (cryptocurrencies Samples.market) /\ id m = "ethereum"
         /\ display_labels name_map ["ethereum"]
            = [name m ++ " (" ++ Text.upper (symbol m) ++ ")"].
Proof.
  assert (Hc : In "ethereum" ["bitcoin"; "ethereum"; "tether"])
    by (right; left; reflexivity).
  assert (Hm : exists m, In m (cryptocurrencies Samples.market)
                         /\ id m = "ethereum").
  { exists {| id := "ethereum"; name := "Ethereum"; symbol := "eth" |}.
    split; [right; left |]; reflexivity. }
  assert (Hsym :
    forall m, In m (cryptocurrencies Samples.market) -> id m = "ethereum" ->
              Text.is_ascii (symbol m) = true).
  { intros m [<- | [<- | []]] _; reflexivity. }
  destruct (X15_exact_identifier_shows_name_and_symbol Samples.market
              ["bitcoin"; "ethereum"; "tether"] "ethereum" fresh Hc eq_refl
              Hm Hsym)
    as (name_map & s' & m & E & Hin & Eid & Hlabel).
  exists name_map, s'. split; [exact E |].
  exists m. split; [exact Hin | split; [exact Eid | exact Hlabel]].
Defined.

Lemma X16_picked_label_shows_its_coin_witness :
  exists view s',
    top3_analysis Samples.market Samples.jan3 (Some 1%nat) None None fresh
    = (Done view, s')
    /\ coin view = "ethereum".
Proof.
  assert (Htop : get_top3 Samples.market fresh = (Done _, _))
    by (vm_compute; reflexivity).
  match type of Htop with
  | _ = (Done ?t, ?s0) =>
      assert (Hnames :
        get_coin_display_names Samples.market t s0 = (Done _, _))
        by (vm_compute; reflexivity)
  end.
  assert (Hrun :
    top3_analysis Samples.market Samples.jan3 (Some 1%nat) None None fresh
    = (Done _, _)) by (vm_compute; reflexivity).
  eexists. eexists. split; [exact Hrun |].
  refine (X16_picked_label_shows_its_coin Samples.market Samples.jan3 1%nat
            None None fresh _ _ _ _ _ _ Htop Hnames _ _ Hrun).
  - repeat constructor; simpl; intuition discriminate.
  - simpl. lia.
Defined.

End Label_witnesses.

(** ** The ranking behind the top 3 *)

Section Ranking_properties.

Import Store Sql Rows App.
Local Open Scope string_scope.

(** In a sorted list every kept row is before every cut row. *)
Lemma sorted_limit_dominates {A : Type} (R : A -> A -> Prop) (l : list A) :
  StronglySorted R l ->
  forall n x y, In x (firstn n l) -> In y (skipn n l) -> R x y.
Proof.
  induction 1 as [| a l Hs IH Hall]; intros n x y Hx Hy.
  - rewrite firstn_nil in Hx. contradiction.
  - destruct n as [| n]; simpl in Hx, Hy; [contradiction |].
    destruct Hx as [<- | Hx].
    + rewrite Forall_forall in Hall. apply Hall.
      rewrite <- (firstn_skipn n l). apply in_or_app. right. exact Hy.
    + apply (IH n); assumption.
Qed.

Variable db : database.

(** The price the latest-price statement shows for a coin. *)
Local Abbreviation latest c :=
  (latest_price (filter (is_latest db) (crypto_prices db)) c).

(** X17.  The latest price the ranking uses for a coin is the price of one
    of the coin's rows, and no row of the coin is dated later than that
    row. *)
Theorem X17_latest_price_is_at_latest_date (c : string) :
  In c (map coin_id (crypto_prices db)) ->
  exists r,
    In r (crypto_prices db) /\ coin_id r = c
    /\ latest_price (filter (is_latest db) (crypto_prices db)) c
       = price_usd r
    /\ forall r', In r' (crypto_prices db) -> coin_id r' = c ->
                  (cp_date r' <= cp_date r)%Z.
Proof.
  intros Hc.
  destruct (latest_row_exists db c Hc) as (r0 & Hr0 & Ec0 & Hl0).
  assert (Hin0 : In r0 (of_coin c (filter (is_latest db) (crypto_prices db)))).
  { apply of_coin_In. split; [| exact Ec0].
    apply filter_In. split; assumption. }
  unfold latest_price.
  destruct (of_coin c (filter (is_latest db) (crypto_prices db)))
    as [| r rest] eqn:E; [contradiction |].
  assert (Hr : In r (of_coin c (filter (is_latest db) (crypto_prices db))))
    by (rewrite E; left; reflexivity).
  apply of_coin_In in Hr. destruct Hr as [Hr Ec].
  apply filter_In in Hr. destruct Hr as [Hr Hl].
  exists r. split; [exact Hr | split; [exact Ec | split; [reflexivity |]]].
  intros r' Hr' Ec'.
  unfold is_latest, max_date_of_coin in Hl. rewrite Ec in Hl.
  destruct (max_of (map cp_date (of_coin c (crypto_prices db))))
    as [m |] eqn:Em; [| discriminate].
  apply Z.eqb_eq in Hl. rewrite Hl.
  apply (proj2 (max_of_spec _ _ Em)).
  apply in_map. apply of_coin_In. split; assumption.
Qed.

(** X18.  With at least 3 distinct coins [get_top3] returns exactly 3
    identifiers, ranked by descending latest price, and they are the top of
    the table: the latest price of a coin left out does not exceed the
    latest price of any coin returned (SQLite order, a null price lowest). *)
Theorem X18_top3_is_the_top (s : session) :
  (3 <= length (coin_ids (crypto_prices db)))%nat ->
  exists top3 s',
    get_top3 db s = (Done top3, s')
    /\ length top3 = 3%nat
    /\ StronglySorted (fun a b => F64.leb (latest b) (latest a) = true) top3
    /\ forall c c',
         In c top3 ->
         In c' (map coin_id (crypto_prices db)) -> ~ In c' top3 ->
         F64.leb (latest c') (latest c) = true.
Proof.
  intros Hmany.
  destruct (get_top3_yields db s) as (s' & E & _).
  pose proof (top3_by_latest_length db) as Hlen.
  assert (Hfull : (length (top3_by_latest db) <? 3)%nat = false)
    by (apply Nat.ltb_ge; lia).
  rewrite Hfull in E.
  exists (map fst (top3_by_latest db)), s'. split; [exact E |].
  split; [rewrite length_map; lia |].
  rewrite top3_by_latest_ids.
  set (ranked :=
         order_by (fun a b => F64.leb (latest b) (latest a))
           (coin_ids (filter (is_latest db) (crypto_prices db)))).
  assert (Hs : StronglySorted
                 (fun a b => F64.leb (latest b) (latest a) = true) ranked).
  { apply order_by_sorted.
    - intros a b. apply value_desc_total.
    - intros a b c. apply value_desc_trans. }
  split.
  - unfold limit. rewrite <- (firstn_skipn 3 ranked) in Hs.
    clear - Hs. 
    induction (firstn 3 ranked) as [| x l IH]; [constructor |].
    simpl in Hs. apply StronglySorted_inv in Hs. destruct Hs as [Hs Hall].
    constructor; [apply IH, Hs |].
    apply Forall_forall. intros y Hy. rewrite Forall_forall in Hall.
    apply Hall. apply in_or_app. left. exact Hy.
  - intros c c' Hc Hc' Hnot. unfold limit in *.
    apply (sorted_limit_dominates _ ranked Hs 3 c c' Hc).
    assert (Hin : In c' ranked).
    { apply order_by_In. apply latest_coin_ids_In. exact Hc'. }
    rewrite <- (firstn_skipn 3 ranked) in Hin.
    apply in_app_or in Hin. destruct Hin as [Hin | Hin];
      [contradiction | exact Hin].
Qed.

End Ranking_properties.

Section Ranking_witnesses.

Import Store Sql App.
Local Open Scope string_scope.

Lemma X17_latest_price_is_at_latest_date_witness :
  exists r,
    In r (crypto_prices Samples.market) /\ coin_id r = "ethereum"
    /\ latest_price
         (filter (is_latest Samples.market) (crypto_prices Samples.market))
         "ethereum"
       = price_usd r
    /\ forall r', In r' (crypto_prices Samples.market) ->
                  coin_id r' = "ethereum" -> (cp_date r' <= cp_date r)%Z.
Proof.
  apply (X17_latest_price_is_at_latest_date Samples.market "ethereum").
  right. left. reflexivity.
Defined.

Lemma X18_top3_is_the_top_witness :
  exists top3 s',
    get_top3 Samples.four_coins fresh = (Done top3, s')
    /\ length top3 = 3%nat
    /\ (In "B" top3 -> False).
Proof.
  assert (Hmany :
    (3 <= length (coin_ids (crypto_prices Samples.four_coins)))%nat)
    by (vm_compute; lia).
  destruct (X18_top3_is_the_top Samples.four_coins fresh Hmany)
    as (top3 & s' & E & Hlen & _ & _).
  exists top3, s'. split; [exact E | split; [exact Hlen |]].
  assert (Hrun : get_top3 Samples.four_coins fresh = (Done ["D"; "A"; "C"], _))
    by (vm_compute; reflexivity).
  rewrite Hrun in E. injection E as <- _.
  simpl. intuition discriminate.
Defined.

End Ranking_witnesses.

(** ** The store is only read *)

Section Traffic_facts.

Import Store Sql Frame Rows App Traffic.
Local Open Scope string_scope.

Variable P : statement -> Prop.

Lemma sends_ret {A : Type} (a : A) : sends P (ret a).
Proof.
  intros s. exists []. split; [symmetry; apply app_nil_r | constructor].
Qed.

Lemma sends_stop {A : Type} : sends P (@st_stop A).
Proof.
  intros s. exists []. split; [symmetry; apply app_nil_r | constructor].
Qed.

Lemma sends_raise {A : Type} (e : string) : sends P (@raise A e).
Proof.
  intros s. exists []. split; [symmetry; apply app_nil_r | constructor].
Qed.

Lemma sends_error (msg : string) : sends P (st_error msg).
Proof.
  intros s. exists []. split; [symmetry; apply app_nil_r | constructor].
Qed.

Lemma sends_warning (msg : string) : sends P (st_warning msg).
Proof.
  intros s. exists []. split; [symmetry; apply app_nil_r | constructor].
Qed.

Lemma sends_read {A : Type} (q : query A) :
  P (stmt q) -> sends P (read_sql_query q).
Proof.
  intros H s. exists [stmt q]. split; [reflexivity |].
  constructor; [exact H | constructor].
Qed.

Lemma sends_bind {A B : Type} (m : M A) (k : A -> M B) :
  sends P m -> (forall a, sends P (k a)) -> sends P (bind m k).
Proof.
  intros Hm Hk s. unfold bind.
  destruct (Hm s) as (sent & I & F).
  destruct (m s) as [[a | | e] s1]; simpl in I.
  - destruct (Hk a s1) as (sent' & I' & F').
    exists (sent ++ sent')%list. split.
    + rewrite I', I, app_assoc. reflexivity.
    + apply Forall_app. split; assumption.
  - exists sent. split; assumption.
  - exists sent. split; assumption.
Qed.

Lemma sends_cache_data {A : Type} (k : cache_key) (body : M A) :
  sends P body -> sends P (cache_data k body).
Proof.
  intros Hb s. unfold cache_data.
  destruct (memoized k s).
  - exists []. split; [symmetry; apply app_nil_r | constructor].
  - destruct (Hb s) as (sent & I & F).
    destruct (body s) as [[a | | e] s1]; simpl in I |- *;
      exists sent; split; assumption.
Qed.

Lemma sends_run_query {A : Type} (q : query A) :
  P (stmt q) -> sends P (run_query q).
Proof.
  intros H. apply sends_cache_data, sends_read, H.
Qed.

End Traffic_facts.

Section Traffic_properties.

Import Store Sql Frame Rows App Traffic.
Local Open Scope string_scope.

Ltac reads :=
  repeat
    first
      [ apply sends_ret
      | apply sends_stop
      | apply sends_raise
      | apply sends_error
      | apply sends_warning
      | apply sends_run_query; reflexivity
      | apply sends_read; reflexivity
      | apply sends_cache_data
      | apply sends_bind; [| intros ?]
      | progress cbv zeta
      | match goal with
        | |- sends _ (match ?x with _ => _ end) => destruct x
        end ].

(** X19.  Whatever the user picks and whatever the session holds, every
    statement the Market Overview and the Top 3 page send to the store,
    their helpers and diagnostics included, is a query: it opens with
    SELECT, or with WITH and then holds no INSERT, REPLACE, UPDATE or
    DELETE.  The same holds of every statement of the catalogue the Run
    button can send.  The application never writes to the store. *)
Theorem X19_store_is_only_read (db : database) (today : day)
    (picked_start picked_end : option day) (picked_coin : option nat)
    (picked_from picked_to : option day) :
  sends read_only (market_overview db today picked_start picked_end)
  /\ sends read_only
       (top3_analysis db today picked_coin picked_from picked_to)
  /\ Forall
       (fun e => read_only {| sql := snd e; params := [] |})
       Catalog.PREDEFINED.
Proof.
  split; [| split].
  - unfold market_overview, get_db_date_range, get_bitcoin_coin_id,
      date_tables, collect_ranges.
    reads.
  - unfold top3_analysis, get_top3, get_coin_display_names,
      get_db_date_range, date_tables, collect_ranges, metric_cards.
    reads.
  - apply Forall_forall.
    assert (E :
      forallb (fun e => is_query_text (snd e)) Catalog.PREDEFINED = true)
      by (vm_compute; reflexivity).
    rewrite forallb_forall in E. exact E.
Qed.

End Traffic_properties.

(** ** The Bitcoin pattern *)

Section Pattern_facts.

Import Sql.
Local Open Scope string_scope.

Lemma prefix_spec (needle hay : string) :
  String.prefix needle hay = true <-> exists post, hay = needle ++ post.
Proof.
  revert hay. induction needle as [| c needle IH]; intros hay.
  - destruct hay; simpl;
      (split; [intros _; eexists; reflexivity | reflexivity]).
  - destruct hay as [| d hay]; simpl.
    + split; [discriminate | intros [post E]; discriminate].
    + destruct (Ascii.ascii_dec c d) as [-> | Hne].
      * rewrite IH. split; intros [post E]; exists post.
        -- rewrite E. reflexivity.
        -- injection E as E. exact E.
      * split; [discriminate |].
        intros [post E]. injection E as E1 E2. congruence.
Qed.

(** [hay LIKE '%needle%']: the needle occurs somewhere in the text. *)
Lemma contains_spec (needle hay : string) :
  Text.contains needle hay = true
  <-> exists pre post, hay = pre ++ needle ++ post.
Proof.
  induction hay as [| d hay IH].
  - cbn [Text.contains]. rewrite orb_false_r, prefix_spec. split.
    + intros [post E]. exists "", post. exact E.
    + intros (pre & post & E). destruct pre as [| p pre]; [| discriminate].
      exists post. exact E.
  - cbn [Text.contains]. rewrite orb_true_iff, prefix_spec, IH. split.
    + intros [[post E] | (pre & post & E)].
      * exists "", post. exact E.
      * exists (String d pre), post. rewrite E. reflexivity.
    + intros (pre & post & E). destruct pre as [| p pre].
      * left. exists post. exact E.
      * right. injection E as _ E. exists pre, post. exact E.
Qed.

Lemma to_lower_to_upper (c : ascii) :
  Text.to_lower (Text.to_upper c) = Text.to_lower c.
Proof.
  destruct c as [[] [] [] [] [] [] [] []]; reflexivity.
Qed.

Lemma to_lower_idem (c : ascii) :
  Text.to_lower (Text.to_lower c) = Text.to_lower c.
Proof.
  destruct c as [[] [] [] [] [] [] [] []]; reflexivity.
Qed.

Lemma lower_upper (s : string) : Text.lower (Text.upper s) = Text.lower s.
Proof.
  induction s as [| c s IH]; [reflexivity |].
  unfold Text.lower, Text.upper in *. simpl.
  rewrite to_lower_to_upper, IH. reflexivity.
Qed.

Lemma lower_idem (s : string) : Text.lower (Text.lower s) = Text.lower s.
Proof.
  induction s as [| c s IH]; [reflexivity |].
  unfold Text.lower in *. simpl.
  rewrite to_lower_idem, IH. reflexivity.
Qed.

(** X20.  The pattern of [get_bitcoin_coin_id] accepts exactly the
    identifiers whose lower-case form holds bitcoin or btc somewhere, so
    the spelling of the letters never matters: an identifier, its
    upper-case and its lower-case form are accepted alike. *)
Theorem X20_bitcoin_pattern_ignores_case (c : string) :
  (like_bitcoin c = true
   <-> exists pre post,
         Text.lower c = pre ++ "bitcoin" ++ post
         \/ Text.lower c = pre ++ "btc" ++ post)
  /\ like_bitcoin (Text.upper c) = like_bitcoin c
  /\ like_bitcoin (Text.lower c) = like_bitcoin c.
Proof.
  split; [| split].
  - unfold like_bitcoin. rewrite orb_true_iff, !contains_spec. split.
    + intros [(pre & post & E) | (pre & post & E)]; exists pre, post;
        [left | right]; exact E.
    + intros (pre & post & [E | E]); [left | right]; exists pre, post;
        exact E.
  - unfold like_bitcoin. rewrite lower_upper. reflexivity.
  - unfold like_bitcoin. rewrite lower_idem. reflexivity.
Qed.

End Pattern_facts.

(** ** The tables of the sample stores *)

Section Table_witnesses.

Import Store Sql Frame Rows App Cards.
Local Open Scope string_scope.

Lemma X8_overview_rows_in_range_newest_first_witness :
  overview Samples.market Samples.jan3 Samples.jan1 "bitcoin" = []
  /\ StronglySorted (fun a b => (date b <= date a)%Z)
       (overview Samples.market Samples.jan1 Samples.jan3 "bitcoin").
Proof.
  split.
  - apply (X8_overview_rows_in_range_newest_first
             Samples.market Samples.jan3 Samples.jan1 "bitcoin").
    reflexivity.
  - apply (X8_overview_rows_in_range_newest_first
             Samples.market Samples.jan1 Samples.jan3 "bitcoin").
Defined.

Lemma X9_overview_cells_come_from_source_witness :
  exists r,
    In r (crypto_prices Samples.market)
    /\ coin_id r = "bitcoin" /\ cp_date r = Samples.jan3
    /\ price_usd r = F64.of_Z 44000.
Proof.
  pose (row := {| date := Samples.jan3;
                  bitcoin_price := F64.of_Z 44000;
                  oil_price := F64.null;
                  sp500_close := F64.null;
                  nifty_close := F64.null |}).
  assert (Hrow :
    In row (overview Samples.market Samples.jan1 Samples.jan3 "bitcoin"))
    by (vm_compute; left; reflexivity).
  destruct (X9_overview_cells_come_from_source
              Samples.market Samples.jan1 Samples.jan3 "bitcoin" row Hrow)
    as (H & _).
  apply H. reflexivity.
Defined.

Lemma X10_overview_loses_no_price_witness :
  exists row,
    In row
      (drop_all_null
         (overview Samples.market Samples.jan1 Samples.jan3 "bitcoin"))
    /\ date row = Samples.jan2
    /\ bitcoin_price row = F64.of_Z 43000.
Proof.
  destruct (X10_overview_loses_no_price
              Samples.market Samples.jan1 Samples.jan3 "bitcoin")
    as (H & _).
  destruct (H (Samples.crypto "bitcoin" Samples.jan2 43000))
    as (row & Hin & Hd & Hp & Hkeep).
  - simpl. right. right. right. left. reflexivity.
  - reflexivity.
  - simpl. unfold Samples.jan1, Samples.jan2, Samples.jan3. lia.
  - exists row. split; [apply Hkeep; reflexivity |].
    split; assumption.
Defined.

Lemma X12_overview_table_and_chart_order_witness :
  exists view s',
    market_overview Samples.three_days Samples.jan3
      (Some Samples.jan1) (Some Samples.jan3) fresh
    = (Done view, s')
    /\ StronglySorted (fun a b => (b <= a)%Z) (map date (snapshot view))
    /\ StronglySorted (fun a b => (a <= b)%Z) (map date (chart view)).
Proof.
  assert (E : exists view s',
    market_overview Samples.three_days Samples.jan3
      (Some Samples.jan1) (Some Samples.jan3) fresh
    = (Done view, s'))
    by (vm_compute; eexists; eexists; reflexivity).
  destruct E as (view & s' & E). exists view, s'.
  split; [exact E |].
  destruct (X12_overview_table_and_chart_order
              Samples.three_days Samples.jan3 Samples.jan1 Samples.jan3
              fresh s' view E)
    as (_ & H1 & _ & H2 & _).
  split; assumption.
Defined.

Lemma X13_coin_series_exact_and_ordered_witness :
  coin_series Samples.market "bitcoin" Samples.jan3 Samples.jan1 = []
  /\ In (Samples.jan2, F64.of_Z 43000)
       (coin_series Samples.market "bitcoin" Samples.jan1 Samples.jan3).
Proof.
  split.
  - apply (X13_coin_series_exact_and_ordered
             Samples.market "bitcoin" Samples.jan3 Samples.jan1).
    reflexivity.
  - apply (X13_coin_series_exact_and_ordered
             Samples.market "bitcoin" Samples.jan1 Samples.jan3).
    exists (Samples.crypto "bitcoin" Samples.jan2 43000).
    split; [simpl; right; right; right; left; reflexivity |].
    split; [reflexivity |]. split; [reflexivity |].
    split; [reflexivity |].
    unfold Samples.jan1, Samples.jan2, Samples.jan3. lia.
Defined.

Lemma X14_current_price_is_latest_in_range_witness :
  exists view s',
    top3_analysis Samples.market Samples.jan3 None
      (Some Samples.jan1) (Some Samples.jan2) fresh
    = (Done view, s')
    /\ exists r,
         In r (crypto_prices Samples.market)
         /\ coin_id r = coin view
         /\ price_usd r = current_price (cdf view).
Proof.
  assert (E : exists view s',
    top3_analysis Samples.market Samples.jan3 None
      (Some Samples.jan1) (Some Samples.jan2) fresh
    = (Done view, s'))
    by (vm_compute; eexists; eexists; reflexivity).
  destruct E as (view & s' & E). exists view, s'.
  split; [exact E |].
  destruct (X14_current_price_is_latest_in_range
              Samples.market Samples.jan3 None Samples.jan1 Samples.jan2
              fresh s' view E)
    as (r & Hr & Hc & _ & Hp & _).
  exists r. split; [exact Hr | split; [exact Hc | exact Hp]].
Defined.

End Table_witnesses.

(** ** The boxes of the SQL Query Runner *)

Section Runner_facts.

Import App Catalog Runner.
Local Open Scope string_scope.

Lemma groups_agree : forallb group_agrees categories = true.
Proof. vm_compute. reflexivity. Qed.

(** X21.  Whatever is picked in the Category and the Query box, neither
    subscript of the SQL Query Runner raises: the category is a key of
    [QUERY_GROUPS], and the statement taken from the merged [PREDEFINED]
    is the one that the chosen category lists under the picked name. *)
Theorem X21_runner_selects_listed_statement
    (picked_category picked_query : option nat) (s : session) :
  exists group_queries selected,
    Dict.get QUERY_GROUPS (selectbox categories picked_category)
    = Some group_queries
    /\ Dict.get group_queries
         (selectbox (Dict.keys group_queries) picked_query)
       = Some selected
    /\ selection picked_category picked_query s = (Done selected, s).
Proof.
  pose proof groups_agree as H. rewrite forallb_forall in H.
  assert (Hcat : In (selectbox categories picked_category) categories)
    by (apply selectbox_In; discriminate).
  specialize (H _ Hcat). unfold group_agrees in H. unfold selection.
  destruct (Dict.get QUERY_GROUPS (selectbox categories picked_category))
    as [group_queries |] eqn:Egroup; [| discriminate].
  apply andb_true_iff in H. destruct H as [Hne H].
  rewrite forallb_forall in H.
  assert (Hname :
    In (selectbox (Dict.keys group_queries) picked_query)
       (Dict.keys group_queries)).
  { apply selectbox_In. destruct group_queries; [discriminate |].
    discriminate. }
  specialize (H _ Hname). cbv zeta.
  destruct (Dict.get PREDEFINED
              (selectbox (Dict.keys group_queries) picked_query))
    as [merged |]; [| discriminate].
  destruct (Dict.get group_queries
              (selectbox (Dict.keys group_queries) picked_query))
    as [listed |] eqn:Elisted; [| discriminate].
  apply String.eqb_eq in H. subst merged.
  exists group_queries, listed.
  split; [reflexivity | split; [exact Elisted | reflexivity]].
Qed.

End Runner_facts.
